(** * Dependency Grapher front end: session polling, blast-radius
      orchestration and the Cytoscape graph viewer.

    A shallow embedding of [services/api.js] ([pollAnalysis]),
    [hooks/useAnalysis.js], [App.js] (selection handlers) and
    [components/GraphViewer.jsx], followed by the properties of the
    specification that concern them.

    Asynchronous functions are embedded as resumable processes: the
    synchronous prefix of a handler is a function on the state, every
    [await] is a suspension point, and the settlement of the awaited
    promise is an event that resumes the rest of the handler. *)

From Stdlib Require Import List String Ascii Bool Arith ZArith QArith Lia Lqa.
From Stdlib Require Import Qround Qpower Floats.SpecFloat.
From Stdlib Require Import DecimalString DecimalNat DecimalFacts.
Import ListNotations.
Close Scope Q_scope.
Open Scope string_scope.

(** ** JavaScript values *)

Module Js.

(** An [Error] object, identified by its [message]. *)
Record Error : Type := mkError { message : string }.

(** How an awaited promise settles. *)
Inductive Settled (A : Type) : Type :=
| Fulfilled (value : A)
| Rejected (reason : Error).
Arguments Fulfilled {A} value.
Arguments Rejected {A} reason.

(** How a call of an [async] function completes. *)
Inductive Completion (A : Type) : Type :=
| Returned (value : A)
| Threw (reason : Error).
Arguments Returned {A} value.
Arguments Threw {A} reason.

(** [s || d] on a possibly absent string: the empty string is falsy. *)
Definition str_or (s : option string) (d : string) : string :=
  match s with
  | Some m => if (m =? "")%string then d else m
  | None => d
  end.

(** [n || d] on a possibly absent integer: zero is falsy. *)
Definition num_or (n : option Z) (d : Z) : Z :=
  match n with
  | Some v => if (v =? 0)%Z then d else v
  | None => d
  end.

(** [xs || []] on a possibly absent array: every array is truthy. *)
Definition arr_or {A : Type} (xs : option (list A)) : list A :=
  match xs with
  | Some l => l
  | None => []
  end.

(** [path.split('/').pop()]: the text after the last slash. *)
Fixpoint last_segment_from (acc : string) (s : string) : string :=
  match s with
  | EmptyString => acc
  | String c rest =>
      if Ascii.eqb c "/"%char
      then last_segment_from EmptyString rest
      else last_segment_from (acc ++ String c EmptyString) rest
  end.

Definition last_segment (s : string) : string :=
  last_segment_from EmptyString s.

(** [haystack.includes(needle)]: the needle occurs as a contiguous part.
    Strings stand for the UTF-8 text of the JavaScript string; for a
    needle of ASCII characters the two searches agree. *)
Fixpoint includes_text (haystack needle : string) : bool :=
  if prefix needle haystack then true
  else match haystack with
       | EmptyString => false
       | String _ rest => includes_text rest needle
       end.

(** One white-space or line-terminator character at the head of the
    text, removed: TAB, LF, VT, FF, CR, SP, and in UTF-8 U+00A0, U+1680,
    U+2000 to U+200A, U+2028, U+2029, U+202F, U+205F, U+3000, U+FEFF. *)
Definition strip_space (s : string) : option string :=
  match s with
  | EmptyString => None
  | String c rest =>
      let n := nat_of_ascii c in
      if ((9 <=? n) && (n <=? 13) || (n =? 32))%nat then Some rest
      else
        match rest with
        | String c1 rest1 =>
            let n1 := nat_of_ascii c1 in
            if ((n =? 194) && (n1 =? 160))%nat then Some rest1
            else
              match rest1 with
              | String c2 rest2 =>
                  let n2 := nat_of_ascii c2 in
                  if ((n =? 225) && (n1 =? 154) && (n2 =? 128)
                      || (n =? 226) && (n1 =? 128)
                         && ((128 <=? n2) && (n2 <=? 138) || (n2 =? 168)
                             || (n2 =? 169) || (n2 =? 175))
                      || (n =? 226) && (n1 =? 129) && (n2 =? 159)
                      || (n =? 227) && (n1 =? 128) && (n2 =? 128)
                      || (n =? 239) && (n1 =? 187) && (n2 =? 191))%nat
                  then Some rest2 else None
              | EmptyString => None
              end
        | EmptyString => None
        end
  end.

(** [s.trimStart()]; each round removes at least one byte, so as many
    rounds as the text has bytes are enough. *)
Fixpoint trimStart_rounds (rounds : nat) (s : string) : string :=
  match rounds with
  | O => s
  | S rounds' =>
      match strip_space s with
      | Some rest => trimStart_rounds rounds' rest
      | None => s
      end
  end.

Definition trimStart (s : string) : string := trimStart_rounds (String.length s) s.

(** [!s.trim()]: nothing but white space. *)
Definition blank (s : string) : bool :=
  match trimStart s with
  | EmptyString => true
  | String _ _ => false
  end.

(** The value of a decimal digit. *)
Definition digit (c : ascii) : option Z :=
  let n := Z.of_nat (nat_of_ascii c) in
  if ((48 <=? n) && (n <=? 57))%Z then Some (n - 48)%Z else None.

(** The longest run of decimal digits at the head of the text, read as
    a number on top of [acc]. *)
Fixpoint parse_digits (acc : Z) (s : string) : Z :=
  match s with
  | EmptyString => acc
  | String c rest =>
      match digit c with
      | Some d => parse_digits (acc * 10 + d) rest
      | None => acc
      end
  end.

(** The text does not go on with a digit. *)
Definition no_leading_digit (s : string) : bool :=
  match s with
  | EmptyString => true
  | String c _ =>
      match digit c with
      | Some _ => false
      | None => true
      end
  end.

(** The decimal numeral of a natural number, as [String(n)] writes it. *)
Definition numeral (n : nat) : string := NilZero.string_of_uint (Nat.to_uint n).

(** [Number.parseInt(value, 10)] as a mathematical integer, [None] for
    [NaN]. [value] is absent for [undefined], which reads as the text
    "undefined". *)
Definition parseInt (value : option string) : option Z :=
  match value with
  | None => None
  | Some s =>
      let s := trimStart s in
      let (sign, s) :=
        match s with
        | String c rest =>
            if Ascii.eqb c "-"%char then ((-1)%Z, rest)
            else if Ascii.eqb c "+"%char then (1%Z, rest)
            else (1%Z, s)
        | EmptyString => (1%Z, s)
        end in
      match s with
      | String c _ =>
          match digit c with
          | Some _ => Some (sign * parse_digits 0 s)%Z
          | None => None
          end
      | EmptyString => None
      end
  end.

End Js.

Import Js.

(** ** JavaScript numbers

    A JavaScript number is an IEEE-754 double. A finite one is
    represented by the rational it denotes, and an operation returns
    the double nearest to the exact result, the one with an even
    significand of two equally near. Overflow is left out: a result of
    2^1024 or more, which IEEE makes [Infinity], is rounded like any
    other. *)

Module Float64.

Definition pow2 (e : Z) : Q := Qpower 2 e.

(** The integer nearest to [q], the even one of two equally near. *)
Definition nearest_even (q : Q) : Z :=
  let f := Qfloor q in
  match Qcompare (q - inject_Z f) (1#2) with
  | Lt => f
  | Gt => (f + 1)%Z
  | Eq => if Z.even f then f else (f + 1)%Z
  end.

(** The binary exponent of a positive [q]: the [e] with
    [2^e <= q < 2^(e+1)]. *)
Definition exponent (q : Q) : Z :=
  let l := (Z.log2 (Qnum q) - Z.log2 (Zpos (Qden q)))%Z in
  if Qle_bool (pow2 l) q then l else (l - 1)%Z.

(** The exponent of the last place of the double nearest to a
    positive [q]: a significand has 53 bits, and below 2^-1022 the
    doubles are the multiples of 2^-1074. *)
Definition ulp (q : Q) : Z := Z.max (exponent q - 52) (-1074).

Definition round_pos (q : Q) : Q :=
  let e := ulp q in
  Qred (inject_Z (nearest_even (q / pow2 e)) * pow2 e).

(** The double nearest to [q]. *)
Definition round (q : Q) : Q :=
  match Qcompare q 0 with
  | Eq => 0%Q
  | Gt => round_pos q
  | Lt => (- round_pos (- q))%Q
  end.

(** The number a decimal literal of the source denotes. *)
Definition literal (q : Q) : Q := round q.

(** [a * b]. *)
Definition mul (a b : Q) : Q := round (a * b).

(** A double, given in lowest terms, as the standard library's
    specification of IEEE-754 arithmetic has it, with a sign, an
    integer significand and an exponent, and back. *)
Definition to_spec (q : Q) : spec_float :=
  match Qnum q with
  | Z0 => S754_zero false
  | Zpos m => S754_finite false m (- Z.log2 (Zpos (Qden q)))
  | Zneg m => S754_finite true m (- Z.log2 (Zpos (Qden q)))
  end.

Definition of_spec (x : spec_float) : option Q :=
  match x with
  | S754_zero _ => Some 0%Q
  | S754_finite s m e =>
      Some (Qred ((if s then - (1) else 1) * inject_Z (Zpos m) * pow2 e))
  | _ => None
  end.

(** [a * b] by that specification, at the precision and exponent
    range of a double. *)
Definition reference_mul (a b : Q) : option Q :=
  of_spec (SFmul 53 1024 (to_spec a) (to_spec b)).

End Float64.

(** ** services/api.js *)

Module Api.

(** The payload of [GET /api/analysis/:id]. *)
Record StatusPayload : Type := mkStatus {
  status : string;
  progress : option Z;
  progress_message : option string;
  error : option string;
  summary : option (list (string * Z))
}.

(** Where a call of [pollAnalysis] stands once the responses received
    so far are used up: suspended on the next [getAnalysis], or
    completed. [St] is the state the [onProgress] callback acts on. *)
Inductive Poll (St : Type) : Type :=
| Awaiting (attempts : nat) (st : St)
| Finished (st : St) (outcome : Completion StatusPayload).
Arguments Awaiting {St} attempts st.
Arguments Finished {St} st outcome.

(** [if (onProgress) onProgress(status)]. *)
Definition notify {St : Type} (onProgress : option (StatusPayload -> St -> St))
    (payload : StatusPayload) (st : St) : St :=
  match onProgress with
  | Some f => f payload st
  | None => st
  end.

(** The [while (attempts < maxAttempts)] loop of [pollAnalysis], entered
    with the counter at [attempts]. [responses] are the settlements of
    the successive [getAnalysis] calls, in call order; the sleep between
    two attempts takes no part in the result. *)
Fixpoint poll_loop {St : Type} (onProgress : option (StatusPayload -> St -> St))
    (maxAttempts : nat) (responses : list (Settled StatusPayload))
    (attempts : nat) (st : St) {struct responses} : Poll St :=
  if (attempts <? maxAttempts)%nat then
    match responses with
    | [] => Awaiting attempts st
    | Rejected e :: _ => Finished st (Threw e)
    | Fulfilled payload :: rest =>
        let st' := notify onProgress payload st in
        if (status payload =? "complete")%string then
          Finished st' (Returned payload)
        else if (status payload =? "error")%string then
          Finished st' (Threw (mkError (str_or (error payload) "Analysis failed")))
        else
          poll_loop onProgress maxAttempts rest (attempts + 1) st'
    end
  else Finished st (Threw (mkError "Analysis timeout")).

Definition pollAnalysis {St : Type} (onProgress : option (StatusPayload -> St -> St))
    (maxAttempts : nat) (responses : list (Settled StatusPayload)) (st : St)
    : Poll St :=
  poll_loop onProgress maxAttempts responses 0 st.

(** The state after the callback has seen the payloads [ps] in order. *)
Definition notified {St : Type} (onProgress : option (StatusPayload -> St -> St))
    (ps : list StatusPayload) (st : St) : St :=
  fold_left (fun s p => notify onProgress p s) ps st.

(** A payload that ends the loop. *)
Definition terminal (p : StatusPayload) : bool :=
  (status p =? "complete")%string || (status p =? "error")%string.

(** [parseTimeout(value, fallback)] of the later [api.js]:
    [Number.isFinite(n) ? n : fallback]. An integer up to 2^53 is a
    JavaScript number as it stands; beyond that [parseInt] rounds (or
    gives [Infinity]) and the result is left out of the model ([None]). *)
Definition parseTimeout (value : option string) (fallback : Z) : option Z :=
  match parseInt value with
  | None => Some fallback
  | Some n => if (Z.abs n <=? 2 ^ 53)%Z then Some n else None
  end.

(** [API_TIMEOUT_MS] and [GRAPH_TIMEOUT_MS], given the two environment
    variables. *)
Definition API_TIMEOUT_MS (env : option string) : option Z := parseTimeout env 300000.
Definition GRAPH_TIMEOUT_MS (env : option string) : option Z := parseTimeout env 600000.

(** What a call of [pollAnalysis] has left in the callback's state. *)
Definition poll_state {St : Type} (p : Poll St) : St :=
  match p with
  | Awaiting _ st => st
  | Finished st _ => st
  end.

End Api.

(** ** hooks/useAnalysis.js *)

Module UseAnalysis.
Import Api.

(** The five [useState] cells of the hook. *)
Record Session : Type := mkSession {
  loading : bool;
  error : option string;
  analysisId : option string;
  status : option StatusPayload;
  progress : Z
}.

Definition initial : Session := mkSession false None None None 0.

Definition setLoading (b : bool) (s : Session) : Session :=
  mkSession b (error s) (analysisId s) (status s) (progress s).
Definition setError (e : option string) (s : Session) : Session :=
  mkSession (loading s) e (analysisId s) (status s) (progress s).
Definition setAnalysisId (i : option string) (s : Session) : Session :=
  mkSession (loading s) (error s) i (status s) (progress s).
Definition setStatus (p : option StatusPayload) (s : Session) : Session :=
  mkSession (loading s) (error s) (analysisId s) p (progress s).
Definition setProgress (n : Z) (s : Session) : Session :=
  mkSession (loading s) (error s) (analysisId s) (status s) n.

Definition reset (s : Session) : Session :=
  setProgress 0 (setStatus None (setAnalysisId None (setError None (setLoading false s)))).

(** The callback [analyze] hands to [pollAnalysis]. *)
Definition onProgress (statusUpdate : StatusPayload) (s : Session) : Session :=
  setProgress (num_or (Api.progress statusUpdate) 0) (setStatus (Some statusUpdate) s).

(** [max 5 minutes]: the attempt budget [analyze] passes. *)
Definition maxAttempts : nat := 150.

(** A call of [analyze] between two events. *)
Inductive Analyze : Type :=
| AwaitStart
| AwaitPoll (id : string) (attempts : nat)
| Done (outcome : Completion string).

(** The [catch] block of [analyze]. *)
Definition analyze_catch (err : Error) (s : Session) : Session :=
  setLoading false (setError (Some (str_or (Some (message err)) "Analysis failed")) s).

(** [analyze(repoUrl, branch)] up to its first [await]. *)
Definition analyze (s : Session) : Session * Analyze :=
  (setProgress 0 (setError None (setLoading true s)), AwaitStart).

(** What the environment can do to a hook with a call in flight. *)
Inductive Event : Type :=
| StartSettled (r : Settled string)
| StatusSettled (r : Settled StatusPayload)
| Reset.

(** The rest of [analyze] around its [await pollAnalysis(...)]: still
    suspended while the poll is, [setLoading(false)] and the id when it
    returns, the [catch] block when it throws. *)
Definition after_poll (id : string) (p : Poll Session) : Session * Analyze :=
  match p with
  | Awaiting n s => (s, AwaitPoll id n)
  | Finished s (Returned _) => (setLoading false s, Done (Returned id))
  | Finished s (Threw err) => (analyze_catch err s, Done (Threw err))
  end.

(** The rest of [analyze] once [startAnalysis] has settled. *)
Definition resume_start (r : Settled string) (s : Session) : Session * Analyze :=
  match r with
  | Rejected err => (analyze_catch err s, Done (Threw err))
  | Fulfilled id =>
      after_poll id (pollAnalysis (Some onProgress) maxAttempts []
                                  (setAnalysisId (Some id) s))
  end.

(** The rest of [analyze] once the [getAnalysis] call it is suspended on
    inside [pollAnalysis] has settled. *)
Definition resume_poll (id : string) (attempts : nat)
    (r : Settled StatusPayload) (s : Session) : Session * Analyze :=
  after_poll id (poll_loop (Some onProgress) maxAttempts [r] attempts s).

(** One event applied to the hook and its call of [analyze]. A
    settlement nobody is waiting for changes nothing; [reset] only
    writes the state cells. *)
Definition step (w : Session * Analyze) (ev : Event) : Session * Analyze :=
  let (s, k) := w in
  match ev, k with
  | Reset, _ => (reset s, k)
  | StartSettled r, AwaitStart => resume_start r s
  | StatusSettled r, AwaitPoll id n => resume_poll id n r s
  | _, _ => (s, k)
  end.

Definition run (w : Session * Analyze) (evs : list Event) : Session * Analyze :=
  fold_left step evs w.

(** The hook shows the idle session. *)
Definition idle (s : Session) : Prop :=
  loading s = false /\ status s = None /\ progress s = 0%Z /\ error s = None.

(** [loadAnalysis(id)] up to its [await]. *)
Definition loadAnalysis (s : Session) : Session :=
  setError None (setLoading true s).

(** The rest of [loadAnalysis(id)] once [getAnalysis] has settled. *)
Definition resume_load (id : string) (r : Settled StatusPayload) (s : Session)
    : Session * Completion StatusPayload :=
  match r with
  | Fulfilled data =>
      (setLoading false
         (setProgress (num_or (Api.progress data) 0)
            (setStatus (Some data) (setAnalysisId (Some id) s))),
       Returned data)
  | Rejected err =>
      (setLoading false
         (setError (Some (str_or (Some (message err)) "Failed to load analysis")) s),
       Threw err)
  end.

(** No [reset] among the events. *)
Definition no_reset (evs : list Event) : Prop :=
  Forall (fun ev => ev <> Reset) evs.

(** What holds of the hook while a call of [analyze], made when the
    status was [status0], is at [k]. *)
Definition lifecycle (status0 : option StatusPayload) (w : Session * Analyze) : Prop :=
  let (s, k) := w in
  let kept := status s = status0
              \/ exists p, status s = Some p /\ Api.status p <> "complete" in
  match k with
  | AwaitStart => loading s = true /\ error s = None /\ status s = status0
  | AwaitPoll id n =>
      loading s = true /\ error s = None /\ analysisId s = Some id
      /\ n < maxAttempts /\ kept
  | Done (Returned id) =>
      loading s = false /\ error s = None /\ analysisId s = Some id
      /\ exists p, status s = Some p /\ Api.status p = "complete"
  | Done (Threw err) =>
      loading s = false
      /\ (exists m, error s = Some m /\ m <> "") /\ kept
  end.

End UseAnalysis.

(** ** Payloads of the remote analysis service *)

Module Graph.

(** [node.data] of the Cytoscape graph, and equally the file object the
    details panel shows: the risk fields are absent on a graph node. *)
Record FileData : Type := mkFile {
  id : string;
  label : string;
  full_path : string;
  lines : option Z;
  complexity : option Q;
  type : option string;
  risk_score : option Q;
  risk_level : option string;
  blast_radius_count : option Z
}.

Record EdgeData : Type := mkEdge {
  edge_id : string;
  source : string;
  target : string;
  edge_type : option string;
  is_relative : bool
}.

Record Elements : Type := mkElements {
  nodes : option (list FileData);
  edges : option (list EdgeData)
}.

Record GraphData : Type := mkGraph { elements : option Elements }.

(** A JavaScript object or array as React sees it: dependencies are
    compared by identity ([Object.is]), not by content. *)
Record Obj (A : Type) : Type := mkObj { addr : nat; value : A }.
Arguments mkObj {A} addr value.
Arguments addr {A} o.
Arguments value {A} o.

(** [Object.assign(target, src)] on two file objects: every property
    [src] has replaces the one of [target]. *)
Definition opt_or {A : Type} (a b : option A) : option A :=
  match a with
  | Some _ => a
  | None => b
  end.

Definition assign (target src : FileData) : FileData :=
  mkFile (id src) (label src) (full_path src)
    (opt_or (lines src) (lines target))
    (opt_or (complexity src) (complexity target))
    (opt_or (type src) (type target))
    (opt_or (risk_score src) (risk_score target))
    (opt_or (risk_level src) (risk_level target))
    (opt_or (blast_radius_count src) (blast_radius_count target)).

End Graph.

Module Risk.

(** An entry of [GET /api/analysis/:id/risk-files]. *)
Record RiskFile : Type := mkRisk {
  file_path : string;
  risk_score : option Q;
  risk_level : option string;
  blast_radius : option Z
}.

End Risk.

Module Blast.

(** The payload of [GET /api/analysis/:id/blast-radius/:path]. *)
Record BlastRadius : Type := mkBlast {
  file_path : string;
  total_affected : Z;
  risk_score : option Q;
  risk_level : option string;
  direct_dependents : option (list string);
  indirect_dependents : option (list string)
}.

End Blast.

(** ** App.js: the selection handlers *)

Module App.
Import Graph.

Inductive Tab : Type := RiskTab | DetailsTab.

(** The [useState] cells of [App] the handlers read and write. *)
Record Ui : Type := mkUi {
  graphData : option GraphData;
  riskFiles : list Risk.RiskFile;
  selectedFile : option FileData;
  blastRadius : option Blast.BlastRadius;
  highlightedNodes : list string;
  activeTab : Tab
}.

Definition setSelectedFile (f : option FileData) (u : Ui) : Ui :=
  mkUi (graphData u) (riskFiles u) f (blastRadius u) (highlightedNodes u) (activeTab u).
Definition setBlastRadius (b : option Blast.BlastRadius) (u : Ui) : Ui :=
  mkUi (graphData u) (riskFiles u) (selectedFile u) b (highlightedNodes u) (activeTab u).
Definition setHighlightedNodes (h : list string) (u : Ui) : Ui :=
  mkUi (graphData u) (riskFiles u) (selectedFile u) (blastRadius u) h (activeTab u).
Definition setActiveTab (t : Tab) (u : Ui) : Ui :=
  mkUi (graphData u) (riskFiles u) (selectedFile u) (blastRadius u) (highlightedNodes u) t.

(** A handler suspended on [await getBlastRadius(...)], with the
    variables its continuation closes over. *)
Inductive Pending : Type :=
| NodeClicked (node : FileData)
| RiskFileClicked (file : Risk.RiskFile) (fileData : FileData).

(** The application between two events: the state cells, the
    [analysisId] of the session hook, and the blast-radius requests in
    flight, oldest first. *)
Record World : Type := mkWorld {
  ui : Ui;
  analysisId : option string;
  inflight : list Pending
}.

Definition with_ui (f : Ui -> Ui) (w : World) : World :=
  mkWorld (f (ui w)) (analysisId w) (inflight w).

(** [getBlastRadius(analysisId, path)] is called: one more request in
    flight. *)
Definition issue (k : Pending) (w : World) : World :=
  mkWorld (ui w) (analysisId w) (inflight w ++ [k]).

(** [handleNodeClick(node)] up to its [await]. *)
Definition handleNodeClick (node : FileData) (w : World) : World :=
  issue (NodeClicked node)
    (with_ui (fun u => setActiveTab DetailsTab (setSelectedFile (Some node) u)) w).

(** [graphData.elements.nodes.find(n => n.data.full_path === path)],
    behind its three guards. *)
Definition find_node (g : option GraphData) (path : string) : option FileData :=
  match g with
  | Some (mkGraph (Some (mkElements (Some ns) _))) =>
      find (fun n => (full_path n =? path)%string) ns
  | _ => None
  end.

(** The [fileData] object [handleRiskFileClick] builds and selects. *)
Definition fileData_of (g : option GraphData) (file : Risk.RiskFile) : FileData :=
  let fileData :=
    mkFile (Risk.file_path file) (last_segment (Risk.file_path file))
           (Risk.file_path file) None None None
           (Risk.risk_score file) (Risk.risk_level file) (Risk.blast_radius file) in
  match find_node g (Risk.file_path file) with
  | Some node => assign fileData node
  | None => fileData
  end.

(** A string in a condition: absent and empty are falsy. *)
Definition truthy (s : option string) : bool :=
  match s with
  | Some m => negb (m =? "")%string
  | None => false
  end.

(** [handleRiskFileClick(file)] up to its [await]; without an
    [analysisId] it ends there. *)
Definition handleRiskFileClick (file : Risk.RiskFile) (w : World) : World :=
  let fileData := fileData_of (graphData (ui w)) file in
  let w' := with_ui (fun u => setActiveTab DetailsTab (setSelectedFile (Some fileData) u)) w in
  if truthy (analysisId w') then issue (RiskFileClicked file fileData) w' else w'.

(** The [affected] array both handlers compute from a response. *)
Definition affected (selected : string) (blast : Blast.BlastRadius) : list string :=
  selected :: arr_or (Blast.direct_dependents blast)
           ++ arr_or (Blast.indirect_dependents blast).

(** The object the [catch] block of [handleRiskFileClick] stores. *)
Definition degraded (file : Risk.RiskFile) : Blast.BlastRadius :=
  Blast.mkBlast (Risk.file_path file) (num_or (Risk.blast_radius file) 0)
    (Risk.risk_score file) (Risk.risk_level file) (Some []) (Some []).

(** The rest of a handler once its request has settled. *)
Definition resume (k : Pending) (r : Settled Blast.BlastRadius) (u : Ui) : Ui :=
  match k, r with
  | NodeClicked node, Fulfilled blast =>
      setHighlightedNodes (affected (id node) blast) (setBlastRadius (Some blast) u)
  | NodeClicked _, Rejected _ =>
      setBlastRadius None u
  | RiskFileClicked _ fileData, Fulfilled blast =>
      setHighlightedNodes (affected (id fileData) blast) (setBlastRadius (Some blast) u)
  | RiskFileClicked file _, Rejected _ =>
      setBlastRadius (Some (degraded file)) u
  end.

(** The list without its [i]-th element. *)
Fixpoint remove_nth {A : Type} (i : nat) (l : list A) : list A :=
  match l, i with
  | [], _ => []
  | _ :: t, O => t
  | x :: t, S j => x :: remove_nth j t
  end.

(** The [i]-th request in flight (counted from the oldest) settles. *)
Definition settle (i : nat) (r : Settled Blast.BlastRadius) (w : World) : World :=
  match nth_error (inflight w) i with
  | Some k => mkWorld (resume k r (ui w)) (analysisId w) (remove_nth i (inflight w))
  | None => w
  end.

(** A selection, from either list. *)
Inductive Selection : Type :=
| OnNode (node : FileData)
| OnRiskFile (file : Risk.RiskFile).

Definition select (s : Selection) (w : World) : World :=
  match s with
  | OnNode node => handleNodeClick node w
  | OnRiskFile file => handleRiskFileClick file w
  end.

(** What the environment can do to the application. *)
Inductive Event : Type :=
| Select (s : Selection)
| BlastSettled (i : nat) (r : Settled Blast.BlastRadius).

Definition step (w : World) (ev : Event) : World :=
  match ev with
  | Select s => select s w
  | BlastSettled i r => settle i r w
  end.

Definition run (w : World) (evs : list Event) : World :=
  fold_left step evs w.

(** The suspended handler a selection leaves behind when it fetches. *)
Definition pending_of (g : option GraphData) (s : Selection) : Pending :=
  match s with
  | OnNode node => NodeClicked node
  | OnRiskFile file => RiskFileClicked file (fileData_of g file)
  end.

(** The file object a selection makes the selected one. *)
Definition selected_of (g : option GraphData) (s : Selection) : FileData :=
  match s with
  | OnNode node => node
  | OnRiskFile file => fileData_of g file
  end.

Definition setGraphData (g : option GraphData) (u : Ui) : Ui :=
  mkUi g (riskFiles u) (selectedFile u) (blastRadius u) (highlightedNodes u) (activeTab u).
Definition setRiskFiles (r : list Risk.RiskFile) (u : Ui) : Ui :=
  mkUi (graphData u) r (selectedFile u) (blastRadius u) (highlightedNodes u) (activeTab u).

(** The five writes [handleStartAnalysis] and [handleReset] share. *)
Definition clear (u : Ui) : Ui :=
  setHighlightedNodes []
    (setBlastRadius None (setSelectedFile None (setRiskFiles [] (setGraphData None u)))).

(** [handleReset()]. *)
Definition handleReset (a : UseAnalysis.Session * Ui) : UseAnalysis.Session * Ui :=
  (UseAnalysis.reset (fst a), clear (snd a)).

(** [handleStartAnalysis(repoUrl, branch)] up to the [await] inside
    [analyze]; what [analyze] throws later is logged and dropped. *)
Definition handleStartAnalysis (a : UseAnalysis.Session * Ui)
    : (UseAnalysis.Session * UseAnalysis.Analyze) * Ui :=
  (UseAnalysis.analyze (fst a), clear (snd a)).

(** [status?.status === 'complete']. *)
Definition is_complete (s : UseAnalysis.Session) : bool :=
  match UseAnalysis.status s with
  | Some p => (Api.status p =? "complete")%string
  | None => false
  end.

(** [graphData && graphData.elements && graphData.elements.nodes
    && graphData.elements.nodes.length > 0]. *)
Definition has_nodes (g : option GraphData) : bool :=
  match g with
  | Some (mkGraph (Some (mkElements (Some (_ :: _)) _))) => true
  | _ => false
  end.

(** Which parts of the page the component returns. *)
Record View : Type := mkView {
  newAnalysisButton : bool;
  analysisForm : bool;
  progressBar : bool;
  errorMessage : bool;
  projectStats : bool;
  tabs : bool;
  riskDashboard : bool;
  fileDetails : bool;
  welcome : bool;
  spinner : bool;
  graphViewer : bool;
  noDependencies : bool
}.

Definition is_some {A : Type} (o : option A) : bool :=
  match o with
  | Some _ => true
  | None => false
  end.

Definition on_tab (t u : Tab) : bool :=
  match t, u with
  | RiskTab, RiskTab => true
  | DetailsTab, DetailsTab => true
  | _, _ => false
  end.

(** The conditions of the JSX [App] returns. *)
Definition view (s : UseAnalysis.Session) (u : Ui) : View :=
  let loading := UseAnalysis.loading s in
  mkView
    (is_complete s)
    (negb loading && negb (is_some (UseAnalysis.status s)))
    loading
    (truthy (UseAnalysis.error s))
    (is_complete s
     && match UseAnalysis.status s with
        | Some p => is_some (Api.summary p)
        | None => false
        end)
    (is_complete s)
    (is_complete s && on_tab (activeTab u) RiskTab)
    (is_complete s && on_tab (activeTab u) DetailsTab)
    (negb (is_some (graphData u)) && negb loading)
    loading
    (has_nodes (graphData u))
    (is_some (graphData u) && negb (has_nodes (graphData u)) && negb loading).

End App.

(** ** components/FileDetails.jsx *)

Module FileDetails.

(** The "Direct Dependents" section: the names shown and the count
    behind "+N more", or nothing when the section is not rendered. *)
Definition dependents_section (blastRadius : option Blast.BlastRadius)
    : option (list string * option nat) :=
  match blastRadius with
  | Some blast =>
      match Blast.direct_dependents blast with
      | Some ((_ :: _) as deps) =>
          Some (map last_segment (firstn 5 deps),
                if (5 <? List.length deps)%nat then Some (List.length deps - 5) else None)
      | _ => None
      end
  | None => None
  end.

(** The "Files Affected" figure of the blast-radius section, or nothing
    when the section is not rendered. *)
Definition files_affected (blastRadius : option Blast.BlastRadius) : option Z :=
  match blastRadius with
  | Some blast => Some (num_or (Some (Blast.total_affected blast)) 0)
  | None => None
  end.

End FileDetails.

(** ** components/AnalysisForm.jsx *)

Module AnalysisForm.

(** The three [useState] cells of the form. *)
Record Form : Type := mkForm {
  repoUrl : string;
  branch : string;
  error : string
}.

Definition setError (e : string) (f : Form) : Form :=
  mkForm (repoUrl f) (branch f) e.

(** [handleSubmit(e)]: the form afterwards, and the arguments of
    [onSubmit] when it is called. *)
Definition handleSubmit (f : Form) : Form * option (string * string) :=
  if blank (repoUrl f) then
    (setError "Please enter a repository URL" f, None)
  else if negb (includes_text (repoUrl f) "github.com")
          && negb (includes_text (repoUrl f) "gitlab.com") then
    (setError "Please enter a valid GitHub or GitLab URL" f, None)
  else
    (setError "" f, Some (repoUrl f, branch f)).

End AnalysisForm.

(** ** components/GraphViewer.jsx *)

Module GraphViewer.
Import Graph.

(** *** Layout configuration *)

Inductive OptionValue : Type :=
| VBool (b : bool)
| VNum (q : Q)
| VUndefined.

Definition LayoutConfig : Type := list (string * OptionValue).

Definition cose_bilkent_config : LayoutConfig :=
  [ ("animate", VBool true); ("animationDuration", VNum 500);
    ("nodeDimensionsIncludeLabels", VBool true); ("idealEdgeLength", VNum 100);
    ("nodeRepulsion", VNum 4500); ("gravity", VNum (1#10)) ].

Definition circle_config : LayoutConfig :=
  [ ("animate", VBool true); ("animationDuration", VNum 500);
    ("avoidOverlap", VBool true); ("radius", VNum 200) ].

Definition grid_config : LayoutConfig :=
  [ ("animate", VBool true); ("animationDuration", VNum 500);
    ("avoidOverlap", VBool true); ("rows", VUndefined); ("cols", VUndefined) ].

Definition breadthfirst_config : LayoutConfig :=
  [ ("animate", VBool true); ("animationDuration", VNum 500);
    ("directed", VBool true); ("spacingFactor", VNum (15#10)) ].

(** The property names an object literal inherits from
    [Object.prototype]. *)
Definition object_prototype_names : list string :=
  [ "constructor"; "hasOwnProperty"; "isPrototypeOf"; "propertyIsEnumerable";
    "toLocaleString"; "toString"; "valueOf"; "__proto__";
    "__defineGetter__"; "__defineSetter__"; "__lookupGetter__"; "__lookupSetter__" ].

(** [...getLayoutConfig(layoutName)], the options the two callers
    spread into the layout object. The lookup [configs[layoutName]]
    also finds what [configs] inherits from [Object.prototype]: a
    function, or the prototype itself for ['__proto__']. Either is
    truthy, so it is returned in place of the fallback, and it has no
    enumerable property of its own, so spreading it adds no option. *)
Definition getLayoutConfig (layoutName : string) : LayoutConfig :=
  if (layoutName =? "cose-bilkent")%string then cose_bilkent_config
  else if (layoutName =? "circle")%string then circle_config
  else if (layoutName =? "grid")%string then grid_config
  else if (layoutName =? "breadthfirst")%string then breadthfirst_config
  else if existsb (String.eqb layoutName) object_prototype_names then []
  else cose_bilkent_config.

(** *** The rendering engine

    Cytoscape is not part of the repository; the component drives it
    through the calls below, modelled after the library's documented
    behaviour: an element carries a set of class names,
    [connectedEdges] of a node collection is every edge with an end in
    the collection, and [zoom(level)] clamps to [[minZoom, maxZoom]].
    An edge naming a node that does not exist is left out, which is
    what section 3 of the specification asks of the renderer; the
    library itself rejects such an edge, so the model is of graphs
    whose edges join nodes that exist. Zoom levels are doubles. *)

Record NodeEle : Type := mkNodeEle { node_data : FileData; node_classes : list string }.
Record EdgeEle : Type := mkEdgeEle { edge_data : EdgeData; edge_classes : list string }.

Record Cy : Type := mkCy {
  instance : nat;
  cy_nodes : list NodeEle;
  cy_edges : list EdgeEle;
  zoom : Q;
  minZoom : Q;
  maxZoom : Q
}.

(** What a test double standing in for the engine records. *)
Inductive EngineCall : Type :=
| Construct (inst : nat) (layoutName : string) (config : LayoutConfig)
| Destroy (inst : nat)
| RunLayout (inst : nat) (layoutName : string) (config : LayoutConfig).

Definition includes (l : list string) (x : string) : bool :=
  existsb (fun y => (y =? x)%string) l.

Definition removeClass (names : list string) (classes : list string) : list string :=
  filter (fun c => negb (includes names c)) classes.

Definition addClass (name : string) (classes : list string) : list string :=
  if includes classes name then classes else classes ++ [name].

Definition hasClass (name : string) (classes : list string) : bool :=
  includes classes name.

(** [cytoscape({ elements, layout, minZoom: 0.1, maxZoom: 3, ... })].
    The zoom starts at the library's default, 1; where the initial
    layout leaves the viewport is not modelled. *)
Definition cytoscape (inst : nat) (els : Elements) : Cy :=
  let ns := arr_or (nodes els) in
  let ids := map id ns in
  let es := filter (fun e => includes ids (source e) && includes ids (target e))
                   (arr_or (edges els)) in
  mkCy inst (map (fun d => mkNodeEle d []) ns) (map (fun d => mkEdgeEle d []) es)
       1 (Float64.literal (1#10)) 3.

(** [cy.zoom(level)]. *)
Definition set_zoom (level : Q) (cy : Cy) : Cy :=
  let z := if Qle_bool (maxZoom cy) level then maxZoom cy else level in
  let z := if Qle_bool z (minZoom cy) then minZoom cy else z in
  mkCy (instance cy) (cy_nodes cy) (cy_edges cy) z (minZoom cy) (maxZoom cy).

(** [collection.<classOp>()] on the nodes, resp. edges, a predicate
    selects. *)
Definition on_nodes (sel : NodeEle -> bool) (f : list string -> list string)
    (cy : Cy) : Cy :=
  mkCy (instance cy)
    (map (fun n => if sel n then mkNodeEle (node_data n) (f (node_classes n)) else n)
         (cy_nodes cy))
    (cy_edges cy) (zoom cy) (minZoom cy) (maxZoom cy).

Definition on_edges (sel : EdgeEle -> bool) (f : list string -> list string)
    (cy : Cy) : Cy :=
  mkCy (instance cy) (cy_nodes cy)
    (map (fun e => if sel e then mkEdgeEle (edge_data e) (f (edge_classes e)) else e)
         (cy_edges cy))
    (zoom cy) (minZoom cy) (maxZoom cy).

Definition all {A : Type} (x : A) : bool := true.

(** [cy.nodes().filter(node => highlightedNodes.includes(node.id()))]. *)
Definition in_highlighted (highlightedNodes : list string) (n : NodeEle) : bool :=
  includes highlightedNodes (id (node_data n)).

(** [highlighted.connectedEdges()]: an end of the edge is one of the
    nodes of the collection. *)
Definition connected (highlightedNodes : list string) (cy : Cy) (e : EdgeEle) : bool :=
  existsb (fun n => in_highlighted highlightedNodes n
                    && ((id (node_data n) =? source (edge_data e))%string
                        || (id (node_data n) =? target (edge_data e))%string))
          (cy_nodes cy).

(** The body of the highlight effect, past its [cyRef.current] guard. *)
Definition apply_highlight (highlightedNodes : list string) (cy : Cy) : Cy :=
  let cy := on_nodes all (removeClass ["highlighted"; "dimmed"]) cy in
  let cy := on_edges all (removeClass ["highlighted"; "dimmed"]) cy in
  if (0 <? List.length highlightedNodes)%nat then
    let cy := on_nodes (in_highlighted highlightedNodes) (addClass "highlighted") cy in
    let cy := on_nodes (fun n => negb (in_highlighted highlightedNodes n))
                       (addClass "dimmed") cy in
    let cy := on_edges all (addClass "dimmed") cy in
    on_edges (connected highlightedNodes cy)
             (fun c => addClass "highlighted" (removeClass ["dimmed"] c)) cy
  else cy.

(** [removeClass('highlighted dimmed')]. *)
Definition cleared (classes : list string) : list string :=
  removeClass ["highlighted"; "dimmed"] classes.

(** The class operations [apply_highlight] performs, in its order, on
    one node given whether it is in the highlighted collection, and on
    one edge given whether it is connected to that collection. *)
Definition node_overlay (highlighted : bool) (classes : list string) : list string :=
  let c := removeClass ["highlighted"; "dimmed"] classes in
  let c := if highlighted then addClass "highlighted" c else c in
  if negb highlighted then addClass "dimmed" c else c.

Definition edge_overlay (connected : bool) (classes : list string) : list string :=
  let c := addClass "dimmed" (removeClass ["highlighted"; "dimmed"] classes) in
  if connected then addClass "highlighted" (removeClass ["dimmed"] c) else c.

(** *** The component *)

Record Props : Type := mkProps {
  graphData : option (Obj GraphData);
  onNodeClick : nat;
  highlightedNodes : Obj (list string)
}.

(** The component instance: its refs, its [layout] state, the props of
    the last render, whether the last run of the rebuild effect handed
    React a cleanup function, and the engine calls made so far (oldest
    first). [onNodeClick] is the identity of the callback prop. *)
Record Viewer : Type := mkViewer {
  containerRef : bool;
  cyRef : option Cy;
  layout : string;
  props : Props;
  cleanup : bool;
  calls : list EngineCall
}.

Definition count_constructs (cs : list EngineCall) : nat :=
  List.length (filter (fun c => match c with Construct _ _ _ => true | _ => false end) cs).

Definition count_destroys (cs : list EngineCall) : nat :=
  List.length (filter (fun c => match c with Destroy _ => true | _ => false end) cs).

(** The cleanup function the rebuild effect returns. *)
Definition run_cleanup (v : Viewer) : Viewer :=
  if cleanup v then
    match cyRef v with
    | Some cy =>
        mkViewer (containerRef v) None (layout v) (props v) false
                 (calls v ++ [Destroy (instance cy)])
    | None =>
        mkViewer (containerRef v) (cyRef v) (layout v) (props v) false (calls v)
    end
  else v.

(** The elements the rebuild effect accepts: [graphData],
    [graphData.elements] and a non-empty [nodes] array. *)
Definition renderable (g : option (Obj GraphData)) : option Elements :=
  match g with
  | Some (mkObj _ (mkGraph (Some els))) =>
      match nodes els with
      | Some (_ :: _) => Some els
      | _ => None
      end
  | _ => None
  end.

(** The body of the rebuild effect. A new instance is numbered by the
    constructions made before it. *)
Definition rebuild_effect (v : Viewer) : Viewer :=
  if containerRef v then
    match renderable (graphData (props v)) with
    | Some els =>
        let inst := count_constructs (calls v) in
        mkViewer (containerRef v) (Some (cytoscape inst els)) (layout v) (props v) true
                 (calls v ++ [Construct inst (layout v) (getLayoutConfig (layout v))])
    | None => v
    end
  else v.

(** The highlight effect. *)
Definition highlight_effect (v : Viewer) : Viewer :=
  match cyRef v with
  | Some cy =>
      mkViewer (containerRef v)
               (Some (apply_highlight (value (highlightedNodes (props v))) cy))
               (layout v) (props v) (cleanup v) (calls v)
  | None => v
  end.

Definition same_graph (a b : option (Obj GraphData)) : bool :=
  match a, b with
  | Some x, Some y => (addr x =? addr y)%nat
  | None, None => true
  | _, _ => false
  end.

(** React commits a render with props [p] and layout state [l]: an
    effect one of whose dependencies changed has its cleanup run, then
    runs again; the effects run in the order they are declared. *)
Definition commit (p : Props) (l : string) (v : Viewer) : Viewer :=
  let rebuild := negb (same_graph (graphData p) (graphData (props v))
                       && (l =? layout v)%string
                       && (onNodeClick p =? onNodeClick (props v))%nat) in
  let relight := negb (addr (highlightedNodes p) =? addr (highlightedNodes (props v)))%nat in
  let v := if rebuild then run_cleanup v else v in
  let v := mkViewer (containerRef v) (cyRef v) l p (cleanup v) (calls v) in
  let v := if rebuild then rebuild_effect v else v in
  if relight then highlight_effect v else v.

(** The first render: the container is attached, both effects run. *)
Definition mount (p : Props) : Viewer :=
  highlight_effect (rebuild_effect (mkViewer true None "cose-bilkent" p false [])).

Definition unmount (v : Viewer) : Viewer :=
  let v := run_cleanup v in
  mkViewer false (cyRef v) (layout v) (props v) (cleanup v) (calls v).

(** [handleChangeLayout(newLayout)]: the layout runs on the current
    instance, then React renders the state change [setLayout] queued,
    unless the state is the one it already had. *)
Definition handleChangeLayout (newLayout : string) (v : Viewer) : Viewer :=
  let v :=
    match cyRef v with
    | Some cy =>
        mkViewer (containerRef v) (cyRef v) (layout v) (props v) (cleanup v)
                 (calls v ++ [RunLayout (instance cy) newLayout (getLayoutConfig newLayout)])
    | None => v
    end in
  if (newLayout =? layout v)%string then v else commit (props v) newLayout v.

Definition with_cy (f : Cy -> Cy) (v : Viewer) : Viewer :=
  match cyRef v with
  | Some cy =>
      mkViewer (containerRef v) (Some (f cy)) (layout v) (props v) (cleanup v) (calls v)
  | None => v
  end.

(** [cyRef.current.zoom(cyRef.current.zoom() * 1.2)]. *)
Definition handleZoomIn (v : Viewer) : Viewer :=
  with_cy (fun cy => set_zoom (Float64.mul (zoom cy) (Float64.literal (12#10))) cy) v.

(** [cyRef.current.zoom(cyRef.current.zoom() * 0.8)]. *)
Definition handleZoomOut (v : Viewer) : Viewer :=
  with_cy (fun cy => set_zoom (Float64.mul (zoom cy) (Float64.literal (8#10))) cy) v.

(** What can happen to a mounted viewer. *)
Inductive Event : Type :=
| Render (p : Props)
| ChangeLayout (newLayout : string)
| ZoomIn
| ZoomOut
| Unmount.

Definition step (v : Viewer) (ev : Event) : Viewer :=
  match ev with
  | Render p => if containerRef v then commit p (layout v) v else v
  | ChangeLayout l => if containerRef v then handleChangeLayout l v else v
  | ZoomIn => handleZoomIn v
  | ZoomOut => handleZoomOut v
  | Unmount => if containerRef v then unmount v else v
  end.

Definition run (v : Viewer) (evs : list Event) : Viewer :=
  fold_left step evs v.

(** The instances alive after a sequence of engine calls, if at no
    point two were: the check a counting test double makes. *)
Fixpoint replay (live : option nat) (cs : list EngineCall) : option (option nat) :=
  match cs with
  | [] => Some live
  | Construct i _ _ :: rest =>
      match live with
      | None => replay (Some i) rest
      | Some _ => None
      end
  | Destroy i :: rest =>
      match live with
      | Some j => if (i =? j)%nat then replay None rest else None
      | None => None
      end
  | RunLayout i _ _ :: rest =>
      match live with
      | Some j => if (i =? j)%nat then replay live rest else None
      | None => None
      end
  end.

(** How many instances are alive. *)
Definition alive (live : option nat) : nat :=
  match live with
  | Some _ => 1
  | None => 0
  end.

(** The engine calls so far never had two instances alive, the
    instance left alive is the one [cyRef] holds, and an instance is
    held only while React holds the cleanup that destroys it. *)
Definition consistent (v : Viewer) : Prop :=
  replay None (calls v) = Some (option_map instance (cyRef v))
  /\ (cleanup v = false -> cyRef v = None).

(** A graph is on screen: the component is mounted, holds an engine
    instance built from the current props, and React holds its
    cleanup. *)
Definition rendered (v : Viewer) (cy : Cy) (els : Elements) : Prop :=
  containerRef v = true /\ cyRef v = Some cy /\ cleanup v = true
  /\ renderable (graphData (props v)) = Some els.

(** [graphData.elements.nodes.length], 0 when any of the three is
    absent. *)
Definition node_count (g : option (Obj GraphData)) : nat :=
  match g with
  | Some (mkObj _ (mkGraph (Some els))) => List.length (arr_or (nodes els))
  | _ => 0
  end.

Definition current_zoom (v : Viewer) : option Q := option_map zoom (cyRef v).

(** The instance, if any, has the configured zoom range and a zoom
    level inside it. *)
Definition zoom_within_range (v : Viewer) : Prop :=
  forall cy, cyRef v = Some cy ->
    minZoom cy = Float64.literal (1#10) /\ maxZoom cy = 3%Q
    /\ (1#10 <= zoom cy)%Q /\ (zoom cy <= 3)%Q.

(** Props carrying a graph and no highlight. *)
Definition props_of (g : GraphData) : Props :=
  mkProps (Some (mkObj 1 g)) 1 (mkObj 2 []).

End GraphViewer.

(** ** Sample data: the scenarios of the specification *)

Module Samples.
Import Graph.

Definition processing (percent : Z) : Api.StatusPayload :=
  Api.mkStatus "processing" (Some percent) (Some "Analyzing") None None.

Definition complete : Api.StatusPayload :=
  Api.mkStatus "complete" (Some 100%Z) (Some "Analysis complete") None
               (Some [("total_files", 10%Z)]).

Definition failed : Api.StatusPayload :=
  Api.mkStatus "error" (Some 40%Z) None (Some "Clone failed") None.

Definition blip : Error := mkError "Network Error".

(** An [onProgress] callback that keeps every payload it is given. *)
Definition record (p : Api.StatusPayload) (log : list Api.StatusPayload)
    : list Api.StatusPayload :=
  (log ++ [p])%list.

(** A graph node of the given path, with the properties the service
    sends. *)
Definition node (path : string) : FileData :=
  mkFile path (last_segment path) path (Some 150%Z) (Some (47#2)%Q) (Some "module")
         None None None.

Definition core : FileData := node "lib/core.py".
Definition util : FileData := node "lib/util.py".

Definition core_risk : Risk.RiskFile :=
  Risk.mkRisk "lib/core.py" (Some (873#10)%Q) (Some "high") (Some 4%Z).

Definition core_blast : Blast.BlastRadius :=
  Blast.mkBlast "lib/core.py" 4 (Some (873#10)%Q) (Some "high")
                (Some ["lib/util.py"; "app/main.py"]) (Some ["app/cli.py"]).

Definition util_blast : Blast.BlastRadius :=
  Blast.mkBlast "lib/util.py" 1 (Some (12#1)%Q) (Some "low")
                (Some ["app/main.py"]) None.

Definition edge (s t : string) : EdgeData :=
  mkEdge (s ++ "-" ++ t) s t (Some "from") false.

(** [util] imports [core]. *)
Definition small_graph : GraphData :=
  mkGraph (Some (mkElements (Some [core; util])
                            (Some [edge "lib/util.py" "lib/core.py"]))).

(** Fifty files, each importing the next. *)
Definition file_name (k : nat) : string :=
  "pkg/m" ++ NilZero.string_of_uint (Nat.to_uint k) ++ ".py".

Definition fifty_nodes : GraphData :=
  mkGraph (Some (mkElements
    (Some (map (fun k => node (file_name k)) (seq 0 50)))
    (Some (map (fun k => edge (file_name k) (file_name (S k))) (seq 0 49))))).

(** The viewer props while [util] is selected and highlighted. *)
Definition util_highlighted : GraphViewer.Props :=
  GraphViewer.mkProps (Some (mkObj 1 small_graph)) 1 (mkObj 2 ["lib/util.py"]).

(** The application once a session has completed and its graph and
    risk files are loaded, nothing selected yet. *)
Definition loaded : App.World :=
  App.mkWorld (App.mkUi (Some small_graph) [core_risk] None None [] App.RiskTab)
              (Some "s1") [].

(** The zoom levels a viewer of the small graph goes through when the
    zoom-out button is pressed twelve times and then the zoom-in button
    twenty times: from 1 down to the minimum and up to the maximum. *)
Definition zoom_buttons : list GraphViewer.Event :=
  repeat GraphViewer.ZoomOut 12 ++ repeat GraphViewer.ZoomIn 20.

Definition zoom_levels : list (option Q) :=
  map (fun k => GraphViewer.current_zoom
                  (GraphViewer.run (GraphViewer.mount (GraphViewer.props_of small_graph))
                     (firstn k zoom_buttons)))
      (seq 0 33).

End Samples.

(** * Properties *)

Open Scope list_scope.

(** ** The polling protocol *)

Section Polling.
Import Api.

Context {St : Type}.
Variable onProgress : option (StatusPayload -> St -> St).
Variable maxAttempts : nat.

Lemma terminal_false (p : StatusPayload) :
  terminal p = false ->
  (Api.status p =? "complete")%string = false /\ (Api.status p =? "error")%string = false.
Proof.
  unfold terminal. intros H. apply orb_false_iff in H. exact H.
Qed.

(** Non-terminal payloads within the budget are each reported and
    counted, and the loop goes on with the next response. *)
Lemma poll_loop_progress (ps : list StatusPayload) :
  forall (rest : list (Settled StatusPayload)) (attempts : nat) (st : St),
    Forall (fun p => terminal p = false) ps ->
    attempts + List.length ps <= maxAttempts ->
    poll_loop onProgress maxAttempts (map Fulfilled ps ++ rest) attempts st
    = poll_loop onProgress maxAttempts rest (attempts + List.length ps) (notified onProgress ps st).
Proof.
  induction ps as [|p ps IH]; intros rest attempts st Hnt Hle.
  - simpl. rewrite Nat.add_0_r. reflexivity.
  - inversion Hnt as [|? ? Hp Hps]; subst.
    destruct (terminal_false p Hp) as [Hc He].
    simpl in Hle. simpl map. simpl app.
    cbn [poll_loop].
    assert (Hlt : (attempts <? maxAttempts)%nat = true) by (apply Nat.ltb_lt; lia).
    rewrite Hlt, Hc, He.
    rewrite IH by (assumption || lia).
    simpl. replace (attempts + 1 + List.length ps) with (attempts + S (List.length ps)) by lia.
    reflexivity.
Qed.

Lemma poll_loop_exhausted (rest : list (Settled StatusPayload)) (attempts : nat) (st : St) :
  maxAttempts <= attempts ->
  poll_loop onProgress maxAttempts rest attempts st
  = Finished st (Threw (mkError "Analysis timeout")).
Proof.
  intros Hle.
  assert (Hlt : (attempts <? maxAttempts)%nat = false) by (apply Nat.ltb_ge; lia).
  destruct rest as [|[p|e] rest]; cbn [poll_loop]; rewrite Hlt; reflexivity.
Qed.

Lemma poll_loop_pending (attempts : nat) (st : St) :
  attempts < maxAttempts ->
  poll_loop onProgress maxAttempts [] attempts st = Awaiting attempts st.
Proof.
  intros Hlt. apply Nat.ltb_lt in Hlt. unfold poll_loop. rewrite Hlt. reflexivity.
Qed.

(** Once as many fetches have settled as the budget allows, whatever
    they brought, the call has completed. *)
Lemma poll_loop_finishes (rs : list (Settled StatusPayload)) :
  forall (attempts : nat) (st : St),
    maxAttempts <= attempts + List.length rs ->
    exists st' c, poll_loop onProgress maxAttempts rs attempts st = Finished st' c.
Proof.
  induction rs as [|r rs IH]; intros attempts st Hle.
  - simpl in Hle. rewrite poll_loop_exhausted by lia. eauto.
  - cbn [poll_loop].
    destruct (attempts <? maxAttempts)%nat; [|eauto].
    destruct r as [p|e]; [|eauto].
    destruct (Api.status p =? "complete")%string; [eauto|].
    destruct (Api.status p =? "error")%string; [eauto|].
    apply IH. simpl in Hle. lia.
Qed.

(** Responses can be fed to a suspended call one at a time: what the
    hook does on each settlement is the loop itself. *)
Lemma poll_loop_resume (rs1 : list (Settled StatusPayload)) :
  forall (rs2 : list (Settled StatusPayload)) (attempts : nat) (st : St),
    poll_loop onProgress maxAttempts (rs1 ++ rs2) attempts st
    = match poll_loop onProgress maxAttempts rs1 attempts st with
      | Awaiting n st' => poll_loop onProgress maxAttempts rs2 n st'
      | Finished st' c => Finished st' c
      end.
Proof.
  induction rs1 as [|r rs1 IH]; intros rs2 attempts st.
  - simpl app. destruct (attempts <? maxAttempts)%nat eqn:Hlt.
    + rewrite (poll_loop_pending attempts st) by (apply Nat.ltb_lt; assumption).
      reflexivity.
    + rewrite !poll_loop_exhausted by (apply Nat.ltb_ge; assumption). reflexivity.
  - simpl app. cbn [poll_loop].
    destruct (attempts <? maxAttempts)%nat; [|reflexivity].
    destruct r as [p|e]; [|reflexivity].
    destruct (Api.status p =? "complete")%string; [reflexivity|].
    destruct (Api.status p =? "error")%string; [reflexivity|].
    apply IH.
Qed.

End Polling.

(** C3. Whatever non-terminal payloads [ps] come first, [pollAnalysis]
    fetches again after each of them and hands each payload it receives,
    the terminal one included, to [onProgress]; a payload with status
    [complete] arriving within the budget is returned at once; one with
    status [error] makes the call fail at once with the server's message
    ([error], or ['Analysis failed'] when the payload carries none); and
    when [maxAttempts] payloads have arrived without a terminal one the
    call fails with ['Analysis timeout'], whatever would come next. In
    any case the call has completed once [maxAttempts] fetches have
    settled. *)
Theorem pollAnalysis_contract :
  forall (St : Type) (f : Api.StatusPayload -> St -> St) (maxAttempts : nat)
         (ps : list Api.StatusPayload) (st : St),
    Forall (fun p => Api.terminal p = false) ps ->
    (forall p rest,
        List.length ps < maxAttempts -> Api.status p = "complete" ->
        Api.pollAnalysis (Some f) maxAttempts (map Fulfilled ps ++ Fulfilled p :: rest) st
        = Api.Finished (fold_left (fun s q => f q s) (ps ++ [p]) st) (Returned p))
    /\ (forall p rest,
        List.length ps < maxAttempts -> Api.status p = "error" ->
        Api.pollAnalysis (Some f) maxAttempts (map Fulfilled ps ++ Fulfilled p :: rest) st
        = Api.Finished (fold_left (fun s q => f q s) (ps ++ [p]) st)
            (Threw (mkError (str_or (Api.error p) "Analysis failed")))
        /\ (forall m, Api.error p = Some m -> m <> "" ->
            str_or (Api.error p) "Analysis failed" = m))
    /\ (forall rest,
        List.length ps = maxAttempts ->
        Api.pollAnalysis (Some f) maxAttempts (map Fulfilled ps ++ rest) st
        = Api.Finished (fold_left (fun s q => f q s) ps st)
            (Threw (mkError "Analysis timeout")))
    /\ (forall rs,
        maxAttempts <= List.length rs ->
        exists st' c, Api.pollAnalysis (Some f) maxAttempts rs st = Api.Finished st' c).
Proof.
  intros St f maxAttempts ps st Hnt.
  unfold Api.pollAnalysis.
  assert (Hlast : forall p rest,
             List.length ps < maxAttempts ->
             Api.poll_loop (Some f) maxAttempts (map Fulfilled ps ++ Fulfilled p :: rest) 0 st
             = Api.poll_loop (Some f) maxAttempts (Fulfilled p :: rest) (List.length ps)
                 (fold_left (fun s q => f q s) ps st)).
  { intros p rest Hlt. rewrite poll_loop_progress by (assumption || simpl; lia).
    reflexivity. }
  split; [|split; [|split]].
  - intros p rest Hlt Hc. rewrite Hlast by assumption.
    cbn [Api.poll_loop]. apply Nat.ltb_lt in Hlt. apply String.eqb_eq in Hc.
    rewrite Hlt, Hc, fold_left_app. reflexivity.
  - intros p rest Hlt He. split.
    + rewrite Hlast by assumption.
      cbn [Api.poll_loop]. apply Nat.ltb_lt in Hlt.
      rewrite Hlt, He, fold_left_app. reflexivity.
    + intros m Hm Hne. rewrite Hm. unfold str_or.
      destruct (m =? "")%string eqn:E; [apply String.eqb_eq in E; contradiction|reflexivity].
  - intros rest Hlen.
    rewrite poll_loop_progress by (assumption || simpl; lia).
    apply poll_loop_exhausted. simpl. lia.
  - intros rs Hrs. apply poll_loop_finishes. simpl. exact Hrs.
Qed.

(** The session scenario of the specification: two [processing] polls
    at 30 and 70 percent, then [complete]. *)
Lemma pollAnalysis_contract_witness :
  Api.pollAnalysis (Some UseAnalysis.onProgress) 150
    (map Fulfilled [Samples.processing 30; Samples.processing 70]
       ++ Fulfilled Samples.complete :: [])
    UseAnalysis.initial
  = Api.Finished
      (fold_left (fun s q => UseAnalysis.onProgress q s)
         ([Samples.processing 30; Samples.processing 70] ++ [Samples.complete])
         UseAnalysis.initial)
      (Returned Samples.complete).
Proof.
  refine (proj1 (pollAnalysis_contract UseAnalysis.Session UseAnalysis.onProgress 150
                   [Samples.processing 30; Samples.processing 70] UseAnalysis.initial _)
            Samples.complete [] _ _).
  - repeat constructor.
  - simpl. lia.
  - reflexivity.
Defined.

(** C4, as the specification states it, does not hold of the code: a
    rejected status fetch with budget to spare is not counted as one
    attempt with the loop going on. *)
Lemma fetch_failure_not_retried :
  ~ (forall (e : Error) (rest : list (Settled Api.StatusPayload)) (attempts : nat),
        attempts + 1 < 150 ->
        Api.poll_loop (Some Samples.record) 150 (Rejected e :: rest) attempts []
        = Api.poll_loop (Some Samples.record) 150 rest (attempts + 1) []).
Proof.
  intros H.
  specialize (H Samples.blip [Fulfilled Samples.complete] 0 ltac:(lia)).
  vm_compute in H. discriminate H.
Qed.

(** C4, amended. A rejected status fetch ends [pollAnalysis] at once, on
    whichever attempt it happens: the call fails with the error of the
    fetch, [onProgress] is not called for it, and no later response is
    looked at. *)
Theorem fetch_failure_ends_polling :
  forall (St : Type) (onProgress : option (Api.StatusPayload -> St -> St))
         (maxAttempts attempts : nat) (e : Error)
         (rest : list (Settled Api.StatusPayload)) (st : St),
    attempts < maxAttempts ->
    Api.poll_loop onProgress maxAttempts (Rejected e :: rest) attempts st
    = Api.Finished st (Threw e).
Proof.
  intros St onProgress maxAttempts attempts e rest st Hlt.
  apply Nat.ltb_lt in Hlt. cbn [Api.poll_loop]. rewrite Hlt. reflexivity.
Qed.

Lemma fetch_failure_ends_polling_witness :
  Api.poll_loop (Some UseAnalysis.onProgress) 150
    (Rejected Samples.blip :: [Fulfilled Samples.complete]) 0 UseAnalysis.initial
  = Api.Finished UseAnalysis.initial (Threw Samples.blip).
Proof.
  apply (fetch_failure_ends_polling UseAnalysis.Session (Some UseAnalysis.onProgress)
           150 0 Samples.blip [Fulfilled Samples.complete] UseAnalysis.initial).
  lia.
Defined.

(** ** The session hook *)

Section Hook.
Import Api UseAnalysis.

Lemma poll_loop_awaiting {St : Type} (onP : option (StatusPayload -> St -> St))
      (budget : nat) (rs : list (Settled StatusPayload)) :
  forall (attempts n : nat) (st st' : St),
    poll_loop onP budget rs attempts st = Awaiting n st' -> n < budget.
Proof.
  induction rs as [|r rs IH]; intros attempts n st st'; cbn [poll_loop];
    destruct (attempts <? budget)%nat eqn:Hlt; try discriminate.
  - intros H. injection H as <- _. apply Nat.ltb_lt. exact Hlt.
  - destruct r as [p|e]; [|discriminate].
    destruct (Api.status p =? "complete")%string; [discriminate|].
    destruct (Api.status p =? "error")%string; [discriminate|].
    apply IH.
Qed.

Lemma run_done (c : Completion string) (rs : list (Settled StatusPayload)) :
  forall s : Session,
    run (s, Done c) (map StatusSettled rs) = (s, Done c).
Proof.
  unfold run. induction rs as [|r rs IH]; intros s; [reflexivity|].
  simpl. apply IH.
Qed.

(** Delivering the status responses to the hook one event at a time is
    the same as running the loop of [pollAnalysis] over them. *)
Lemma run_is_poll_loop (rs : list (Settled StatusPayload)) :
  forall (id : string) (attempts : nat) (s : Session),
    attempts < maxAttempts ->
    run (s, AwaitPoll id attempts) (map StatusSettled rs)
    = after_poll id (poll_loop (Some onProgress) maxAttempts rs attempts s).
Proof.
  induction rs as [|r rs IH]; intros id attempts s Hlt.
  - rewrite poll_loop_pending by exact Hlt. reflexivity.
  - change (r :: rs) with ([r] ++ rs) at 2. rewrite poll_loop_resume.
    unfold run. cbn [map fold_left step]. unfold resume_poll.
    destruct (poll_loop (Some onProgress) maxAttempts [r] attempts s)
      as [n s'|s' [v|e]] eqn:Hr; cbn [after_poll].
    + apply IH. exact (poll_loop_awaiting _ _ _ _ _ _ _ Hr).
    + apply run_done.
    + apply run_done.
Qed.

(** The session scenario of the specification, through the hook: the
    submit returns id [s1], two [processing] polls report 30 and 70
    percent, then a [complete] poll carries the summary. *)
Example session_scenario :
  run (analyze initial)
      [ StartSettled (Fulfilled "s1");
        StatusSettled (Fulfilled (Samples.processing 30));
        StatusSettled (Fulfilled (Samples.processing 70));
        StatusSettled (Fulfilled Samples.complete) ]
  = (mkSession false None (Some "s1") (Some Samples.complete) 100,
     Done (Returned "s1")).
Proof. vm_compute. reflexivity. Qed.

End Hook.

(** C2, as the specification states it, does not hold of the code: a
    status response of the poll that was in flight when [reset] ran
    leaves the session other than idle. *)
Lemma reset_does_not_cancel_poll :
  ~ UseAnalysis.idle
      (fst (UseAnalysis.run (UseAnalysis.analyze UseAnalysis.initial)
              [ UseAnalysis.StartSettled (Fulfilled "s1");
                UseAnalysis.Reset;
                UseAnalysis.StatusSettled (Fulfilled (Samples.processing 30)) ])).
Proof.
  unfold UseAnalysis.idle. vm_compute. intros [_ [H _]]. discriminate H.
Qed.

(** C2, amended. [reset] puts the session back to idle when it is called
    and leaves the call of [analyze] suspended on its poll; a fulfilled
    status response that arrives afterwards goes through [onProgress] as
    before: the status becomes the payload and the progress its
    [progress] (0 when it has none). *)
Theorem reset_then_late_response :
  forall (s : UseAnalysis.Session) (id : string) (attempts : nat) (p : Api.StatusPayload),
    attempts < UseAnalysis.maxAttempts ->
    let w1 := UseAnalysis.step (s, UseAnalysis.AwaitPoll id attempts) UseAnalysis.Reset in
    let w2 := UseAnalysis.step w1 (UseAnalysis.StatusSettled (Fulfilled p)) in
    UseAnalysis.idle (fst w1)
    /\ UseAnalysis.analysisId (fst w1) = None
    /\ snd w1 = UseAnalysis.AwaitPoll id attempts
    /\ UseAnalysis.status (fst w2) = Some p
    /\ UseAnalysis.progress (fst w2) = num_or (Api.progress p) 0.
Proof.
  intros s id attempts p Hlt w1 w2. subst w1 w2.
  apply Nat.ltb_lt in Hlt.
  cbn [UseAnalysis.step fst snd].
  repeat split.
  - unfold UseAnalysis.resume_poll. cbn [Api.poll_loop]. rewrite Hlt.
    destruct (Api.status p =? "complete")%string; [reflexivity|].
    destruct (Api.status p =? "error")%string; [reflexivity|].
    unfold Api.poll_loop.
    destruct (attempts + 1 <? UseAnalysis.maxAttempts)%nat; reflexivity.
  - unfold UseAnalysis.resume_poll. cbn [Api.poll_loop]. rewrite Hlt.
    destruct (Api.status p =? "complete")%string; [reflexivity|].
    destruct (Api.status p =? "error")%string; [reflexivity|].
    unfold Api.poll_loop.
    destruct (attempts + 1 <? UseAnalysis.maxAttempts)%nat; reflexivity.
Qed.

Lemma reset_then_late_response_witness :
  UseAnalysis.status
    (fst (UseAnalysis.step
            (UseAnalysis.step (UseAnalysis.initial, UseAnalysis.AwaitPoll "s1" 0)
                              UseAnalysis.Reset)
            (UseAnalysis.StatusSettled (Fulfilled (Samples.processing 30)))))
  = Some (Samples.processing 30).
Proof.
  refine (proj1 (proj2 (proj2 (proj2
    (reset_then_late_response UseAnalysis.initial "s1" 0 (Samples.processing 30) _))))).
  unfold UseAnalysis.maxAttempts. lia.
Defined.

(** ** The blast-radius orchestrator *)

Section Orchestrator.
Import Graph App.

Lemma nth_error_last {A : Type} (l : list A) (a : A) :
  nth_error (l ++ [a]) (List.length l) = Some a.
Proof.
  induction l as [|x l IH]; simpl; [reflexivity|exact IH].
Qed.

Lemma remove_nth_last {A : Type} (l : list A) (a : A) :
  remove_nth (List.length l) (l ++ [a]) = l.
Proof.
  induction l as [|x l IH]; simpl; [reflexivity|rewrite IH; reflexivity].
Qed.

(** With a session id at hand, either handler selects its file, opens
    the details tab and leaves one more request in flight; nothing else
    is written before the response. *)
Lemma select_fetches (s : Selection) (w : World) :
  truthy (analysisId w) = true ->
  select s w
  = mkWorld (setActiveTab DetailsTab
               (setSelectedFile (Some (selected_of (graphData (ui w)) s)) (ui w)))
            (analysisId w)
            (inflight w ++ [pending_of (graphData (ui w)) s]).
Proof.
  intros Hid. destruct s as [node|file]; simpl.
  - reflexivity.
  - unfold handleRiskFileClick. simpl. rewrite Hid. reflexivity.
Qed.

(** The response of the request a selection has just issued. *)
Lemma settle_newest (s : Selection) (r : Settled Blast.BlastRadius) (w : World) :
  truthy (analysisId w) = true ->
  settle (List.length (inflight w)) r (select s w)
  = mkWorld (resume (pending_of (graphData (ui w)) s) r (ui (select s w)))
            (analysisId w) (inflight w).
Proof.
  intros Hid. rewrite (select_fetches s w Hid). unfold settle. simpl.
  rewrite nth_error_last, remove_nth_last. reflexivity.
Qed.

Lemma resume_selectedFile (k : Pending) (r : Settled Blast.BlastRadius) (u : Ui) :
  selectedFile (resume k r u) = selectedFile u.
Proof. destruct k, r; reflexivity. Qed.

Lemma resume_graphData (k : Pending) (r : Settled Blast.BlastRadius) (u : Ui) :
  graphData (resume k r u) = graphData u.
Proof. destruct k, r; reflexivity. Qed.

Lemma resume_fulfilled (g : option GraphData) (s : Selection)
      (b : Blast.BlastRadius) (u : Ui) :
  blastRadius (resume (pending_of g s) (Fulfilled b) u) = Some b
  /\ highlightedNodes (resume (pending_of g s) (Fulfilled b) u)
     = affected (id (selected_of g s)) b.
Proof. destruct s; split; reflexivity. Qed.

Lemma resume_rejected_highlight (k : Pending) (e : Error) (u : Ui) :
  highlightedNodes (resume k (Rejected e) u) = highlightedNodes u.
Proof. destruct k; reflexivity. Qed.

(** On a rejected fetch the risk-list handler stores the degraded
    result built from the entry that was clicked. *)
Lemma risk_click_failure_degrades (file : Risk.RiskFile) (e : Error) (w : World) :
  truthy (analysisId w) = true ->
  let w' := settle (List.length (inflight w)) (Rejected e) (select (OnRiskFile file) w) in
  blastRadius (ui w') = Some (degraded file)
  /\ Blast.total_affected (degraded file) = num_or (Risk.blast_radius file) 0
  /\ Blast.direct_dependents (degraded file) = Some []
  /\ Blast.indirect_dependents (degraded file) = Some [].
Proof.
  intros Hid w'. subst w'. rewrite settle_newest by assumption.
  repeat split.
Qed.

End Orchestrator.

(** C1, as the specification states it, does not hold of the code: the
    user clicks [core], then [util]; the response for [util] arrives
    first and the one for [core] last. The selected file is [util], the
    stored result and the highlight set are those of [core]. *)
Lemma stale_response_overwrites_newer :
  let final :=
    App.run Samples.loaded
      [ App.Select (App.OnNode Samples.core);
        App.Select (App.OnNode Samples.util);
        App.BlastSettled 1 (Fulfilled Samples.util_blast);
        App.BlastSettled 0 (Fulfilled Samples.core_blast) ] in
  App.selectedFile (App.ui final) = Some Samples.util
  /\ App.blastRadius (App.ui final) = Some Samples.core_blast
  /\ App.blastRadius (App.ui final) <> Some Samples.util_blast
  /\ App.highlightedNodes (App.ui final)
     = ["lib/core.py"; "lib/util.py"; "app/main.py"; "app/cli.py"]
  /\ App.highlightedNodes (App.ui final)
     <> App.affected (Graph.id Samples.util) Samples.util_blast.
Proof.
  vm_compute. repeat split; discriminate.
Qed.

(** C1, amended. Of two selections issued in order S1 then S2 whose
    fetches resolve S2 first, the final selected file is that of S2,
    while the responses are applied in the order they arrive, with no
    check against the current selection: when the late response of S1 is
    a success, the stored result is the one of S1 and the highlight set
    is S1's id with its direct and indirect dependents. *)
Theorem responses_applied_in_arrival_order :
  forall (w : App.World) (s1 s2 : App.Selection)
         (r1 r2 : Settled Blast.BlastRadius),
    App.truthy (App.analysisId w) = true ->
    let n := List.length (App.inflight w) in
    let g := App.graphData (App.ui w) in
    let final :=
      App.run w [ App.Select s1; App.Select s2;
                  App.BlastSettled (n + 1) r2; App.BlastSettled n r1 ] in
    App.selectedFile (App.ui final) = Some (App.selected_of g s2)
    /\ App.inflight final = App.inflight w
    /\ forall b1, r1 = Fulfilled b1 ->
         App.blastRadius (App.ui final) = Some b1
         /\ App.highlightedNodes (App.ui final)
            = App.affected (Graph.id (App.selected_of g s1)) b1.
Proof.
  intros w s1 s2 r1 r2 Hid n g final.
  assert (Hfinal :
    final = App.mkWorld
              (App.resume (App.pending_of g s1) r1
                 (App.resume (App.pending_of g s2) r2
                    (App.ui (App.select s2 (App.select s1 w)))))
              (App.analysisId w) (App.inflight w)).
  { subst final. unfold App.run. cbn [fold_left App.step].
    set (w1 := App.select s1 w).
    assert (Hw1 : w1 = App.mkWorld
              (App.setActiveTab App.DetailsTab
                 (App.setSelectedFile (Some (App.selected_of g s1)) (App.ui w)))
              (App.analysisId w) (App.inflight w ++ [App.pending_of g s1]))
      by (apply select_fetches; assumption).
    assert (Hid1 : App.truthy (App.analysisId w1) = true) by (rewrite Hw1; exact Hid).
    assert (Hg1 : App.graphData (App.ui w1) = g) by (rewrite Hw1; reflexivity).
    assert (Hin1 : App.inflight w1 = App.inflight w ++ [App.pending_of g s1])
      by (rewrite Hw1; reflexivity).
    assert (Hn : n + 1 = List.length (App.inflight w1)).
    { rewrite Hin1, length_app. reflexivity. }
    rewrite Hn, (settle_newest s2 r2 w1 Hid1), Hg1.
    unfold App.settle. cbn [App.inflight App.ui App.analysisId].
    rewrite Hin1. subst n. rewrite nth_error_last, remove_nth_last.
    rewrite Hw1. reflexivity. }
  rewrite Hfinal. cbn [App.ui App.inflight].
  split; [|split].
  - rewrite !resume_selectedFile.
    rewrite (select_fetches s2 (App.select s1 w)).
    + cbn [App.ui]. rewrite (select_fetches s1 w Hid). reflexivity.
    + rewrite (select_fetches s1 w Hid). exact Hid.
  - reflexivity.
  - intros b1 ->. apply resume_fulfilled.
Qed.

Lemma responses_applied_in_arrival_order_witness :
  App.selectedFile
    (App.ui (App.run Samples.loaded
               [ App.Select (App.OnRiskFile Samples.core_risk);
                 App.Select (App.OnNode Samples.util);
                 App.BlastSettled (0 + 1) (Fulfilled Samples.util_blast);
                 App.BlastSettled 0 (Fulfilled Samples.core_blast) ]))
  = Some Samples.util.
Proof.
  refine (proj1 (responses_applied_in_arrival_order Samples.loaded
                   (App.OnRiskFile Samples.core_risk) (App.OnNode Samples.util)
                   (Fulfilled Samples.core_blast) (Fulfilled Samples.util_blast) _)).
  reflexivity.
Defined.

(** C8, as the specification states it, does not hold of the code: the
    user clicks [core] and the fetch fails. A selection exists, and the
    highlight set, still empty, does not contain its id; nor did it
    while the fetch was in flight. *)
Lemma selection_without_highlight :
  let clicked := App.run Samples.loaded [ App.Select (App.OnNode Samples.core) ] in
  let failed := App.run clicked [ App.BlastSettled 0 (Rejected Samples.blip) ] in
  App.selectedFile (App.ui clicked) = Some Samples.core
  /\ ~ In (Graph.id Samples.core) (App.highlightedNodes (App.ui clicked))
  /\ App.selectedFile (App.ui failed) = Some Samples.core
  /\ ~ In (Graph.id Samples.core) (App.highlightedNodes (App.ui failed)).
Proof.
  vm_compute. repeat split; intros [].
Qed.

(** C8, amended. A selection writes the selected file and leaves the
    highlight set as it was. When the fetch for that selection succeeds
    (and no other response is applied in between), the highlight set
    becomes exactly the selected id together with the direct and the
    indirect dependents of the response, so it then contains the
    selected id. When the fetch fails the highlight set stays as it was
    before the selection. *)
Theorem highlight_set_after_fetch :
  forall (w : App.World) (s : App.Selection),
    App.truthy (App.analysisId w) = true ->
    let n := List.length (App.inflight w) in
    let sel := App.selected_of (App.graphData (App.ui w)) s in
    let clicked := App.select s w in
    App.selectedFile (App.ui clicked) = Some sel
    /\ App.highlightedNodes (App.ui clicked) = App.highlightedNodes (App.ui w)
    /\ (forall b,
          let done := App.settle n (Fulfilled b) clicked in
          App.selectedFile (App.ui done) = Some sel
          /\ App.blastRadius (App.ui done) = Some b
          /\ In (Graph.id sel) (App.highlightedNodes (App.ui done))
          /\ forall x,
               In x (App.highlightedNodes (App.ui done))
               <-> x = Graph.id sel
                   \/ In x (arr_or (Blast.direct_dependents b))
                   \/ In x (arr_or (Blast.indirect_dependents b)))
    /\ (forall e,
          let failed := App.settle n (Rejected e) clicked in
          App.selectedFile (App.ui failed) = Some sel
          /\ App.highlightedNodes (App.ui failed) = App.highlightedNodes (App.ui w)).
Proof.
  intros w s Hid n sel clicked.
  assert (Hsel : App.selectedFile (App.ui clicked) = Some sel)
    by (subst clicked; rewrite select_fetches by assumption; reflexivity).
  assert (Hhl : App.highlightedNodes (App.ui clicked) = App.highlightedNodes (App.ui w))
    by (subst clicked; rewrite select_fetches by assumption; reflexivity).
  split; [exact Hsel|]. split; [exact Hhl|]. split.
  - intros b done. subst done n clicked.
    rewrite settle_newest by assumption. cbn [App.ui].
    destruct (resume_fulfilled (App.graphData (App.ui w)) s b (App.ui (App.select s w)))
      as [Hb Hh].
    rewrite resume_selectedFile. split; [exact Hsel|]. split; [exact Hb|].
    rewrite Hh. fold sel. unfold App.affected. split.
    + left. reflexivity.
    + intros x. simpl. rewrite in_app_iff. split.
      * intros [H|H]; [left; symmetry; exact H|right; exact H].
      * intros [H|H]; [left; symmetry; exact H|right; exact H].
  - intros e failed. subst failed n clicked.
    rewrite settle_newest by assumption. cbn [App.ui].
    rewrite resume_selectedFile, resume_rejected_highlight. split; assumption.
Qed.

Lemma highlight_set_after_fetch_witness :
  In (Graph.id (App.selected_of (App.graphData (App.ui Samples.loaded))
                  (App.OnRiskFile Samples.core_risk)))
     (App.highlightedNodes
        (App.ui (App.settle (List.length (App.inflight Samples.loaded))
                   (Fulfilled Samples.core_blast)
                   (App.select (App.OnRiskFile Samples.core_risk) Samples.loaded)))).
Proof.
  refine (proj1 (proj2 (proj2 (proj1 (proj2 (proj2
    (highlight_set_after_fetch Samples.loaded (App.OnRiskFile Samples.core_risk) _)))
    Samples.core_blast)))).
  reflexivity.
Defined.

(** C5 on the code. The risk file of [lib/core.py] (blast radius 4) is
    loaded and the blast-radius fetch fails. Selected from the risk
    list, the file gets a degraded result with [total_affected = 4] and
    empty dependent lists; selected on its graph node, the same file
    gets no result at all, although both handlers select the same
    id and path. *)
Theorem node_click_failure_not_degraded :
  let by_risk :=
    App.run Samples.loaded
      [ App.Select (App.OnRiskFile Samples.core_risk);
        App.BlastSettled 0 (Rejected Samples.blip) ] in
  let by_node :=
    App.run Samples.loaded
      [ App.Select (App.OnNode Samples.core);
        App.BlastSettled 0 (Rejected Samples.blip) ] in
  App.riskFiles (App.ui Samples.loaded) = [Samples.core_risk]
  /\ option_map Graph.id (App.selectedFile (App.ui by_risk))
     = option_map Graph.id (App.selectedFile (App.ui by_node))
  /\ option_map Graph.full_path (App.selectedFile (App.ui by_risk)) = Some "lib/core.py"
  /\ option_map Graph.full_path (App.selectedFile (App.ui by_node)) = Some "lib/core.py"
  /\ App.blastRadius (App.ui by_risk)
     = Some (Blast.mkBlast "lib/core.py" 4 (Some (873#10)%Q) (Some "high")
                           (Some []) (Some []))
  /\ App.blastRadius (App.ui by_node) = None.
Proof.
  vm_compute. repeat split.
Qed.

(** ** The graph render synchronizer *)

Section Synchronizer.
Import Graph GraphViewer.

Lemma replay_app (cs1 : list EngineCall) :
  forall (cs2 : list EngineCall) (live : option nat),
    replay live (cs1 ++ cs2)
    = match replay live cs1 with
      | Some live' => replay live' cs2
      | None => None
      end.
Proof.
  induction cs1 as [|c cs1 IH]; intros cs2 live; [reflexivity|].
  simpl. destruct c as [i l cfg|i|i l cfg]; destruct live as [j|];
    try reflexivity; try apply IH;
    destruct (i =? j)%nat; try reflexivity; apply IH.
Qed.

(** A replayed log has as many constructions as destructions, plus
    the instance still alive. *)
Lemma replay_counts (cs : list EngineCall) :
  forall (live live' : option nat),
    replay live cs = Some live' ->
    count_constructs cs + alive live = count_destroys cs + alive live'.
Proof.
  unfold count_constructs, count_destroys.
  induction cs as [|c cs IH]; intros live live' H.
  - simpl in H. injection H as <-. reflexivity.
  - destruct c as [i l cfg|i|i l cfg]; destruct live as [j|]; simpl in H; try discriminate H.
    + apply IH in H. simpl in *. lia.
    + destruct (i =? j)%nat; [|discriminate H]. apply IH in H. simpl in *. lia.
    + destruct (i =? j)%nat; [|discriminate H]. apply IH in H. simpl in *. lia.
Qed.

Lemma consistent_run_cleanup (v : Viewer) :
  consistent v ->
  consistent (run_cleanup v)
  /\ cyRef (run_cleanup v) = None /\ cleanup (run_cleanup v) = false
  /\ containerRef (run_cleanup v) = containerRef v.
Proof.
  intros Hv. unfold run_cleanup.
  destruct (cleanup v) eqn:Hc.
  - destruct (cyRef v) as [cy|] eqn:Hcy; destruct Hv as [Hlog Hown];
      rewrite Hcy in Hlog; unfold consistent; simpl.
    + rewrite replay_app, Hlog. simpl. rewrite Nat.eqb_refl. auto.
    + auto.
  - destruct Hv as [Hlog Hown]. specialize (Hown Hc).
    unfold consistent. rewrite Hown in *. auto.
Qed.

Lemma consistent_rebuild_effect (v : Viewer) :
  consistent v -> cyRef v = None -> consistent (rebuild_effect v).
Proof.
  intros Hv Hnone. unfold rebuild_effect.
  destruct (containerRef v); [|exact Hv].
  destruct (renderable (graphData (props v))) as [els|]; [|exact Hv].
  destruct Hv as [Hlog Hown].
  unfold consistent. simpl. rewrite replay_app, Hlog, Hnone. simpl.
  split; [reflexivity|discriminate].
Qed.

Lemma instance_apply_highlight (hs : list string) (cy : Cy) :
  instance (apply_highlight hs cy) = instance cy.
Proof.
  unfold apply_highlight. destruct (0 <? List.length hs)%nat; reflexivity.
Qed.

Lemma consistent_with_cy (f : Cy -> Cy) (v : Viewer) :
  (forall cy, instance (f cy) = instance cy) ->
  consistent v -> consistent (with_cy f v).
Proof.
  intros Hf Hv. unfold with_cy.
  destruct (cyRef v) as [cy|] eqn:Hcy; [|exact Hv].
  destruct Hv as [Hlog Hown]. rewrite Hcy in Hlog, Hown.
  unfold consistent. simpl. rewrite Hf. split; [exact Hlog|].
  intros Hc. specialize (Hown Hc). discriminate Hown.
Qed.

Lemma consistent_highlight_effect (v : Viewer) :
  consistent v -> consistent (highlight_effect v).
Proof.
  intros Hv. unfold highlight_effect.
  destruct (cyRef v) as [cy|] eqn:Hcy; [|exact Hv].
  destruct Hv as [Hlog Hown]. rewrite Hcy in Hlog, Hown.
  unfold consistent. simpl. rewrite instance_apply_highlight. split; [exact Hlog|].
  intros Hc. specialize (Hown Hc). discriminate Hown.
Qed.

Lemma consistent_commit (p : Props) (l : string) (v : Viewer) :
  consistent v -> consistent (commit p l v).
Proof.
  intros Hv. unfold commit.
  match goal with |- context [if ?b then run_cleanup v else v] => set (rebuild := b) end.
  match goal with |- consistent (if ?b then _ else _) => set (relight := b) end.
  assert (H : consistent
    (let v0 := if rebuild then run_cleanup v else v in
     let v1 := mkViewer (containerRef v0) (cyRef v0) l p (cleanup v0) (calls v0) in
     if rebuild then rebuild_effect v1 else v1)).
  { destruct rebuild; cbv zeta.
    - destruct (consistent_run_cleanup v Hv) as [[Hlog Hown] [Hnone [Hc _]]].
      apply consistent_rebuild_effect; [|exact Hnone].
      split; [exact Hlog|intros _; exact Hnone].
    - destruct Hv as [Hlog Hown]. split; assumption. }
  cbv zeta in H. destruct relight; [apply consistent_highlight_effect|]; exact H.
Qed.

Lemma consistent_handleChangeLayout (l : string) (v : Viewer) :
  consistent v -> consistent (handleChangeLayout l v).
Proof.
  intros Hv. unfold handleChangeLayout.
  set (v1 := match cyRef v with Some _ => _ | None => v end).
  assert (H1 : consistent v1).
  { subst v1.
    destruct (cyRef v) as [cy|] eqn:Hcy; [|exact Hv].
    destruct Hv as [Hlog Hown]. rewrite Hcy in Hlog, Hown.
    unfold consistent. simpl. rewrite replay_app, Hlog. simpl.
    rewrite Nat.eqb_refl. split; [reflexivity|exact Hown]. }
  destruct (l =? layout v1)%string; [exact H1|apply consistent_commit; exact H1].
Qed.

Lemma consistent_unmount (v : Viewer) :
  consistent v -> consistent (unmount v) /\ cyRef (unmount v) = None.
Proof.
  intros Hv. destruct (consistent_run_cleanup v Hv) as [[Hlog Hown] [Hnone _]].
  unfold unmount. split; [split; assumption|exact Hnone].
Qed.

Lemma consistent_step (v : Viewer) (ev : Event) :
  consistent v -> consistent (step v ev).
Proof.
  intros Hv. destruct ev as [p|l| | |]; simpl.
  - destruct (containerRef v); [apply consistent_commit|]; exact Hv.
  - destruct (containerRef v); [apply consistent_handleChangeLayout|]; exact Hv.
  - apply consistent_with_cy; [reflexivity|exact Hv].
  - apply consistent_with_cy; [reflexivity|exact Hv].
  - destruct (containerRef v); [apply consistent_unmount|]; exact Hv.
Qed.

Lemma consistent_mount (p : Props) : consistent (mount p).
Proof.
  unfold mount. apply consistent_highlight_effect, consistent_rebuild_effect.
  - split; [reflexivity|intros _; reflexivity].
  - reflexivity.
Qed.

Lemma consistent_run (evs : list Event) :
  forall v : Viewer, consistent v -> consistent (run v evs).
Proof.
  unfold run. induction evs as [|ev evs IH]; intros v Hv; [exact Hv|].
  simpl. apply IH, consistent_step, Hv.
Qed.

(** Without a graph to render the rebuild effect makes no engine. *)
Lemma commit_skips_construction (p : Props) (l : string) (v : Viewer) :
  renderable (graphData p) = None ->
  count_constructs (calls (commit p l v)) = count_constructs (calls v)
  /\ (same_graph (graphData p) (graphData (props v)) = false ->
      consistent v -> cyRef (commit p l v) = None).
Proof.
  intros Hr.
  assert (Hcleanup : count_constructs (calls (run_cleanup v)) = count_constructs (calls v)).
  { unfold run_cleanup. destruct (cleanup v); [|reflexivity].
    destruct (cyRef v); [|reflexivity].
    unfold count_constructs. simpl. rewrite filter_app, length_app. simpl. lia. }
  assert (Hhl : forall u, calls (highlight_effect u) = calls u
                          /\ (cyRef u = None -> cyRef (highlight_effect u) = None)).
  { intros u. unfold highlight_effect.
    destruct (cyRef u) eqn:E; split; try reflexivity;
      [discriminate|intros _; exact E]. }
  unfold commit.
  match goal with |- context [if ?b then run_cleanup v else v] => set (rebuild := b) end.
  match goal with |- context [if ?b then highlight_effect _ else _] => set (relight := b) end.
  split.
  - destruct rebuild; cbv zeta; unfold rebuild_effect; simpl; rewrite ?Hr;
      destruct relight; rewrite ?(proj1 (Hhl _));
      repeat match goal with |- context [if ?b then _ else _] => destruct b end;
      simpl; auto.
  - intros Hg Hv. subst rebuild. rewrite Hg. simpl.
    destruct (consistent_run_cleanup v Hv) as [_ [Hnone _]].
    unfold rebuild_effect. simpl. rewrite Hr.
    destruct relight; [apply (proj2 (Hhl _))|];
      destruct (containerRef (run_cleanup v)); simpl; exact Hnone.
Qed.

End Synchronizer.

Section SynchronizerClaims.
Import Graph GraphViewer.

Lemma renderable_no_nodes (g : option (Obj GraphData)) :
  node_count g = 0 -> renderable g = None.
Proof.
  destruct g as [[a [oe]]|]; [|reflexivity].
  destruct oe as [[on es]|]; [|reflexivity].
  destruct on as [[|n ns]|]; simpl; intros H; try reflexivity; discriminate H.
Qed.

Lemma same_graph_refl (g : option (Obj GraphData)) : same_graph g g = true.
Proof. destruct g as [o|]; simpl; [apply Nat.eqb_refl|reflexivity]. Qed.

Lemma count_constructs_app (cs1 cs2 : list EngineCall) :
  count_constructs (cs1 ++ cs2) = count_constructs cs1 + count_constructs cs2.
Proof. unfold count_constructs. rewrite filter_app, length_app. reflexivity. Qed.

Lemma count_destroys_app (cs1 cs2 : list EngineCall) :
  count_destroys (cs1 ++ cs2) = count_destroys cs1 + count_destroys cs2.
Proof. unfold count_destroys. rewrite filter_app, length_app. reflexivity. Qed.

End SynchronizerClaims.

(** C9. Whatever renders, layout changes, zooms and unmount a mounted
    viewer goes through, its engine calls, cut at any point, replay
    without a construction while an instance is alive: every instance
    is destroyed before the next is constructed, constructions exceed
    destructions by the one instance alive, which is the one [cyRef]
    holds. Unmounting leaves none. A render (or the first mount) whose
    graph data is absent or has no node constructs nothing. *)
Theorem one_live_instance :
  forall (p : GraphViewer.Props) (evs : list GraphViewer.Event),
    let v := GraphViewer.run (GraphViewer.mount p) evs in
    (forall pre post,
        GraphViewer.calls v = pre ++ post ->
        exists live,
          GraphViewer.replay None pre = Some live
          /\ GraphViewer.count_constructs pre
             = GraphViewer.count_destroys pre + GraphViewer.alive live)
    /\ GraphViewer.replay None (GraphViewer.calls v)
       = Some (option_map GraphViewer.instance (GraphViewer.cyRef v))
    /\ (GraphViewer.containerRef v = true ->
        GraphViewer.cyRef (GraphViewer.step v GraphViewer.Unmount) = None)
    /\ (forall p',
          GraphViewer.node_count (GraphViewer.graphData p') = 0 ->
          GraphViewer.count_constructs
            (GraphViewer.calls (GraphViewer.step v (GraphViewer.Render p')))
          = GraphViewer.count_constructs (GraphViewer.calls v))
    /\ (GraphViewer.node_count (GraphViewer.graphData p) = 0 ->
        GraphViewer.calls (GraphViewer.mount p) = []).
Proof.
  intros p evs v.
  assert (Hv : GraphViewer.consistent v)
    by (apply consistent_run, consistent_mount).
  split; [|split; [|split; [|split]]].
  - intros pre post Hsplit. destruct Hv as [Hlog _].
    rewrite Hsplit, replay_app in Hlog.
    destruct (GraphViewer.replay None pre) as [live|] eqn:Hpre; [|discriminate Hlog].
    exists live. split; [reflexivity|].
    apply replay_counts in Hpre. simpl in Hpre. lia.
  - exact (proj1 Hv).
  - intros Hc. simpl. rewrite Hc. apply consistent_unmount, Hv.
  - intros p' Hn. simpl.
    destruct (GraphViewer.containerRef v); [|reflexivity].
    apply commit_skips_construction, renderable_no_nodes, Hn.
  - intros Hn. unfold GraphViewer.mount, GraphViewer.rebuild_effect. simpl.
    rewrite (renderable_no_nodes _ Hn). reflexivity.
Qed.

Lemma one_live_instance_witness :
  GraphViewer.count_constructs
    (GraphViewer.calls
       (GraphViewer.step
          (GraphViewer.run (GraphViewer.mount (GraphViewer.props_of Samples.small_graph))
             [ GraphViewer.ChangeLayout "grid"; GraphViewer.ZoomIn ])
          (GraphViewer.Render
             (GraphViewer.mkProps (Some (Graph.mkObj 3 (Graph.mkGraph None))) 1
                                  (Graph.mkObj 2 [])))))
  = GraphViewer.count_constructs
      (GraphViewer.calls
         (GraphViewer.run (GraphViewer.mount (GraphViewer.props_of Samples.small_graph))
            [ GraphViewer.ChangeLayout "grid"; GraphViewer.ZoomIn ])).
Proof.
  refine (proj1 (proj2 (proj2 (proj2
    (one_live_instance (GraphViewer.props_of Samples.small_graph)
       [ GraphViewer.ChangeLayout "grid"; GraphViewer.ZoomIn ]))))
    (GraphViewer.mkProps (Some (Graph.mkObj 3 (Graph.mkGraph None))) 1 (Graph.mkObj 2 []))
    _).
  reflexivity.
Defined.

(** C6 on the code. Fifty nodes are rendered in the force-directed
    layout and the user picks [grid]. The claim has construct and
    destroy counts unchanged and a reposition call only; the handler
    does run the grid layout on the existing instance, and the rebuild
    effect, which depends on the layout state, then destroys that
    instance and constructs a second one. *)
Theorem layout_switch_rebuilds :
  let v := GraphViewer.mount (GraphViewer.props_of Samples.fifty_nodes) in
  let v' := GraphViewer.handleChangeLayout "grid" v in
  GraphViewer.node_count (GraphViewer.graphData (GraphViewer.props v)) = 50
  /\ GraphViewer.layout v = "cose-bilkent"
  /\ GraphViewer.count_constructs (GraphViewer.calls v) = 1
  /\ GraphViewer.count_destroys (GraphViewer.calls v) = 0
  /\ GraphViewer.count_constructs (GraphViewer.calls v') = 2
  /\ GraphViewer.count_destroys (GraphViewer.calls v') = 1
  /\ GraphViewer.calls v'
     = [ GraphViewer.Construct 0 "cose-bilkent" GraphViewer.cose_bilkent_config;
         GraphViewer.RunLayout 0 "grid" GraphViewer.grid_config;
         GraphViewer.Destroy 0;
         GraphViewer.Construct 1 "grid" GraphViewer.grid_config ].
Proof.
  vm_compute. repeat split.
Qed.

(** The rebuild a layout switch sets off also discards the overlay:
    the highlight effect, whose only dependency is the highlight set,
    does not run on the new instance. *)
Lemma layout_switch_drops_overlay :
  let v := GraphViewer.mount Samples.util_highlighted in
  let v' := GraphViewer.handleChangeLayout "grid" v in
  let node_classes_of (w : GraphViewer.Viewer) :=
    option_map (fun cy => map GraphViewer.node_classes (GraphViewer.cy_nodes cy))
               (GraphViewer.cyRef w) in
  node_classes_of v = Some [["dimmed"]; ["highlighted"]]
  /\ node_classes_of v' = Some [[]; []]
  /\ Graph.value (GraphViewer.highlightedNodes (GraphViewer.props v')) = ["lib/util.py"].
Proof.
  vm_compute. repeat split.
Qed.

(** What a layout switch does to any rendered graph: one reposition
    call on the existing instance, with the configured defaults of the
    named layout. When the name is the layout already active nothing
    else happens. When it differs, that instance is then destroyed and
    one new instance is constructed from the same elements with the new
    layout: construct and destroy counts each grow by one. *)
Lemma layout_switch_repositions_then_rebuilds :
  forall (v : GraphViewer.Viewer) (cy : GraphViewer.Cy) (els : Graph.Elements)
         (newLayout : string),
    GraphViewer.rendered v cy els ->
    let v' := GraphViewer.handleChangeLayout newLayout v in
    let config := GraphViewer.getLayoutConfig newLayout in
    let reposition := GraphViewer.RunLayout (GraphViewer.instance cy) newLayout config in
    (newLayout = GraphViewer.layout v ->
       GraphViewer.calls v' = GraphViewer.calls v ++ [reposition]
       /\ GraphViewer.cyRef v' = Some cy)
    /\ (newLayout <> GraphViewer.layout v ->
       let fresh := GraphViewer.count_constructs (GraphViewer.calls v) in
       GraphViewer.calls v'
       = GraphViewer.calls v
           ++ [ reposition; GraphViewer.Destroy (GraphViewer.instance cy);
                GraphViewer.Construct fresh newLayout config ]
       /\ GraphViewer.cyRef v' = Some (GraphViewer.cytoscape fresh els)
       /\ GraphViewer.layout v' = newLayout
       /\ GraphViewer.count_constructs (GraphViewer.calls v')
          = GraphViewer.count_constructs (GraphViewer.calls v) + 1
       /\ GraphViewer.count_destroys (GraphViewer.calls v')
          = GraphViewer.count_destroys (GraphViewer.calls v) + 1).
Proof.
  intros v cy els newLayout [Hc [Hcy [Hcl Hr]]] v' config reposition.
  subst v'. unfold GraphViewer.handleChangeLayout. rewrite Hcy. cbn [GraphViewer.layout].
  split.
  - intros Heq. apply String.eqb_eq in Heq. rewrite Heq. simpl. auto.
  - intros Hne. set (fresh := GraphViewer.count_constructs (GraphViewer.calls v)).
    apply String.eqb_neq in Hne. rewrite Hne.
    unfold GraphViewer.commit. cbn [GraphViewer.props GraphViewer.layout].
    rewrite same_graph_refl, Hne, !Nat.eqb_refl. cbn [andb negb].
    unfold GraphViewer.run_cleanup. cbn [GraphViewer.cleanup GraphViewer.cyRef].
    rewrite Hcl. cbn -[GraphViewer.cytoscape GraphViewer.getLayoutConfig
                        GraphViewer.count_constructs GraphViewer.count_destroys].
    unfold GraphViewer.rebuild_effect.
    cbn -[GraphViewer.cytoscape GraphViewer.getLayoutConfig
          GraphViewer.count_constructs GraphViewer.count_destroys].
    rewrite Hc, Hr.
    cbn -[GraphViewer.cytoscape GraphViewer.getLayoutConfig
          GraphViewer.count_constructs GraphViewer.count_destroys].
    subst config reposition.
    assert (Hfresh : forall c,
               GraphViewer.count_constructs
                 ((GraphViewer.calls v
                     ++ [GraphViewer.RunLayout (GraphViewer.instance cy) newLayout c])
                    ++ [GraphViewer.Destroy (GraphViewer.instance cy)]) = fresh).
    { intros c. rewrite !count_constructs_app. subst fresh.
      unfold GraphViewer.count_constructs at 2 3. simpl. lia. }
    rewrite Hfresh.
    rewrite <- !app_assoc. simpl app.
    repeat split.
    + rewrite count_constructs_app. unfold GraphViewer.count_constructs at 2.
      simpl. subst fresh. lia.
    + rewrite count_destroys_app. unfold GraphViewer.count_destroys at 2.
      simpl. lia.
Qed.

Example layout_switch_to_grid :
  GraphViewer.layout
    (GraphViewer.handleChangeLayout "grid"
       (GraphViewer.mount (GraphViewer.props_of Samples.small_graph)))
  = "grid".
Proof.
  refine (proj1 (proj2 (proj2 (proj2
    (layout_switch_repositions_then_rebuilds
       (GraphViewer.mount (GraphViewer.props_of Samples.small_graph))
       (GraphViewer.cytoscape 0
          (Graph.mkElements (Some [Samples.core; Samples.util])
             (Some [Samples.edge "lib/util.py" "lib/core.py"])))
       (Graph.mkElements (Some [Samples.core; Samples.util])
          (Some [Samples.edge "lib/util.py" "lib/core.py"]))
       "grid" _) _)))).
  - repeat split.
  - discriminate.
Defined.

(** ** Double-precision arithmetic *)

Section Rounding.
Import Float64.
Open Scope Q_scope.

Lemma pow2_pos (e : Z) : 0 < pow2 e.
Proof. apply Qpower_0_lt. reflexivity. Qed.

Lemma pow2_add (a b : Z) : pow2 (a + b) == pow2 a * pow2 b.
Proof. apply Qpower_plus. discriminate. Qed.

Lemma pow2_succ (a : Z) : pow2 (a + 1) == 2 * pow2 a.
Proof. rewrite pow2_add. unfold pow2 at 2. rewrite Qpower_1_r. ring. Qed.

Lemma pow2_le (a b : Z) : (a <= b)%Z -> pow2 a <= pow2 b.
Proof. intros H. apply Qpower_le_compat_l; [exact H|discriminate]. Qed.

Lemma pow2_lt_inv (a b : Z) : pow2 a < pow2 b -> (a < b)%Z.
Proof. intros H. apply (Qpower_lt_compat_l_inv 2); [exact H|reflexivity]. Qed.

Lemma pow2_inject (k : Z) : (0 <= k)%Z -> inject_Z (2 ^ k) == pow2 k.
Proof. intros H. apply Zpower_Qpower. exact H. Qed.

Lemma log2_bounds (n : Z) :
  (0 < n)%Z ->
  pow2 (Z.log2 n) <= inject_Z n /\ inject_Z n < 2 * pow2 (Z.log2 n).
Proof.
  intros Hn. destruct (Z.log2_spec n Hn) as [H1 H2].
  assert (H0 : (0 <= Z.log2 n)%Z) by apply Z.log2_nonneg.
  split.
  - rewrite <- pow2_inject by exact H0. rewrite <- Zle_Qle. exact H1.
  - rewrite <- pow2_succ. rewrite <- pow2_inject by lia.
    rewrite <- Zlt_Qlt. replace (Z.log2 n + 1)%Z with (Z.succ (Z.log2 n)) by lia.
    exact H2.
Qed.

(** [exponent] is the binary exponent. *)
Lemma exponent_spec (q : Q) :
  0 < q -> pow2 (exponent q) <= q /\ q < pow2 (exponent q + 1).
Proof.
  intros Hq. unfold exponent.
  destruct q as [n d]. cbn [Qnum Qden].
  assert (Hn : (0 < n)%Z).
  { unfold Qlt in Hq. cbn in Hq. lia. }
  destruct (log2_bounds n Hn) as [Ha1 Ha2].
  destruct (log2_bounds (Z.pos d) eq_refl) as [Hb1 Hb2].
  set (a := Z.log2 n) in *. set (b := Z.log2 (Z.pos d)) in *.
  assert (HA := pow2_pos a). assert (HB := pow2_pos b).
  assert (Hq' : n # d == inject_Z n / inject_Z (Z.pos d)) by apply Qmake_Qdiv.
  assert (HD : 0 < inject_Z (Z.pos d)) by reflexivity.
  set (N := inject_Z n) in *. set (D := inject_Z (Z.pos d)) in *.
  assert (Hl : pow2 (a - b) * pow2 b == pow2 a).
  { rewrite <- pow2_add. replace (a - b + b)%Z with a by lia. reflexivity. }
  assert (HL := pow2_pos (a - b)).
  assert (Hup : n # d < 2 * pow2 (a - b)).
  { rewrite Hq'. apply Qlt_shift_div_r; [exact HD|]. nra. }
  assert (Hlo : pow2 (a - b) < 2 * (n # d)).
  { rewrite Hq'.
    assert (H : pow2 (a - b) * D < 2 * N) by nra.
    assert (E : 2 * (N / D) == (2 * N) / D) by (field; lra).
    rewrite E. apply Qlt_shift_div_l; assumption. }
  destruct (Qle_bool (pow2 (a - b)) (n # d)) eqn:E.
  - apply Qle_bool_iff in E. split; [exact E|]. rewrite pow2_succ. exact Hup.
  - assert (Hlt : n # d < pow2 (a - b)).
    { apply Qnot_le_lt. intros H. apply Qle_bool_iff in H. rewrite H in E. discriminate. }
    replace (a - b - 1 + 1)%Z with (a - b)%Z by lia.
    split; [|exact Hlt].
    assert (E2 : pow2 (a - b) == 2 * pow2 (a - b - 1)).
    { rewrite <- pow2_succ. replace (a - b - 1 + 1)%Z with (a - b)%Z by lia. reflexivity. }
    lra.
Qed.

Lemma exponent_mono (p q : Q) : 0 < p -> p <= q -> (exponent p <= exponent q)%Z.
Proof.
  intros Hp Hpq.
  destruct (exponent_spec p Hp) as [H1 _].
  destruct (exponent_spec q) as [_ H2]; [lra|].
  assert (exponent p < exponent q + 1)%Z by (apply pow2_lt_inv; lra).
  lia.
Qed.


Lemma nearest_even_mono (x y : Q) :
  x <= y -> (nearest_even x <= nearest_even y)%Z.
Proof.
  intros Hxy. pose proof (Qfloor_resp_le x y Hxy) as Hf.
  assert (Hx : (Qfloor x <= nearest_even x <= Qfloor x + 1)%Z).
  { unfold nearest_even.
    destruct (x - inject_Z (Qfloor x) ?= 1#2); [destruct (Z.even _)| |]; lia. }
  assert (Hy : (Qfloor y <= nearest_even y <= Qfloor y + 1)%Z).
  { unfold nearest_even.
    destruct (y - inject_Z (Qfloor y) ?= 1#2); [destruct (Z.even _)| |]; lia. }
  destruct (Z.eq_dec (Qfloor x) (Qfloor y)) as [E|E]; [|lia].
  unfold nearest_even. rewrite <- E.
  destruct (Qcompare_spec (x - inject_Z (Qfloor x)) (1#2)) as [E1|E1|E1];
    destruct (Qcompare_spec (y - inject_Z (Qfloor x)) (1#2)) as [E2|E2|E2];
    try destruct (Z.even (Qfloor x)); try lia; exfalso; lra.
Qed.

Lemma nearest_even_inject (k : Z) : nearest_even (inject_Z k) = k.
Proof.
  unfold nearest_even. rewrite Qfloor_Z.
  destruct (Qcompare_spec (inject_Z k - inject_Z k) (1#2)) as [E|E|E];
    [exfalso; lra|reflexivity|exfalso; lra].
Qed.

Lemma ulp_mono (p q : Q) : 0 < p -> p <= q -> (ulp p <= ulp q)%Z.
Proof.
  intros Hp Hpq. unfold ulp. pose proof (exponent_mono p q Hp Hpq). lia.
Qed.

Lemma round_pos_value (q : Q) :
  round_pos q == inject_Z (nearest_even (q / pow2 (ulp q))) * pow2 (ulp q).
Proof. unfold round_pos. apply Qred_correct. Qed.

(** The significand: below 2^53, and at least 2^52 for a normal
    number. *)
Lemma significand_below (q : Q) : 0 < q -> q / pow2 (ulp q) < inject_Z (2 ^ 53).
Proof.
  intros Hq. destruct (exponent_spec q Hq) as [_ H].
  apply Qlt_shift_div_r; [apply pow2_pos|].
  rewrite pow2_inject by lia. rewrite <- pow2_add.
  apply (Qlt_le_trans _ _ _ H). apply pow2_le. unfold ulp. lia.
Qed.

Lemma significand_above (q : Q) :
  0 < q -> ulp q = (exponent q - 52)%Z -> inject_Z (2 ^ 52) <= q / pow2 (ulp q).
Proof.
  intros Hq He. destruct (exponent_spec q Hq) as [H _].
  apply Qle_shift_div_l; [apply pow2_pos|].
  rewrite pow2_inject by lia. rewrite <- pow2_add. rewrite He.
  replace (52 + (exponent q - 52))%Z with (exponent q) by lia. exact H.
Qed.

Lemma round_pos_nonneg (q : Q) : 0 < q -> 0 <= round_pos q.
Proof.
  intros Hq. rewrite round_pos_value.
  assert (H : (0 <= nearest_even (q / pow2 (ulp q)))%Z).
  { rewrite <- (nearest_even_inject 0). apply nearest_even_mono.
    apply Qle_shift_div_l; [apply pow2_pos|]. change (inject_Z 0) with 0. lra. }
  rewrite Zle_Qle in H. change (inject_Z 0) with 0 in H.
  pose proof (pow2_pos (ulp q)). nra.
Qed.

Lemma round_pos_mono (p q : Q) : 0 < p -> p <= q -> round_pos p <= round_pos q.
Proof.
  intros Hp Hpq. assert (Hq : 0 < q) by lra.
  rewrite !round_pos_value.
  pose proof (ulp_mono p q Hp Hpq) as He.
  pose proof (pow2_pos (ulp p)) as Pp. pose proof (pow2_pos (ulp q)) as Pq.
  destruct (Z.eq_dec (ulp p) (ulp q)) as [E|E].
  - rewrite E in *.
    assert (H : (nearest_even (p / pow2 (ulp q)) <= nearest_even (q / pow2 (ulp q)))%Z).
    { apply nearest_even_mono. apply Qle_shift_div_l; [exact Pq|].
      assert (E1 : p / pow2 (ulp q) * pow2 (ulp q) == p) by (field; lra).
      rewrite E1. exact Hpq. }
    rewrite Zle_Qle in H. nra.
  - assert (H1 : (nearest_even (p / pow2 (ulp p)) <= 2 ^ 53)%Z).
    { rewrite <- (nearest_even_inject (2 ^ 53)). apply nearest_even_mono.
      apply Qlt_le_weak, significand_below, Hp. }
    assert (H2 : (2 ^ 52 <= nearest_even (q / pow2 (ulp q)))%Z).
    { rewrite <- (nearest_even_inject (2 ^ 52)). apply nearest_even_mono.
      apply significand_above; [exact Hq|]. unfold ulp in *. lia. }
    rewrite Zle_Qle in H1, H2.
    assert (H3 : pow2 (ulp p + 1) <= pow2 (ulp q)) by (apply pow2_le; lia).
    rewrite pow2_succ in H3.
    change (inject_Z (2 ^ 53)) with (2 * inject_Z (2 ^ 52)) in H1.
    assert (H4 : 0 < inject_Z (2 ^ 52)) by reflexivity.
    set (K := inject_Z (2 ^ 52)) in *.
    set (a := inject_Z (nearest_even (p / pow2 (ulp p)))) in *.
    set (b := inject_Z (nearest_even (q / pow2 (ulp q)))) in *.
    apply Qle_trans with (2 * K * pow2 (ulp p)); [nra|].
    apply Qle_trans with (K * pow2 (ulp q)); nra.
Qed.

(** Rounding is monotone. *)
Lemma round_mono (p q : Q) : p <= q -> round p <= round q.
Proof.
  intros Hpq. unfold round.
  destruct (Qcompare_spec p 0) as [Ep|Ep|Ep]; destruct (Qcompare_spec q 0) as [Eq|Eq|Eq];
    try (exfalso; lra).
  - lra.
  - apply round_pos_nonneg. exact Eq.
  - pose proof (round_pos_nonneg (- p)). lra.
  - assert (H : round_pos (- q) <= round_pos (- p)) by (apply round_pos_mono; lra). lra.
  - pose proof (round_pos_nonneg (- p)). pose proof (round_pos_nonneg q). lra.
  - apply round_pos_mono; assumption.
Qed.


(** The doubles the literals of the zoom controls denote. *)
Lemma literal_0_1 : literal (1#10) = 3602879701896397 # 36028797018963968.
Proof. vm_compute. reflexivity. Qed.

Lemma literal_1_2 : literal (12#10) = 5404319552844595 # 4503599627370496.
Proof. vm_compute. reflexivity. Qed.

Lemma literal_0_8 : literal (8#10) = 3602879701896397 # 4503599627370496.
Proof. vm_compute. reflexivity. Qed.



End Rounding.

(** ** The viewport *)

Section Viewport.
Import GraphViewer.



End Viewport.

Section ViewportBounds.
Import GraphViewer.



End ViewportBounds.




(** The products are rounded: two zoom-outs from the level 1 leave
    0.6400000000000001, which is neither the rational 0.64 nor the
    double nearest to it. *)
Lemma zoom_out_twice_is_rounded :
  GraphViewer.current_zoom
    (GraphViewer.run (GraphViewer.mount (GraphViewer.props_of Samples.small_graph))
       [GraphViewer.ZoomOut; GraphViewer.ZoomOut])
  = Some (1441151880758559 # 2251799813685248)%Q
  /\ ~ (1441151880758559 # 2251799813685248 == 64#100)%Q
  /\ Float64.literal (64#100) = (5764607523034235 # 9007199254740992)%Q
  /\ (Float64.literal (64#100) < 1441151880758559 # 2251799813685248)%Q.
Proof.
  split; [vm_compute; reflexivity|].
  split; [intros H; vm_compute in H; discriminate H|].
  split; vm_compute; reflexivity.
Qed.

(** On every level between the minimum and the maximum that the zoom
    buttons reach from the level 1, the two products are those of the
    standard library's specification of IEEE-754 multiplication. *)
Lemma mul_agrees_with_reference :
  Forall (fun level =>
            exists z, level = Some z
              /\ Float64.reference_mul z (Float64.literal (12#10))
                 = Some (Float64.mul z (Float64.literal (12#10)))
              /\ Float64.reference_mul z (Float64.literal (8#10))
                 = Some (Float64.mul z (Float64.literal (8#10))))
         Samples.zoom_levels.
Proof.
  unfold Samples.zoom_levels. cbn [seq map].
  repeat (apply Forall_cons; [eexists; split; [vm_compute; reflexivity|];
                              split; vm_compute; reflexivity|]).
  apply Forall_nil.
Qed.

(** ** The highlight overlay *)

Section Overlay.
Import Graph GraphViewer.

Lemma includes_In (l : list string) (x : string) :
  includes l x = true <-> In x l.
Proof.
  unfold includes. rewrite existsb_exists. split.
  - intros [y [Hin Heq]]. apply String.eqb_eq in Heq. subst y. exact Hin.
  - intros Hin. exists x. split; [exact Hin|apply String.eqb_refl].
Qed.

Lemma includes_filter (f : string -> bool) (l : list string) (x : string) :
  includes (filter f l) x = includes l x && f x.
Proof.
  unfold includes. induction l as [|y l IH]; [reflexivity|].
  simpl. destruct (f y) eqn:Hf; simpl.
  - rewrite IH. destruct (y =? x)%string eqn:E; simpl; [|reflexivity].
    apply String.eqb_eq in E. subst y. rewrite Hf. reflexivity.
  - rewrite IH. destruct (y =? x)%string eqn:E; simpl; [|reflexivity].
    apply String.eqb_eq in E. subst y. rewrite Hf.
    rewrite andb_false_r. reflexivity.
Qed.

Lemma hasClass_removeClass (names classes : list string) (c : string) :
  hasClass c (removeClass names classes)
  = hasClass c classes && negb (includes names c).
Proof. unfold hasClass, removeClass. apply includes_filter. Qed.

Lemma hasClass_addClass (name : string) (classes : list string) (c : string) :
  hasClass c (addClass name classes) = (name =? c)%string || hasClass c classes.
Proof.
  unfold hasClass, addClass.
  destruct (includes classes name) eqn:Hin.
  - destruct (name =? c)%string eqn:E; [|reflexivity].
    apply String.eqb_eq in E. subst c. rewrite Hin. reflexivity.
  - unfold includes. rewrite existsb_app. simpl.
    rewrite orb_false_r. apply orb_comm.
Qed.

Lemma node_overlay_classes (highlighted : bool) (classes : list string) :
  hasClass "highlighted" (node_overlay highlighted classes) = highlighted
  /\ hasClass "dimmed" (node_overlay highlighted classes) = negb highlighted.
Proof.
  unfold node_overlay. destruct highlighted; simpl negb; cbv iota;
    rewrite !hasClass_addClass, !hasClass_removeClass; simpl;
    rewrite ?andb_false_r; split; reflexivity.
Qed.

Lemma edge_overlay_classes (connected : bool) (classes : list string) :
  hasClass "highlighted" (edge_overlay connected classes) = connected
  /\ hasClass "dimmed" (edge_overlay connected classes) = negb connected.
Proof.
  unfold edge_overlay. destruct connected; cbv iota;
    rewrite ?hasClass_addClass, ?hasClass_removeClass, ?hasClass_addClass,
      ?hasClass_removeClass; simpl;
    rewrite ?andb_false_r; split; reflexivity.
Qed.

Lemma cleared_classes (classes : list string) :
  hasClass "highlighted" (removeClass ["highlighted"; "dimmed"] classes) = false
  /\ hasClass "dimmed" (removeClass ["highlighted"; "dimmed"] classes) = false.
Proof.
  rewrite !hasClass_removeClass. simpl. rewrite !andb_false_r. split; reflexivity.
Qed.

(** [connectedEdges] looks at the data of the nodes and of the edge
    only, not at their classes. *)
Lemma connected_data (hs : list string) (cy1 cy2 : Cy) (e1 e2 : EdgeEle) :
  map node_data (cy_nodes cy1) = map node_data (cy_nodes cy2) ->
  edge_data e1 = edge_data e2 ->
  connected hs cy1 e1 = connected hs cy2 e2.
Proof.
  intros Hn He. unfold connected, in_highlighted. rewrite He.
  set (f := fun d : FileData =>
              includes hs (id d)
              && ((id d =? source (edge_data e2))%string
                  || (id d =? target (edge_data e2))%string)).
  assert (H : forall l, existsb (fun n => f (node_data n)) l = existsb f (map node_data l)).
  { induction l as [|n l IH]; simpl; [reflexivity|rewrite IH; reflexivity]. }
  change (existsb (fun n => f (node_data n)) (cy_nodes cy1)
          = existsb (fun n => f (node_data n)) (cy_nodes cy2)).
  rewrite !H, Hn. reflexivity.
Qed.

Lemma on_nodes_data (sel : NodeEle -> bool) (f : list string -> list string) (cy : Cy) :
  map node_data (cy_nodes (on_nodes sel f cy)) = map node_data (cy_nodes cy).
Proof.
  unfold on_nodes. cbn [cy_nodes]. rewrite map_map. apply map_ext.
  intros n. destruct (sel n); reflexivity.
Qed.

Lemma on_edges_data (sel : EdgeEle -> bool) (f : list string -> list string) (cy : Cy) :
  map edge_data (cy_edges (on_edges sel f cy)) = map edge_data (cy_edges cy).
Proof.
  unfold on_edges. cbn [cy_edges]. rewrite map_map. apply map_ext.
  intros e. destruct (sel e); reflexivity.
Qed.

Lemma on_edges_nodes (sel : EdgeEle -> bool) (f : list string -> list string) (cy : Cy) :
  cy_nodes (on_edges sel f cy) = cy_nodes cy.
Proof. reflexivity. Qed.

Lemma connected_iff (hs : list string) (cy : Cy) (e : EdgeEle) :
  connected hs cy e = true
  <-> exists n, In n (cy_nodes cy) /\ In (id (node_data n)) hs
                /\ (id (node_data n) = source (edge_data e)
                    \/ id (node_data n) = target (edge_data e)).
Proof.
  unfold connected, in_highlighted. rewrite existsb_exists. split.
  - intros [n [Hin H]]. apply andb_true_iff in H. destruct H as [Hh Hends].
    exists n. split; [exact Hin|]. split; [apply includes_In; exact Hh|].
    apply orb_true_iff in Hends.
    destruct Hends as [H|H]; apply String.eqb_eq in H; auto.
  - intros [n [Hin [Hh Hends]]]. exists n. split; [exact Hin|].
    apply andb_true_iff. split; [apply includes_In; exact Hh|].
    apply orb_true_iff.
    destruct Hends as [H|H]; rewrite H, String.eqb_refl; auto.
Qed.

Lemma apply_highlight_empty (cy : Cy) :
  cy_nodes (apply_highlight [] cy)
  = map (fun n => mkNodeEle (node_data n)
                    (removeClass ["highlighted"; "dimmed"] (node_classes n)))
        (cy_nodes cy)
  /\ cy_edges (apply_highlight [] cy)
     = map (fun e => mkEdgeEle (edge_data e)
                       (removeClass ["highlighted"; "dimmed"] (edge_classes e)))
           (cy_edges cy).
Proof. split; reflexivity. Qed.

Lemma apply_highlight_nodes (hs : list string) (cy : Cy) :
  hs <> [] ->
  cy_nodes (apply_highlight hs cy)
  = map (fun n => mkNodeEle (node_data n)
                    (node_overlay (includes hs (id (node_data n))) (node_classes n)))
        (cy_nodes cy).
Proof.
  intros Hne. destruct hs as [|h hs]; [contradiction|].
  unfold apply_highlight. cbn [List.length Nat.ltb Nat.leb].
  cbn [on_nodes on_edges cy_nodes]. rewrite !map_map. apply map_ext.
  intros n. unfold all, in_highlighted, node_overlay.
  cbn -[includes addClass removeClass].
  destruct (includes (h :: hs) (id (node_data n))) eqn:E;
    cbn -[includes addClass removeClass]; rewrite ?E; reflexivity.
Qed.

Lemma apply_highlight_edges (hs : list string) (cy : Cy) :
  hs <> [] ->
  cy_edges (apply_highlight hs cy)
  = map (fun e => mkEdgeEle (edge_data e)
                    (edge_overlay (connected hs cy e) (edge_classes e)))
        (cy_edges cy).
Proof.
  intros Hne. destruct hs as [|h hs]; [contradiction|].
  unfold apply_highlight. cbn [List.length Nat.ltb Nat.leb].
  cbn [on_nodes on_edges cy_edges]. rewrite !map_map. apply map_ext.
  intros e. unfold all, edge_overlay.
  cbn -[includes addClass removeClass connected on_nodes].
  match goal with
  | |- context [connected ?l ?c ?x] =>
      replace (connected l c x) with (connected (h :: hs) cy e)
  end.
  - destruct (connected (h :: hs) cy e); reflexivity.
  - apply connected_data; [|reflexivity].
    repeat (rewrite on_edges_nodes || rewrite on_nodes_data). reflexivity.
Qed.

End Overlay.

(** C7, as the specification states it, does not hold of the code:
    [util] imports [core] and only [util] is in the highlight set. The
    edge between them is promoted to [highlighted] although one of its
    two ends, [core], is dimmed. *)
Lemma edge_to_dimmed_node_promoted :
  let cy := GraphViewer.cytoscape 0
              (Graph.mkElements (Some [Samples.core; Samples.util])
                 (Some [Samples.edge "lib/util.py" "lib/core.py"])) in
  let cy' := GraphViewer.apply_highlight ["lib/util.py"] cy in
  map (fun n => (Graph.id (GraphViewer.node_data n), GraphViewer.node_classes n))
      (GraphViewer.cy_nodes cy')
  = [ ("lib/core.py", ["dimmed"]); ("lib/util.py", ["highlighted"]) ]
  /\ map (fun e => (Graph.source (GraphViewer.edge_data e),
                    Graph.target (GraphViewer.edge_data e),
                    GraphViewer.edge_classes e))
         (GraphViewer.cy_edges cy')
     = [ ("lib/util.py", "lib/core.py", ["highlighted"]) ].
Proof.
  vm_compute. split; reflexivity.
Qed.

(** C7, amended. Applying the overlay keeps the engine instance and its
    elements and makes no engine construction or destruction. With an
    empty highlight set no node and no edge is left [highlighted] or
    [dimmed]. With a non-empty one, a node is [highlighted] exactly when
    its id is in the set and [dimmed] exactly when it is not; an edge is
    [highlighted] exactly when at least one of its two ends is a
    highlighted node, and [dimmed] exactly when neither is. *)
Theorem highlight_overlay :
  forall (hs : list string) (cy : GraphViewer.Cy),
    let cy' := GraphViewer.apply_highlight hs cy in
    let hl := GraphViewer.hasClass "highlighted" in
    let dim := GraphViewer.hasClass "dimmed" in
    GraphViewer.instance cy' = GraphViewer.instance cy
    /\ map GraphViewer.node_data (GraphViewer.cy_nodes cy')
       = map GraphViewer.node_data (GraphViewer.cy_nodes cy)
    /\ map GraphViewer.edge_data (GraphViewer.cy_edges cy')
       = map GraphViewer.edge_data (GraphViewer.cy_edges cy)
    /\ (forall v, GraphViewer.calls (GraphViewer.highlight_effect v) = GraphViewer.calls v)
    /\ (hs = [] ->
        (forall n, In n (GraphViewer.cy_nodes cy') ->
           hl (GraphViewer.node_classes n) = false
           /\ dim (GraphViewer.node_classes n) = false)
        /\ (forall e, In e (GraphViewer.cy_edges cy') ->
           hl (GraphViewer.edge_classes e) = false
           /\ dim (GraphViewer.edge_classes e) = false))
    /\ (hs <> [] ->
        (forall n, In n (GraphViewer.cy_nodes cy') ->
           (hl (GraphViewer.node_classes n) = true
            <-> In (Graph.id (GraphViewer.node_data n)) hs)
           /\ (dim (GraphViewer.node_classes n) = true
               <-> ~ In (Graph.id (GraphViewer.node_data n)) hs))
        /\ (forall e, In e (GraphViewer.cy_edges cy') ->
           let touches :=
             exists n, In n (GraphViewer.cy_nodes cy)
                       /\ In (Graph.id (GraphViewer.node_data n)) hs
                       /\ (Graph.id (GraphViewer.node_data n)
                             = Graph.source (GraphViewer.edge_data e)
                           \/ Graph.id (GraphViewer.node_data n)
                             = Graph.target (GraphViewer.edge_data e)) in
           (hl (GraphViewer.edge_classes e) = true <-> touches)
           /\ (dim (GraphViewer.edge_classes e) = true <-> ~ touches))).
Proof.
  intros hs cy cy' hl dim. subst cy' hl dim.
  split; [apply instance_apply_highlight|].
  assert (Hdata :
    map GraphViewer.node_data (GraphViewer.cy_nodes (GraphViewer.apply_highlight hs cy))
    = map GraphViewer.node_data (GraphViewer.cy_nodes cy)
    /\ map GraphViewer.edge_data (GraphViewer.cy_edges (GraphViewer.apply_highlight hs cy))
       = map GraphViewer.edge_data (GraphViewer.cy_edges cy)).
  { destruct hs as [|h hs].
    - destruct (apply_highlight_empty cy) as [-> ->].
      rewrite !map_map. split; reflexivity.
    - rewrite apply_highlight_nodes, apply_highlight_edges by discriminate.
      rewrite !map_map. split; reflexivity. }
  destruct Hdata as [Hnodes Hedges].
  split; [exact Hnodes|]. split; [exact Hedges|]. split; [|split].
  - intros v. unfold GraphViewer.highlight_effect.
    destruct (GraphViewer.cyRef v); reflexivity.
  - intros ->. destruct (apply_highlight_empty cy) as [-> ->]. split.
    + intros n Hin. apply in_map_iff in Hin. destruct Hin as [n0 [<- _]].
      apply cleared_classes.
    + intros e Hin. apply in_map_iff in Hin. destruct Hin as [e0 [<- _]].
      apply cleared_classes.
  - intros Hne. rewrite apply_highlight_nodes, apply_highlight_edges by assumption.
    split.
    + intros n Hin. apply in_map_iff in Hin. destruct Hin as [n0 [<- _]].
      cbn [GraphViewer.node_data GraphViewer.node_classes].
      destruct (node_overlay_classes
                  (GraphViewer.includes hs (Graph.id (GraphViewer.node_data n0)))
                  (GraphViewer.node_classes n0)) as [-> ->].
      rewrite negb_true_iff, <- not_true_iff_false, includes_In.
      split; reflexivity.
    + intros e Hin. apply in_map_iff in Hin. destruct Hin as [e0 [<- _]].
      cbn [GraphViewer.edge_data GraphViewer.edge_classes].
      destruct (edge_overlay_classes (GraphViewer.connected hs cy e0)
                  (GraphViewer.edge_classes e0)) as [-> ->].
      rewrite negb_true_iff, <- not_true_iff_false.
      rewrite (connected_iff hs cy e0).
      split; reflexivity.
Qed.

Lemma highlight_overlay_witness :
  GraphViewer.hasClass "dimmed"
    (GraphViewer.node_classes (GraphViewer.mkNodeEle Samples.core ["dimmed"])) = true
  <-> ~ In (Graph.id (GraphViewer.node_data (GraphViewer.mkNodeEle Samples.core ["dimmed"])))
           ["lib/util.py"].
Proof.
  refine (proj2 (proj1 (proj2 (proj2 (proj2 (proj2 (proj2
    (highlight_overlay ["lib/util.py"]
       (GraphViewer.cytoscape 0
          (Graph.mkElements (Some [Samples.core; Samples.util])
             (Some [Samples.edge "lib/util.py" "lib/core.py"])))))))) _)
    (GraphViewer.mkNodeEle Samples.core ["dimmed"]) _)).
  - discriminate.
  - left. reflexivity.
Defined.

(** * Further properties of the code *)

(** ** Text helpers *)

Section Text.

Lemma prefix_split (n : string) :
  forall h : string, prefix n h = true <-> exists b, h = (n ++ b)%string.
Proof.
  induction n as [|c n IH]; intros h.
  - simpl. split; [intros _; exists h; reflexivity|].
    intros _. destruct h; reflexivity.
  - destruct h as [|d h]; simpl.
    + split; [discriminate|]. intros [b Hb]. discriminate Hb.
    + destruct (ascii_dec c d) as [->|Hne].
      * rewrite IH. split; intros [b Hb]; exists b; [rewrite Hb; reflexivity|].
        injection Hb as Hb. exact Hb.
      * split; [discriminate|]. intros [b Hb]. injection Hb as Hc _.
        exfalso. apply Hne. symmetry. exact Hc.
Qed.

Lemma includes_text_split (n : string) :
  forall h : string,
    includes_text h n = true <-> exists a b, h = (a ++ n ++ b)%string.
Proof.
  induction h as [|d h IH].
  - cbn [includes_text]. destruct (prefix n "") eqn:Hp.
    + split; [intros _|reflexivity].
      apply prefix_split in Hp. destruct Hp as [b Hb]. exists "", b. exact Hb.
    + split; [discriminate|]. intros [a [b Hab]].
      destruct a; [|discriminate Hab]. simpl in Hab.
      assert (Hp' : prefix n "" = true) by (apply prefix_split; exists b; exact Hab).
      rewrite Hp in Hp'. discriminate Hp'.
  - cbn [includes_text]. destruct (prefix n (String d h)) eqn:Hp.
    + split; [intros _|reflexivity].
      apply prefix_split in Hp. destruct Hp as [b Hb]. exists "", b. exact Hb.
    + rewrite IH. split.
      * intros [a [b Hab]]. exists (String d a), b. simpl. rewrite Hab. reflexivity.
      * intros [a [b Hab]]. destruct a as [|e a].
        -- simpl in Hab.
           assert (Hp' : prefix n (String d h) = true)
             by (apply prefix_split; exists b; exact Hab).
           rewrite Hp in Hp'. discriminate Hp'.
        -- simpl in Hab. injection Hab as _ Hab. exists a, b. exact Hab.
Qed.

(** Text without a slash. *)
Lemma no_slash_cons (c : ascii) (s : string) :
  includes_text (String c s) "/" = false
  <-> Ascii.eqb c "/" = false /\ includes_text s "/" = false.
Proof.
  cbn [includes_text prefix].
  destruct (ascii_dec "/" c) as [<-|Hne].
  - simpl. destruct s; simpl; split; try discriminate; intros [H _]; discriminate H.
  - assert (Hc : Ascii.eqb c "/" = false).
    { apply Ascii.eqb_neq. intros ->. apply Hne. reflexivity. }
    rewrite Hc. split; [intros H; split; [reflexivity|exact H]|intros [_ H]; exact H].
Qed.

Lemma last_segment_from_no_slash (s : string) :
  forall acc : string,
    includes_text s "/" = false -> last_segment_from acc s = (acc ++ s)%string.
Proof.
  induction s as [|c s IH]; intros acc Hs.
  - simpl. clear Hs. induction acc as [|a acc IHa]; [reflexivity|].
    simpl. rewrite <- IHa. reflexivity.
  - apply no_slash_cons in Hs. destruct Hs as [Hc Hs].
    cbn [last_segment_from]. rewrite Hc, IH by exact Hs.
    clear. induction acc as [|a acc IHa]; [reflexivity|].
    simpl. rewrite IHa. reflexivity.
Qed.

Lemma last_segment_from_slash (a : string) :
  forall (acc b : string),
    last_segment_from acc (a ++ String "/" b) = last_segment_from "" b.
Proof.
  induction a as [|c a IH]; intros acc b.
  - reflexivity.
  - simpl. destruct (Ascii.eqb c "/"); apply IH.
Qed.

Lemma last_segment_from_clean (s : string) :
  forall acc : string,
    includes_text acc "/" = false ->
    includes_text (last_segment_from acc s) "/" = false.
Proof.
  induction s as [|c s IH]; intros acc Hacc; [exact Hacc|].
  cbn [last_segment_from]. destruct (Ascii.eqb c "/") eqn:Hc.
  - apply IH. reflexivity.
  - apply IH. clear IH. induction acc as [|a acc IHa].
    + cbn [append]. apply no_slash_cons. split; [exact Hc|reflexivity].
    + apply no_slash_cons in Hacc. destruct Hacc as [Ha Hacc].
      cbn [append]. apply no_slash_cons. split; [exact Ha|apply IHa; exact Hacc].
Qed.

End Text.

(** X1. [path.split('/').pop()], which labels risk files and dependents:
    the result never contains a slash; it is what follows the last
    slash; and a path without a slash is its own last segment. *)
Theorem last_segment_after_last_slash :
  (forall s, includes_text (last_segment s) "/" = false)
  /\ (forall a b,
        includes_text b "/" = false ->
        last_segment (a ++ "/" ++ b)%string = b)
  /\ (forall b, includes_text b "/" = false -> last_segment b = b).
Proof.
  unfold last_segment. split; [|split].
  - intros s. apply last_segment_from_clean. reflexivity.
  - intros a b Hb. change ("/" ++ b)%string with (String "/" b).
    rewrite last_segment_from_slash. apply last_segment_from_no_slash. exact Hb.
  - intros b Hb. apply last_segment_from_no_slash. exact Hb.
Qed.

Lemma last_segment_after_last_slash_witness :
  last_segment ("lib/pkg" ++ "/" ++ "core.py")%string = "core.py".
Proof.
  apply (proj1 (proj2 last_segment_after_last_slash) "lib/pkg" "core.py").
  reflexivity.
Defined.

(** ** Request timeouts *)

Section Timeouts.

Lemma digit_range (c : ascii) (v : Z) :
  digit c = Some v -> 48 <= nat_of_ascii c <= 57.
Proof.
  unfold digit. intros H.
  destruct ((48 <=? Z.of_nat (nat_of_ascii c))%Z && (Z.of_nat (nat_of_ascii c) <=? 57)%Z)
    eqn:E; [|discriminate H].
  apply andb_true_iff in E. destruct E as [E1 E2].
  apply Z.leb_le in E1, E2. lia.
Qed.

(** A digit is no white space and no sign. *)
Lemma strip_space_digit (c : ascii) (v : Z) (rest : string) :
  digit c = Some v -> strip_space (String c rest) = None.
Proof.
  intros H. apply digit_range in H. unfold strip_space.
  set (n := nat_of_ascii c) in *.
  replace ((9 <=? n)%nat && (n <=? 13)%nat || (n =? 32)%nat) with false.
  2:{ symmetry. apply orb_false_iff. split.
      - apply andb_false_iff. right. apply Nat.leb_gt. lia.
      - apply Nat.eqb_neq. lia. }
  assert (H194 : (n =? 194)%nat = false) by (apply Nat.eqb_neq; lia).
  assert (H225 : (n =? 225)%nat = false) by (apply Nat.eqb_neq; lia).
  assert (H226 : (n =? 226)%nat = false) by (apply Nat.eqb_neq; lia).
  assert (H227 : (n =? 227)%nat = false) by (apply Nat.eqb_neq; lia).
  assert (H239 : (n =? 239)%nat = false) by (apply Nat.eqb_neq; lia).
  destruct rest as [|c1 rest1]; [reflexivity|].
  rewrite H194. cbn [andb].
  destruct rest1 as [|c2 rest2]; [reflexivity|].
  rewrite H225, H226, H227, H239. reflexivity.
Qed.

Lemma trimStart_digit (c : ascii) (v : Z) (rest : string) :
  digit c = Some v -> trimStart (String c rest) = String c rest.
Proof.
  intros H. unfold trimStart. cbn [String.length trimStart_rounds].
  rewrite (strip_space_digit c v rest H). reflexivity.
Qed.

Lemma sign_digit (c : ascii) (v : Z) :
  digit c = Some v -> Ascii.eqb c "-" = false /\ Ascii.eqb c "+" = false.
Proof.
  intros H. split; apply Ascii.eqb_neq; intros ->; discriminate H.
Qed.

Lemma parse_digits_stop (acc : Z) (rest : string) :
  no_leading_digit rest = true -> parse_digits acc rest = acc.
Proof.
  destruct rest as [|c rest]; [reflexivity|].
  cbn [no_leading_digit parse_digits]. destruct (digit c); [discriminate|reflexivity].
Qed.

(** Reading a numeral digit by digit is the library's conversion. *)
Lemma parse_digits_numeral (d : Decimal.uint) :
  forall (acc : Z) (rest : string),
    (0 <= acc)%Z -> no_leading_digit rest = true ->
    parse_digits acc (NilEmpty.string_of_uint d ++ rest)%string
    = Z.of_nat (Nat.of_uint_acc d (Z.to_nat acc)).
Proof.
  induction d as [|d IH|d IH|d IH|d IH|d IH|d IH|d IH|d IH|d IH|d IH];
    intros acc rest Hacc Hrest;
    [ cbn [NilEmpty.string_of_uint append Nat.of_uint_acc];
      rewrite parse_digits_stop by exact Hrest; lia | .. ];
    cbn [NilEmpty.string_of_uint append parse_digits Nat.of_uint_acc];
    match goal with
    | |- context [digit ?c] =>
        let v := eval vm_compute in (digit c) in change (digit c) with v
    end;
    cbv iota; rewrite IH by (lia || exact Hrest);
    rewrite Nat.tail_mul_spec; do 2 f_equal; lia.
Qed.

Lemma to_uint_not_nil (n : nat) : Nat.to_uint n <> Decimal.Nil.
Proof.
  rewrite Unsigned.to_uint_alt. intros H. apply rev_nil_inv in H.
  destruct n as [|n]; [discriminate H|].
  rewrite Unsigned.to_lu_succ in H.
  destruct (Unsigned.to_lu n); discriminate H.
Qed.

Lemma numeral_head (n : nat) :
  numeral n = NilEmpty.string_of_uint (Nat.to_uint n)
  /\ exists c v s, numeral n = String c s /\ digit c = Some v.
Proof.
  unfold numeral. pose proof (to_uint_not_nil n) as Hn.
  destruct (Nat.to_uint n) as [|d|d|d|d|d|d|d|d|d|d]; [contradiction|..];
    (split; [reflexivity|]); cbn [NilZero.string_of_uint NilEmpty.string_of_uint];
    eexists _, _, _; (split; [reflexivity|vm_compute; reflexivity]).
Qed.

End Timeouts.

(** X2. [parseTimeout]: an environment variable holding the decimal
    numeral of a number up to 2^53, whatever non-digit text follows it,
    gives that number, 0 included (which switches the axios timeout
    off); an unset variable and a variable of white space only give the
    fallback. *)
Theorem parseTimeout_reads_numeral :
  (forall (n : nat) (rest : string) (fallback : Z),
      (Z.of_nat n <= 2 ^ 53)%Z -> no_leading_digit rest = true ->
      Api.parseTimeout (Some (numeral n ++ rest)%string) fallback = Some (Z.of_nat n))
  /\ (forall fallback, Api.parseTimeout None fallback = Some fallback)
  /\ (forall (s : string) (fallback : Z),
        blank s = true -> Api.parseTimeout (Some s) fallback = Some fallback).
Proof.
  split; [|split].
  - intros n rest fallback Hn Hrest.
    destruct (numeral_head n) as [Hnum [c [v [s [Hs Hc]]]]].
    unfold Api.parseTimeout, parseInt.
    rewrite Hs. cbn [append]. rewrite (trimStart_digit c v _ Hc).
    destruct (sign_digit c v Hc) as [-> ->]. rewrite Hc.
    change (String c (s ++ rest)) with (String c s ++ rest)%string.
    rewrite <- Hs, Hnum, parse_digits_numeral by (lia || exact Hrest).
    change (Nat.of_uint_acc (Nat.to_uint n) (Z.to_nat 0)) with (Nat.of_uint (Nat.to_uint n)).
    rewrite Unsigned.of_to, Z.mul_1_l.
    replace (Z.abs (Z.of_nat n) <=? 2 ^ 53)%Z with true; [reflexivity|].
    symmetry. apply Z.leb_le. lia.
  - reflexivity.
  - intros s fallback Hs. unfold Api.parseTimeout, parseInt.
    unfold blank in Hs. destruct (trimStart s); [reflexivity|discriminate Hs].
Qed.

Lemma parseTimeout_reads_numeral_witness :
  Api.parseTimeout (Some (numeral 4500 ++ "ms")%string) 300000 = Some (Z.of_nat 4500).
Proof.
  apply (proj1 parseTimeout_reads_numeral 4500 "ms" 300000%Z).
  - apply Z.leb_le. vm_compute. reflexivity.
  - reflexivity.
Defined.

(** ** Polling and the session hook, continued *)

Section PollingMore.
Import Api.

Lemma poll_reports_prefix_from (budget : nat) (rs : list (Settled StatusPayload)) :
  forall (attempts : nat) (log0 : list StatusPayload),
    attempts <= budget ->
    exists (k : nat) (log : list StatusPayload),
      attempts + k <= budget /\ k <= List.length rs
      /\ poll_state (poll_loop (Some Samples.record) budget rs attempts log0) = log0 ++ log
      /\ map Fulfilled log = firstn k rs.
Proof.
  induction rs as [|r rs IH]; intros attempts log0 Hle.
  - exists 0, []. rewrite List.app_nil_r, Nat.add_0_r.
    repeat split; try assumption; try reflexivity.
    unfold poll_loop. destruct (attempts <? budget)%nat; reflexivity.
  - cbn [poll_loop]. destruct (attempts <? budget)%nat eqn:Hlt.
    + apply Nat.ltb_lt in Hlt. destruct r as [p|e].
      * cbn [notify]. change (Samples.record p log0) with (log0 ++ [p]).
        destruct (Api.status p =? "complete")%string;
          [|destruct (Api.status p =? "error")%string].
        -- exists 1, [p]. simpl. repeat split; try lia.
        -- exists 1, [p]. simpl. repeat split; try lia.
        -- destruct (IH (attempts + 1) (log0 ++ [p]) ltac:(lia))
             as [k [log [Hk [Hlen [Hst Hpre]]]]].
           exists (S k), (p :: log). simpl. repeat split; try lia.
           ++ rewrite Hst, <- app_assoc. reflexivity.
           ++ rewrite Hpre. reflexivity.
      * exists 0, []. rewrite List.app_nil_r, Nat.add_0_r. simpl.
        repeat split; try lia.
    + exists 0, []. rewrite List.app_nil_r, Nat.add_0_r. simpl.
      repeat split; try lia.
Qed.

End PollingMore.

(** X3. Whatever the status fetches bring, the payloads [pollAnalysis]
    hands to [onProgress] are, in order, the first [k] responses, all of
    them successful, for some [k] that exceeds neither [maxAttempts] nor
    the number of responses: no payload is skipped, repeated or
    reordered, and the callback runs at most [maxAttempts] times. *)
Theorem onProgress_sees_a_prefix :
  forall (maxAttempts : nat) (responses : list (Settled Api.StatusPayload)),
  exists k : nat,
    k <= maxAttempts /\ k <= List.length responses
    /\ map Fulfilled
         (Api.poll_state (Api.pollAnalysis (Some Samples.record) maxAttempts responses []))
       = firstn k responses.
Proof.
  intros maxAttempts responses.
  destruct (poll_reports_prefix_from maxAttempts responses 0 [] (Nat.le_0_l _))
    as [k [log [Hk [Hlen [Hst Hpre]]]]].
  exists k. unfold Api.pollAnalysis. rewrite Hst. simpl.
  repeat split; assumption.
Qed.

Section HookMore.
Import Api UseAnalysis.

Lemma str_or_nonempty (o : option string) (d : string) :
  d <> "" -> str_or o d <> "".
Proof.
  intros Hd. unfold str_or. destruct o as [m|]; [|exact Hd].
  destruct (m =? "")%string eqn:E; [exact Hd|].
  apply String.eqb_neq. exact E.
Qed.

Lemma lifecycle_catch (status0 : option StatusPayload) (err : Error) (s : Session) :
  (status s = status0 \/ exists p, status s = Some p /\ Api.status p <> "complete") ->
  lifecycle status0 (analyze_catch err s, Done (Threw err)).
Proof.
  intros Hkept. cbn -[str_or]. split; [reflexivity|]. split; [|exact Hkept].
  eexists. split; [reflexivity|]. apply str_or_nonempty. discriminate.
Qed.

(** One event other than [reset] keeps the hook on its life cycle. *)
Lemma lifecycle_step (status0 : option StatusPayload) (w : Session * Analyze) (ev : Event) :
  lifecycle status0 w -> ev <> Reset -> lifecycle status0 (step w ev).
Proof.
  destruct w as [s k]. intros Hw Hev.
  destruct ev as [r|r|]; [| |contradiction]; destruct k as [|id n|c];
    cbn [step]; try exact Hw.
  - (* startAnalysis settles *)
    destruct Hw as [Hl [He Hs]]. destruct r as [id|err]; cbn [resume_start].
    + unfold pollAnalysis, poll_loop. cbn. repeat split; try assumption.
      * unfold maxAttempts. lia.
      * left. exact Hs.
    + apply lifecycle_catch. left. exact Hs.
  - (* a status fetch settles *)
    destruct Hw as [Hl [He [Hid [Hn Hkept]]]].
    unfold resume_poll. cbn [poll_loop].
    apply Nat.ltb_lt in Hn. rewrite Hn.
    destruct r as [p|err]; [|apply lifecycle_catch; exact Hkept].
    cbn [notify].
    destruct (Api.status p =? "complete")%string eqn:Hc.
    + apply String.eqb_eq in Hc. cbn. repeat split; try assumption.
      exists p. split; [reflexivity|exact Hc].
    + apply String.eqb_neq in Hc.
      assert (Hp : status (onProgress p s) = status0
                   \/ exists q, status (onProgress p s) = Some q
                                /\ Api.status q <> "complete")
        by (right; exists p; split; [reflexivity|exact Hc]).
      destruct (Api.status p =? "error")%string.
      * cbn [after_poll]. apply lifecycle_catch. exact Hp.
      * unfold poll_loop. destruct (n + 1 <? maxAttempts)%nat eqn:Hn'.
        -- cbn [after_poll]. apply Nat.ltb_lt in Hn'.
           cbn. repeat split; try assumption.
        -- cbn [after_poll]. apply lifecycle_catch. exact Hp.
Qed.

Lemma lifecycle_run (status0 : option StatusPayload) (evs : list Event) :
  forall w : Session * Analyze,
    lifecycle status0 w -> no_reset evs -> lifecycle status0 (run w evs).
Proof.
  unfold run, no_reset. induction evs as [|ev evs IH]; intros w Hw Hevs; [exact Hw|].
  inversion Hevs as [|? ? Hev Hrest]; subst.
  cbn [fold_left]. apply IH; [|exact Hrest].
  apply lifecycle_step; assumption.
Qed.

Lemma lifecycle_analyze (s : Session) : lifecycle (status s) (analyze s).
Proof. cbn. repeat split. Qed.

(** [onProgress] overwrites what earlier calls wrote. *)
Lemma onProgress_last (ps : list StatusPayload) :
  forall (p : StatusPayload) (s : Session),
    notified (Some onProgress) (ps ++ [p]) s = onProgress p s.
Proof.
  unfold notified.
  induction ps as [|q ps IH]; intros p s; [reflexivity|].
  simpl. rewrite IH. reflexivity.
Qed.

End HookMore.

(** X4. The life cycle of one call of [analyze] that no [reset]
    interrupts, whatever the service answers and in whatever state the
    hook was: while the call is suspended the hook is loading and shows
    no error; once it has returned the hook is not loading, shows no
    error, holds the id it returned and a status payload that says
    [complete]; once it has thrown the hook is not loading and shows a
    non-empty error message. *)
Theorem analyze_life_cycle :
  forall (s : UseAnalysis.Session) (evs : list UseAnalysis.Event),
    UseAnalysis.no_reset evs ->
    let s' := fst (UseAnalysis.run (UseAnalysis.analyze s) evs) in
    let k := snd (UseAnalysis.run (UseAnalysis.analyze s) evs) in
    ((forall c, k <> UseAnalysis.Done c) ->
       UseAnalysis.loading s' = true /\ UseAnalysis.error s' = None)
    /\ (forall id, k = UseAnalysis.Done (Returned id) ->
       UseAnalysis.loading s' = false /\ UseAnalysis.error s' = None
       /\ UseAnalysis.analysisId s' = Some id /\ App.is_complete s' = true)
    /\ (forall err, k = UseAnalysis.Done (Threw err) ->
       UseAnalysis.loading s' = false
       /\ exists m, UseAnalysis.error s' = Some m /\ m <> "").
Proof.
  intros s evs Hevs s' k.
  pose proof (lifecycle_run (UseAnalysis.status s) evs (UseAnalysis.analyze s)
                (lifecycle_analyze s) Hevs) as H.
  subst s' k. destruct (UseAnalysis.run (UseAnalysis.analyze s) evs) as [s' k].
  cbn [fst snd]. unfold UseAnalysis.lifecycle in H.
  split; [|split].
  - intros Hk. destruct k as [|id n|c].
    + destruct H as [Hl [He _]]. auto.
    + destruct H as [Hl [He _]]. auto.
    + exfalso. apply (Hk c). reflexivity.
  - intros id ->. destruct H as [Hl [He [Hid [p [Hp Hc]]]]].
    repeat split; try assumption.
    unfold App.is_complete. rewrite Hp. apply String.eqb_eq. exact Hc.
  - intros err ->. destruct H as [Hl [Hm _]]. auto.
Qed.

Lemma analyze_life_cycle_witness :
  UseAnalysis.loading
    (fst (UseAnalysis.run (UseAnalysis.analyze UseAnalysis.initial)
            [ UseAnalysis.StartSettled (Fulfilled "s1");
              UseAnalysis.StatusSettled (Fulfilled Samples.failed) ])) = false
  /\ exists m,
       UseAnalysis.error
         (fst (UseAnalysis.run (UseAnalysis.analyze UseAnalysis.initial)
                 [ UseAnalysis.StartSettled (Fulfilled "s1");
                   UseAnalysis.StatusSettled (Fulfilled Samples.failed) ])) = Some m
       /\ m <> "".
Proof.
  refine (proj2 (proj2 (analyze_life_cycle UseAnalysis.initial
    [ UseAnalysis.StartSettled (Fulfilled "s1");
      UseAnalysis.StatusSettled (Fulfilled Samples.failed) ] _))
    (mkError "Clone failed") _).
  - repeat constructor; discriminate.
  - reflexivity.
Defined.

Section HookOutcomes.
Import Api UseAnalysis.

Lemma str_or_twice (o : option string) (d : string) :
  d <> "" -> str_or (Some (str_or o d)) d = str_or o d.
Proof.
  intros Hd. unfold str_or at 1.
  destruct (str_or o d =? "")%string eqn:E; [|reflexivity].
  apply String.eqb_eq in E. exfalso. exact (str_or_nonempty o d Hd E).
Qed.

(** The hook after [startAnalysis] has returned [id] and the status
    fetches have brought the non-terminal payloads [ps] and then [p]. *)
Lemma run_to_last_payload (s : Session) (id : string)
      (ps : list StatusPayload) (p : StatusPayload) (rest : list (Settled StatusPayload)) :
  Forall (fun q => terminal q = false) ps ->
  List.length ps < maxAttempts ->
  run (analyze s)
      (StartSettled (Fulfilled id)
         :: map StatusSettled (map Fulfilled (ps ++ [p]) ++ rest))
  = after_poll id
      (poll_loop (Some onProgress) maxAttempts (Fulfilled p :: rest) (List.length ps)
         (mkSession true None (Some id) (status (notified (Some onProgress) ps s))
                    (progress (notified (Some onProgress) ps
                                 (setProgress 0 s))))).
Proof.
  intros Hnt Hlen. unfold run. cbn [fold_left step analyze resume_start].
  unfold pollAnalysis. rewrite poll_loop_pending by (unfold maxAttempts; lia).
  cbn [after_poll]. fold (run (setAnalysisId (Some id)
                                 (setProgress 0 (setError None (setLoading true s))),
                               AwaitPoll id 0)
                              (map StatusSettled (map Fulfilled (ps ++ [p]) ++ rest))).
  rewrite run_is_poll_loop by (unfold maxAttempts; lia).
  rewrite map_app, <- app_assoc. cbn [map app].
  rewrite poll_loop_progress by (assumption || simpl; lia).
  cbn [Nat.add]. f_equal. f_equal.
  clear. unfold notified.
  set (s0 := setAnalysisId _ _).
  assert (H : forall (l : list StatusPayload) (a b : Session),
             loading a = true -> error a = None -> analysisId a = Some id ->
             status a = status b -> progress a = progress b ->
             fold_left (fun s p => notify (Some onProgress) p s) l a
             = mkSession true None (Some id)
                 (status (fold_left (fun s p => notify (Some onProgress) p s) l b))
                 (progress (fold_left (fun s p => notify (Some onProgress) p s) l b))).
  { induction l as [|q l IH]; intros a b Hl He Hi Hs Hp.
    - destruct a as [l0 e0 i0 st0 pr0]. simpl in *. subst. reflexivity.
    - cbn [fold_left]. apply IH; cbn; try reflexivity; assumption. }
  assert (Hst : forall (l : list StatusPayload) (a b : Session),
             status a = status b ->
             status (fold_left (fun s p => notify (Some onProgress) p s) l a)
             = status (fold_left (fun s p => notify (Some onProgress) p s) l b)).
  { induction l as [|q l IH]; intros a b Hs; [exact Hs|].
    cbn [fold_left]. apply IH. reflexivity. }
  rewrite (H ps s0 (setProgress 0 s)); try reflexivity.
  f_equal. apply Hst. reflexivity.
Qed.

End HookOutcomes.

(** X5. A call of [analyze] that ends well leaves the hook in a state
    that depends on nothing but the id [startAnalysis] returned and the
    final payload: not loading, no error, that id, that payload as
    status and its [progress] (0 when absent). It is the state
    [loadAnalysis(id)] leaves when its fetch returns the same payload. *)
Theorem completed_analyze_is_loadAnalysis :
  forall (s s0 : UseAnalysis.Session) (id : string)
         (ps : list Api.StatusPayload) (p : Api.StatusPayload),
    Forall (fun q => Api.terminal q = false) ps ->
    List.length ps < UseAnalysis.maxAttempts ->
    Api.status p = "complete" ->
    let final := UseAnalysis.mkSession false None (Some id) (Some p)
                   (num_or (Api.progress p) 0) in
    UseAnalysis.run (UseAnalysis.analyze s)
      (UseAnalysis.StartSettled (Fulfilled id)
         :: map UseAnalysis.StatusSettled (map Fulfilled (ps ++ [p])))
    = (final, UseAnalysis.Done (Returned id))
    /\ UseAnalysis.resume_load id (Fulfilled p) (UseAnalysis.loadAnalysis s0)
       = (final, Returned p).
Proof.
  intros s s0 id ps p Hnt Hlen Hc final. split; [|reflexivity].
  rewrite <- (List.app_nil_r (map Fulfilled (ps ++ [p]))).
  rewrite run_to_last_payload by assumption.
  cbn [Api.poll_loop]. apply Nat.ltb_lt in Hlen. rewrite Hlen.
  apply String.eqb_eq in Hc. rewrite Hc. reflexivity.
Qed.

Lemma completed_analyze_is_loadAnalysis_witness :
  UseAnalysis.run (UseAnalysis.analyze UseAnalysis.initial)
    (UseAnalysis.StartSettled (Fulfilled "s1")
       :: map UseAnalysis.StatusSettled
            (map Fulfilled ([Samples.processing 30] ++ [Samples.complete])))
  = (UseAnalysis.mkSession false None (Some "s1") (Some Samples.complete)
       (num_or (Api.progress Samples.complete) 0),
     UseAnalysis.Done (Returned "s1")).
Proof.
  refine (proj1 (completed_analyze_is_loadAnalysis UseAnalysis.initial UseAnalysis.initial
                   "s1" [Samples.processing 30] Samples.complete _ _ _)).
  - repeat constructor.
  - unfold UseAnalysis.maxAttempts. simpl. lia.
  - reflexivity.
Defined.

(** X6. How a failed analysis shows in the hook. When the service
    reports status [error], the error cell holds the server's message
    (['Analysis failed'] when it sends none), the status cell holds that
    payload and the progress its [progress]. When [maxAttempts] = 150
    payloads have come without a terminal one, the error cell holds
    ['Analysis timeout'] and the status and progress cells are those of
    the last payload, whatever arrives later. In both cases the hook is
    no longer loading and keeps the id. *)
Theorem failed_analysis_state :
  forall (s : UseAnalysis.Session) (id : string)
         (ps : list Api.StatusPayload) (p : Api.StatusPayload)
         (rest : list (Settled Api.StatusPayload)),
    Forall (fun q => Api.terminal q = false) ps ->
    List.length ps < UseAnalysis.maxAttempts ->
    let after :=
      UseAnalysis.run (UseAnalysis.analyze s)
        (UseAnalysis.StartSettled (Fulfilled id)
           :: map UseAnalysis.StatusSettled (map Fulfilled (ps ++ [p]) ++ rest)) in
    (Api.status p = "error" ->
       after = (UseAnalysis.mkSession false
                  (Some (str_or (Api.error p) "Analysis failed"))
                  (Some id) (Some p) (num_or (Api.progress p) 0),
                UseAnalysis.Done
                  (Threw (mkError (str_or (Api.error p) "Analysis failed")))))
    /\ (Api.terminal p = false -> S (List.length ps) = UseAnalysis.maxAttempts ->
       after = (UseAnalysis.mkSession false (Some "Analysis timeout")
                  (Some id) (Some p) (num_or (Api.progress p) 0),
                UseAnalysis.Done (Threw (mkError "Analysis timeout")))).
Proof.
  intros s id ps p rest Hnt Hlen after. subst after.
  rewrite run_to_last_payload by assumption.
  cbn [Api.poll_loop]. apply Nat.ltb_lt in Hlen. rewrite Hlen.
  split.
  - intros He. rewrite He. cbn [String.eqb Ascii.eqb Bool.eqb].
    cbn [UseAnalysis.after_poll]. unfold UseAnalysis.analyze_catch.
    cbn [message]. rewrite str_or_twice by discriminate. reflexivity.
  - intros Hp Hmax. destruct (terminal_false p Hp) as [-> ->].
    rewrite poll_loop_exhausted by lia. reflexivity.
Qed.

Lemma failed_analysis_state_witness :
  UseAnalysis.run (UseAnalysis.analyze UseAnalysis.initial)
    (UseAnalysis.StartSettled (Fulfilled "s1")
       :: map UseAnalysis.StatusSettled
            (map Fulfilled ([Samples.processing 30] ++ [Samples.failed]) ++ []))
  = (UseAnalysis.mkSession false (Some "Clone failed") (Some "s1")
       (Some Samples.failed) 40,
     UseAnalysis.Done (Threw (mkError "Clone failed"))).
Proof.
  refine (proj1 (failed_analysis_state UseAnalysis.initial "s1"
                   [Samples.processing 30] Samples.failed [] _ _) _).
  - repeat constructor.
  - unfold UseAnalysis.maxAttempts. simpl. lia.
  - reflexivity.
Defined.

(** ** The application shell *)

(** X7. The file object a risk-list click selects. Its [full_path] is
    always the path of the risk file. When the graph has no node with
    that path, its id is the path, its label the last path segment, and
    its risk fields those of the risk file. When the graph has one, id
    and label are those of the first such node, and each risk field the
    node lacks is that of the risk file. *)
Theorem fileData_of_risk_file :
  forall (g : option Graph.GraphData) (file : Risk.RiskFile),
    let fd := App.fileData_of g file in
    Graph.full_path fd = Risk.file_path file
    /\ (App.find_node g (Risk.file_path file) = None ->
        Graph.id fd = Risk.file_path file
        /\ Graph.label fd = last_segment (Risk.file_path file)
        /\ Graph.lines fd = None
        /\ Graph.risk_score fd = Risk.risk_score file
        /\ Graph.risk_level fd = Risk.risk_level file
        /\ Graph.blast_radius_count fd = Risk.blast_radius file)
    /\ (forall node,
          App.find_node g (Risk.file_path file) = Some node ->
          Graph.full_path node = Risk.file_path file
          /\ Graph.id fd = Graph.id node
          /\ Graph.label fd = Graph.label node
          /\ Graph.lines fd = Graph.lines node
          /\ (Graph.risk_score node = None ->
              Graph.risk_score fd = Risk.risk_score file)
          /\ (Graph.risk_level node = None ->
              Graph.risk_level fd = Risk.risk_level file)
          /\ (Graph.blast_radius_count node = None ->
              Graph.blast_radius_count fd = Risk.blast_radius file)).
Proof.
  intros g file fd. subst fd. unfold App.fileData_of.
  assert (Hfound : forall node,
             App.find_node g (Risk.file_path file) = Some node ->
             Graph.full_path node = Risk.file_path file).
  { intros node H. unfold App.find_node in H.
    destruct g as [[oe]|]; [|discriminate H].
    destruct oe as [[on es]|]; [|discriminate H].
    destruct on as [ns|]; [|discriminate H].
    apply find_some in H. destruct H as [_ H]. apply String.eqb_eq. exact H. }
  destruct (App.find_node g (Risk.file_path file)) as [node|] eqn:Hfind.
  - split; [apply (Hfound node eq_refl)|]. split; [discriminate|].
    intros node' Hn. injection Hn as <-.
    split; [apply (Hfound node eq_refl)|].
    unfold Graph.assign. cbn. repeat split.
    + destruct (Graph.lines node); reflexivity.
    + intros ->. reflexivity.
    + intros ->. reflexivity.
    + intros ->. reflexivity.
  - split; [reflexivity|]. split; [|discriminate].
    intros _. repeat split.
Qed.

Lemma fileData_of_risk_file_witness :
  Graph.id (App.fileData_of None Samples.core_risk) = Risk.file_path Samples.core_risk.
Proof.
  refine (proj1 (proj1 (proj2 (fileData_of_risk_file None Samples.core_risk)) _)).
  reflexivity.
Defined.

(** X8. The graph pane. While the hook is not loading, exactly one of
    the welcome text, the graph viewer and the "No Dependencies Found"
    text is rendered; while it is loading the spinner is rendered, the
    two texts are not, and the viewer is rendered exactly when the graph
    held has a node. *)
Theorem graph_pane_alternatives :
  forall (s : UseAnalysis.Session) (u : App.Ui),
    let v := App.view s u in
    (UseAnalysis.loading s = false ->
       App.spinner v = false
       /\ ((App.welcome v = true /\ App.graphViewer v = false
            /\ App.noDependencies v = false /\ App.graphData u = None)
           \/ (App.welcome v = false /\ App.graphViewer v = true
               /\ App.noDependencies v = false
               /\ GraphViewer.node_count
                    (option_map (Graph.mkObj 0) (App.graphData u)) <> 0)
           \/ (App.welcome v = false /\ App.graphViewer v = false
               /\ App.noDependencies v = true
               /\ App.graphData u <> None
               /\ GraphViewer.node_count
                    (option_map (Graph.mkObj 0) (App.graphData u)) = 0)))
    /\ (UseAnalysis.loading s = true ->
       App.spinner v = true /\ App.welcome v = false /\ App.noDependencies v = false).
Proof.
  intros s u v. subst v. unfold App.view. cbn.
  destruct (UseAnalysis.loading s); split; intros H; try discriminate H.
  - rewrite !andb_false_r. auto.
  - split; [reflexivity|].
    destruct (App.graphData u) as [[oe]|]; [|left; auto].
    destruct oe as [[on es]|]; [|right; right; repeat split; discriminate].
    destruct on as [[|n ns]|]; cbn.
    + right. right. repeat split; discriminate.
    + right. left. repeat split; discriminate.
    + right. right. repeat split; discriminate.
Qed.

Lemma graph_pane_alternatives_witness :
  App.spinner (App.view UseAnalysis.initial (App.ui Samples.loaded)) = false.
Proof.
  refine (proj1 (proj1 (graph_pane_alternatives UseAnalysis.initial
                          (App.ui Samples.loaded)) _)).
  reflexivity.
Defined.

(** X9. After a failed analysis the page offers no way on. Start from a
    hook without status; let the call of [analyze] throw, no [reset] in
    between. Then the error message is rendered, the progress bar, the
    tabs and the "New Analysis" button are not, and the form is rendered
    only if no status payload was ever received: after a server-reported
    error or a timeout the page shows neither the form nor the button.
    [handleReset] would bring the form back. *)
Theorem failed_analysis_page :
  forall (s : UseAnalysis.Session) (evs : list UseAnalysis.Event)
         (u : App.Ui) (err : Error),
    UseAnalysis.status s = None ->
    UseAnalysis.no_reset evs ->
    snd (UseAnalysis.run (UseAnalysis.analyze s) evs) = UseAnalysis.Done (Threw err) ->
    let s' := fst (UseAnalysis.run (UseAnalysis.analyze s) evs) in
    let v := App.view s' u in
    App.errorMessage v = true
    /\ App.progressBar v = false
    /\ App.tabs v = false
    /\ App.newAnalysisButton v = false
    /\ (App.analysisForm v = true <-> UseAnalysis.status s' = None)
    /\ App.analysisForm
         (App.view (fst (App.handleReset (s', u))) (snd (App.handleReset (s', u)))) = true.
Proof.
  intros s evs u err Hs Hevs Hk s' v.
  pose proof (lifecycle_run (UseAnalysis.status s) evs (UseAnalysis.analyze s)
                (lifecycle_analyze s) Hevs) as H.
  subst v s'. destruct (UseAnalysis.run (UseAnalysis.analyze s) evs) as [s' k].
  cbn [fst snd] in *. subst k. unfold UseAnalysis.lifecycle in H.
  destruct H as [Hl [[m [Hm Hne]] Hkept]]. rewrite Hs in Hkept.
  assert (Hc : App.is_complete s' = false).
  { unfold App.is_complete. destruct Hkept as [->|[p [-> Hp]]]; [reflexivity|].
    apply String.eqb_neq. exact Hp. }
  unfold App.view. cbn. rewrite Hl, Hm, Hc. cbn.
  repeat split.
  - apply String.eqb_neq in Hne. rewrite Hne. reflexivity.
  - destruct (UseAnalysis.status s'); [discriminate|reflexivity].
  - intros ->. reflexivity.
Qed.

Lemma failed_analysis_page_witness :
  App.newAnalysisButton
    (App.view
       (fst (UseAnalysis.run (UseAnalysis.analyze UseAnalysis.initial)
               [ UseAnalysis.StartSettled (Fulfilled "s1");
                 UseAnalysis.StatusSettled (Fulfilled Samples.failed) ]))
       (App.ui Samples.loaded)) = false.
Proof.
  refine (proj1 (proj2 (proj2 (proj2
    (failed_analysis_page UseAnalysis.initial
       [ UseAnalysis.StartSettled (Fulfilled "s1");
         UseAnalysis.StatusSettled (Fulfilled Samples.failed) ]
       (App.ui Samples.loaded) (mkError "Clone failed") _ _ _))))).
  - reflexivity.
  - repeat constructor; discriminate.
  - reflexivity.
Defined.

(** ** The details panel and the form *)

(** X10. The "Direct Dependents" section of the details panel appears
    only for a non-empty list. It shows the last path segments of the
    first dependents, five at most, none of them with a slash; "+N more"
    appears exactly when there are more than five, and then N is
    positive and the names shown plus N make the whole list. *)
Theorem dependents_section_bounds :
  forall (blastRadius : option Blast.BlastRadius) (shown : list string) (more : option nat),
    FileDetails.dependents_section blastRadius = Some (shown, more) ->
    exists (blast : Blast.BlastRadius) (deps : list string),
      blastRadius = Some blast
      /\ Blast.direct_dependents blast = Some deps
      /\ deps <> []
      /\ shown = map last_segment (firstn 5 deps)
      /\ 0 < List.length shown <= 5
      /\ Forall (fun name => includes_text name "/" = false) shown
      /\ match more with
         | Some n => 0 < n /\ List.length shown + n = List.length deps
         | None => List.length shown = List.length deps
         end.
Proof.
  intros blastRadius shown more H. unfold FileDetails.dependents_section in H.
  destruct blastRadius as [blast|]; [|discriminate H].
  destruct (Blast.direct_dependents blast) as [[|d deps]|] eqn:Hd; try discriminate H.
  remember (d :: deps) as l eqn:Hl.
  assert (Hlen : 0 < List.length l) by (rewrite Hl; simpl; lia).
  assert (Hne : l <> []) by (rewrite Hl; discriminate).
  clear Hl.
  assert (Hs : shown = map last_segment (firstn 5 l)) by congruence.
  assert (Hm : more = if (5 <? List.length l)%nat then Some (List.length l - 5) else None)
    by congruence.
  clear H. subst shown more.
  exists blast, l. split; [reflexivity|]. split; [exact Hd|].
  split; [exact Hne|]. split; [reflexivity|].
  rewrite length_map, length_firstn.
  split; [lia|]. split.
  - apply Forall_forall. intros name Hin. apply in_map_iff in Hin.
    destruct Hin as [path [<- _]]. apply last_segment_from_clean. reflexivity.
  - destruct (5 <? List.length l)%nat eqn:E.
    + apply Nat.ltb_lt in E. lia.
    + apply Nat.ltb_ge in E. lia.
Qed.

Lemma dependents_section_bounds_witness :
  exists (blast : Blast.BlastRadius) (deps : list string),
    Some Samples.core_blast = Some blast
    /\ Blast.direct_dependents blast = Some deps
    /\ deps <> []
    /\ ["util.py"; "main.py"] = map last_segment (firstn 5 deps)
    /\ 0 < List.length ["util.py"; "main.py"] <= 5
    /\ Forall (fun name => includes_text name "/" = false) ["util.py"; "main.py"]
    /\ List.length ["util.py"; "main.py"] = List.length deps.
Proof.
  apply (dependents_section_bounds (Some Samples.core_blast) ["util.py"; "main.py"] None).
  reflexivity.
Defined.

(** X11. How a failed blast-radius fetch shows in the details panel.
    After a risk-list click the blast-radius section is rendered with
    the cached count of the risk file as "Files Affected" (0 when the
    file has none) and without a "Direct Dependents" section; after a
    graph-node click the blast-radius section is not rendered at all. *)
Theorem failed_fetch_in_details_panel :
  forall (w : App.World) (e : Error),
    App.truthy (App.analysisId w) = true ->
    let n := List.length (App.inflight w) in
    (forall file,
        let shown := App.blastRadius
                       (App.ui (App.settle n (Rejected e)
                                  (App.select (App.OnRiskFile file) w))) in
        FileDetails.files_affected shown = Some (num_or (Risk.blast_radius file) 0)
        /\ FileDetails.dependents_section shown = None)
    /\ (forall node,
        let shown := App.blastRadius
                       (App.ui (App.settle n (Rejected e)
                                  (App.select (App.OnNode node) w))) in
        FileDetails.files_affected shown = None
        /\ FileDetails.dependents_section shown = None).
Proof.
  intros w e Hid n. subst n. split.
  - intros file shown. subst shown. rewrite settle_newest by assumption.
    cbn. split; [|reflexivity]. f_equal. unfold num_or.
    destruct (Risk.blast_radius file) as [z|]; [|reflexivity].
    destruct (z =? 0)%Z eqn:E; [reflexivity|]. rewrite E. reflexivity.
  - intros node shown. subst shown. rewrite settle_newest by assumption.
    cbn. split; reflexivity.
Qed.

Lemma failed_fetch_in_details_panel_witness :
  FileDetails.files_affected
    (App.blastRadius
       (App.ui (App.settle (List.length (App.inflight Samples.loaded))
                  (Rejected Samples.blip)
                  (App.select (App.OnRiskFile Samples.core_risk) Samples.loaded))))
  = Some (num_or (Risk.blast_radius Samples.core_risk) 0).
Proof.
  refine (proj1 (proj1 (failed_fetch_in_details_panel Samples.loaded Samples.blip _)
                   Samples.core_risk)).
  reflexivity.
Defined.

(** X12. The form calls [onSubmit] exactly when the URL has a character
    that is not white space and contains [github.com] or [gitlab.com]
    somewhere in it. It then passes the URL as typed, not trimmed, and
    the branch as typed, and clears the error text; otherwise it calls
    nothing, sets a non-empty error text and keeps both fields. *)
Theorem handleSubmit_validation :
  forall f : AnalysisForm.Form,
    let accepted :=
      blank (AnalysisForm.repoUrl f) = false
      /\ exists a b,
           AnalysisForm.repoUrl f = (a ++ "github.com" ++ b)%string
           \/ AnalysisForm.repoUrl f = (a ++ "gitlab.com" ++ b)%string in
    let f' := fst (AnalysisForm.handleSubmit f) in
    AnalysisForm.repoUrl f' = AnalysisForm.repoUrl f
    /\ AnalysisForm.branch f' = AnalysisForm.branch f
    /\ (accepted ->
        snd (AnalysisForm.handleSubmit f)
        = Some (AnalysisForm.repoUrl f, AnalysisForm.branch f)
        /\ AnalysisForm.error f' = "")
    /\ (~ accepted ->
        snd (AnalysisForm.handleSubmit f) = None /\ AnalysisForm.error f' <> "").
Proof.
  intros f accepted f'.
  assert (Hdec : accepted
                 <-> negb (blank (AnalysisForm.repoUrl f))
                     && (includes_text (AnalysisForm.repoUrl f) "github.com"
                         || includes_text (AnalysisForm.repoUrl f) "gitlab.com") = true).
  { subst accepted.
    rewrite andb_true_iff, negb_true_iff, orb_true_iff, !includes_text_split. split.
    - intros [Hb [a [b [H|H]]]].
      + split; [exact Hb|]. left. exists a, b. exact H.
      + split; [exact Hb|]. right. exists a, b. exact H.
    - intros [Hb [[a [b H]]|[a [b H]]]].
      + split; [exact Hb|]. exists a, b. left. exact H.
      + split; [exact Hb|]. exists a, b. right. exact H. }
  subst f'. unfold AnalysisForm.handleSubmit.
  destruct (blank (AnalysisForm.repoUrl f));
    destruct (includes_text (AnalysisForm.repoUrl f) "github.com");
    destruct (includes_text (AnalysisForm.repoUrl f) "gitlab.com");
    cbn in Hdec |- *;
    (split; [reflexivity|]); (split; [reflexivity|]);
    (split;
     [ intros Ha;
       first [ apply Hdec in Ha; discriminate Ha | split; reflexivity ]
     | intros Hna;
       first [ exfalso; apply Hna; apply Hdec; reflexivity
             | split; [reflexivity|discriminate] ] ]).
Qed.

Lemma handleSubmit_validation_witness :
  snd (AnalysisForm.handleSubmit
         (AnalysisForm.mkForm " https://github.com/acme/widgets" "main" ""))
  = Some (" https://github.com/acme/widgets", "main").
Proof.
  refine (proj1 (proj1 (proj2 (proj2
    (handleSubmit_validation
       (AnalysisForm.mkForm " https://github.com/acme/widgets" "main" ""))))
    _)).
  split; [reflexivity|].
  exists " https://", "/acme/widgets". left. reflexivity.
Defined.

(** ** The graph viewer, continued *)

Section ViewerMore.
Import Graph GraphViewer.

Ltac same_instance :=
  right; left; first [reflexivity | assumption | symmetry; assumption].

Lemma set_zoom_clamps (level : Q) (cy : Cy) :
  minZoom cy = Float64.literal (1#10) -> maxZoom cy = 3%Q ->
  minZoom (set_zoom level cy) = Float64.literal (1#10)
  /\ maxZoom (set_zoom level cy) = 3%Q
  /\ (1#10 <= zoom (set_zoom level cy))%Q /\ (zoom (set_zoom level cy) <= 3)%Q.
Proof.
  intros Hmin Hmax. unfold set_zoom. cbn [minZoom maxZoom zoom].
  rewrite Hmin, Hmax. split; [reflexivity|]. split; [reflexivity|].
  rewrite literal_0_1.
  set (lo := (3602879701896397 # 36028797018963968)%Q).
  assert (Hlo : (1#10 <= lo)%Q) by discriminate.
  assert (Hhi : (lo <= 3)%Q) by discriminate.
  destruct (Qle_bool 3 level) eqn:E1.
  - assert (E : Qle_bool 3 lo = false) by reflexivity.
    rewrite E. split; [discriminate|apply Qle_refl].
  - assert (Hlt : (level < 3)%Q).
    { apply Qnot_le_lt. intros H. apply Qle_bool_iff in H. rewrite H in E1. discriminate E1. }
    destruct (Qle_bool level lo) eqn:E2.
    + split; assumption.
    + split; [|apply Qlt_le_weak; exact Hlt].
      apply Qle_trans with lo; [exact Hlo|].
      apply Qlt_le_weak, Qnot_le_lt. intros H. apply Qle_bool_iff in H.
      rewrite H in E2. discriminate E2.
Qed.

Lemma apply_highlight_shape (hs : list string) (cy : Cy) :
  apply_highlight hs cy
  = mkCy (instance cy) (cy_nodes (apply_highlight hs cy))
         (cy_edges (apply_highlight hs cy)) (zoom cy) (minZoom cy) (maxZoom cy).
Proof.
  unfold apply_highlight. destruct (0 <? List.length hs)%nat; reflexivity.
Qed.

Lemma zoom_within_range_cyRef (v v' : Viewer) :
  zoom_within_range v ->
  (cyRef v' = None \/ cyRef v' = cyRef v
   \/ (exists i els, cyRef v' = Some (cytoscape i els))
   \/ (exists hs cy, cyRef v = Some cy /\ cyRef v' = Some (apply_highlight hs cy))
   \/ (exists level cy, cyRef v = Some cy /\ cyRef v' = Some (set_zoom level cy))) ->
  zoom_within_range v'.
Proof.
  intros Hv H cy' Hcy'.
  destruct H as [H|[H|[[i [els H]]|[[hs [cy [Hcy H]]]|[level [cy [Hcy H]]]]]]];
    rewrite H in Hcy'.
  - discriminate Hcy'.
  - apply Hv. exact Hcy'.
  - injection Hcy' as <-. cbn [cytoscape minZoom maxZoom zoom].
    split; [reflexivity|]. split; [reflexivity|]. split; discriminate.
  - injection Hcy' as <-. rewrite apply_highlight_shape. cbn. apply Hv. exact Hcy.
  - injection Hcy' as <-. destruct (Hv cy Hcy) as [Hmin [Hmax _]].
    apply set_zoom_clamps; assumption.
Qed.

Lemma zoom_within_range_run_cleanup (v : Viewer) :
  zoom_within_range v -> zoom_within_range (run_cleanup v).
Proof.
  intros Hv. apply (zoom_within_range_cyRef v); [exact Hv|].
  unfold run_cleanup. destruct (cleanup v); [|same_instance].
  destruct (cyRef v); [left; reflexivity|same_instance].
Qed.

Lemma zoom_within_range_rebuild_effect (v : Viewer) :
  zoom_within_range v -> zoom_within_range (rebuild_effect v).
Proof.
  intros Hv. apply (zoom_within_range_cyRef v); [exact Hv|].
  unfold rebuild_effect. destruct (containerRef v); [|same_instance].
  destruct (renderable (graphData (props v))) as [els|]; [|same_instance].
  right. right. left. eexists _, _. reflexivity.
Qed.

Lemma zoom_within_range_highlight_effect (v : Viewer) :
  zoom_within_range v -> zoom_within_range (highlight_effect v).
Proof.
  intros Hv. apply (zoom_within_range_cyRef v); [exact Hv|].
  unfold highlight_effect. destruct (cyRef v) as [cy|] eqn:Hcy;
    [|same_instance].
  right. right. right. left. eexists _, cy. split; reflexivity.
Qed.

Lemma zoom_within_range_commit (p : Props) (l : string) (v : Viewer) :
  zoom_within_range v -> zoom_within_range (commit p l v).
Proof.
  intros Hv. unfold commit.
  match goal with |- context [if ?b then run_cleanup v else v] => set (rebuild := b) end.
  match goal with |- zoom_within_range (if ?b then _ else _) => set (relight := b) end.
  assert (H : zoom_within_range
    (let v0 := if rebuild then run_cleanup v else v in
     let v1 := mkViewer (containerRef v0) (cyRef v0) l p (cleanup v0) (calls v0) in
     if rebuild then rebuild_effect v1 else v1)).
  { destruct rebuild; cbv zeta.
    - apply zoom_within_range_rebuild_effect.
      apply (zoom_within_range_cyRef (run_cleanup v));
        [apply zoom_within_range_run_cleanup; exact Hv|same_instance].
    - apply (zoom_within_range_cyRef v); [exact Hv|same_instance]. }
  cbv zeta in H. destruct relight; [apply zoom_within_range_highlight_effect|]; exact H.
Qed.

Lemma zoom_within_range_step (v : Viewer) (ev : Event) :
  zoom_within_range v -> zoom_within_range (step v ev).
Proof.
  intros Hv. destruct ev as [p|l| | |]; cbn [step].
  - destruct (containerRef v); [apply zoom_within_range_commit|]; exact Hv.
  - destruct (containerRef v); [|exact Hv]. unfold handleChangeLayout.
    set (v1 := match cyRef v with Some _ => _ | None => v end).
    assert (H1 : zoom_within_range v1).
    { apply (zoom_within_range_cyRef v); [exact Hv|]. subst v1.
      destruct (cyRef v) eqn:E; same_instance. }
    destruct (l =? layout v1)%string; [exact H1|apply zoom_within_range_commit; exact H1].
  - apply (zoom_within_range_cyRef v); [exact Hv|]. unfold handleZoomIn, with_cy.
    destruct (cyRef v) as [cy|] eqn:E; [|same_instance].
    right. right. right. right. eexists _, cy. split; reflexivity.
  - apply (zoom_within_range_cyRef v); [exact Hv|]. unfold handleZoomOut, with_cy.
    destruct (cyRef v) as [cy|] eqn:E; [|same_instance].
    right. right. right. right. eexists _, cy. split; reflexivity.
  - destruct (containerRef v); [|exact Hv]. unfold unmount.
    apply (zoom_within_range_cyRef (run_cleanup v));
      [apply zoom_within_range_run_cleanup; exact Hv|same_instance].
Qed.

Lemma zoom_within_range_run (evs : list Event) :
  forall v : Viewer, zoom_within_range v -> zoom_within_range (run v evs).
Proof.
  unfold run. induction evs as [|ev evs IH]; intros v Hv; [exact Hv|].
  cbn [fold_left]. apply IH, zoom_within_range_step, Hv.
Qed.

Lemma zoom_within_range_mount (p : Props) : zoom_within_range (mount p).
Proof.
  unfold mount.
  apply zoom_within_range_highlight_effect, zoom_within_range_rebuild_effect.
  intros cy Hcy. discriminate Hcy.
Qed.

End ViewerMore.

(** X13. The zoom level never leaves the configured range: whatever
    renders, layout changes, zoom-ins and zoom-outs a mounted viewer goes
    through, the instance it holds has a zoom level between 0.1 and 3. *)
Theorem zoom_stays_in_range :
  forall (p : GraphViewer.Props) (evs : list GraphViewer.Event) (z : Q),
    GraphViewer.current_zoom (GraphViewer.run (GraphViewer.mount p) evs) = Some z ->
    (1#10 <= z)%Q /\ (z <= 3)%Q.
Proof.
  intros p evs z Hz.
  assert (H : GraphViewer.zoom_within_range (GraphViewer.run (GraphViewer.mount p) evs))
    by apply zoom_within_range_run, zoom_within_range_mount.
  unfold GraphViewer.current_zoom in Hz.
  destruct (GraphViewer.cyRef (GraphViewer.run (GraphViewer.mount p) evs)) as [cy|] eqn:Hcy;
    [|discriminate Hz].
  injection Hz as <-. destruct (H cy Hcy) as [_ [_ Hr]]. exact Hr.
Qed.

Lemma zoom_stays_in_range_witness :
  GraphViewer.current_zoom
    (GraphViewer.run (GraphViewer.mount (GraphViewer.props_of Samples.small_graph))
       (repeat GraphViewer.ZoomIn 8)) = Some 3%Q
  /\ (1#10 <= 3)%Q /\ (3 <= 3)%Q.
Proof.
  assert (H : GraphViewer.current_zoom
                (GraphViewer.run (GraphViewer.mount (GraphViewer.props_of Samples.small_graph))
                   (repeat GraphViewer.ZoomIn 8)) = Some 3%Q)
    by (vm_compute; reflexivity).
  split; [exact H|].
  exact (zoom_stays_in_range (GraphViewer.props_of Samples.small_graph)
           (repeat GraphViewer.ZoomIn 8) 3%Q H).
Defined.

(** X14. Zooming at the ends of the range. With the configured range
    [0.1, 3], a zoom-in from a level of 2.5 or more ends at exactly 3 and
    a zoom-out from a level of 0.125 or less ends at exactly 0.1; so a
    zoom-in at 3 and a zoom-out at 0.1 change nothing. *)
Theorem zoom_saturates :
  forall (v : GraphViewer.Viewer) (cy : GraphViewer.Cy),
    GraphViewer.cyRef v = Some cy ->
    GraphViewer.minZoom cy = Float64.literal (1#10) -> GraphViewer.maxZoom cy = 3%Q ->
    ((5#2 <= GraphViewer.zoom cy)%Q ->
       GraphViewer.current_zoom (GraphViewer.handleZoomIn v) = Some 3%Q)
    /\ ((GraphViewer.zoom cy <= 1#8)%Q ->
       GraphViewer.current_zoom (GraphViewer.handleZoomOut v)
       = Some (Float64.literal (1#10))).
Proof.
  intros v cy Hcy Hmin Hmax.
  unfold GraphViewer.handleZoomIn, GraphViewer.handleZoomOut, GraphViewer.with_cy,
    GraphViewer.current_zoom.
  rewrite Hcy. cbn [GraphViewer.cyRef option_map]. unfold GraphViewer.set_zoom.
  cbn [GraphViewer.zoom]. rewrite Hmin, Hmax.
  split; intros Hz.
  - assert (H : (Float64.mul (5#2) (Float64.literal (12#10))
                 <= Float64.mul (GraphViewer.zoom cy) (Float64.literal (12#10)))%Q).
    { apply round_mono. rewrite literal_1_2. lra. }
    assert (E0 : Float64.mul (5#2) (Float64.literal (12#10)) = 3%Q)
      by (vm_compute; reflexivity).
    rewrite E0 in H.
    assert (E : Qle_bool 3 (Float64.mul (GraphViewer.zoom cy) (Float64.literal (12#10)))
                = true) by (apply Qle_bool_iff; exact H).
    rewrite E. reflexivity.
  - assert (H : (Float64.mul (GraphViewer.zoom cy) (Float64.literal (8#10))
                 <= Float64.mul (1#8) (Float64.literal (8#10)))%Q).
    { apply round_mono. rewrite literal_0_8. lra. }
    assert (E0 : Float64.mul (1#8) (Float64.literal (8#10)) = Float64.literal (1#10))
      by (vm_compute; reflexivity).
    rewrite E0 in H.
    assert (Hlt : (Float64.literal (1#10) < 3)%Q) by (vm_compute; reflexivity).
    assert (E1 : Qle_bool 3 (Float64.mul (GraphViewer.zoom cy) (Float64.literal (8#10)))
                 = false).
    { destruct (Qle_bool 3 (Float64.mul (GraphViewer.zoom cy) (Float64.literal (8#10))))
        eqn:E; [|reflexivity].
      apply Qle_bool_iff in E. lra. }
    assert (E2 : Qle_bool (Float64.mul (GraphViewer.zoom cy) (Float64.literal (8#10)))
                   (Float64.literal (1#10)) = true)
      by (apply Qle_bool_iff; exact H).
    rewrite E1, E2. reflexivity.
Qed.

Lemma zoom_saturates_witness :
  GraphViewer.current_zoom
    (GraphViewer.handleZoomIn
       (GraphViewer.run (GraphViewer.mount (GraphViewer.props_of Samples.small_graph))
          (repeat GraphViewer.ZoomIn 8))) = Some 3%Q.
Proof.
  refine (proj1 (zoom_saturates
    (GraphViewer.run (GraphViewer.mount (GraphViewer.props_of Samples.small_graph))
       (repeat GraphViewer.ZoomIn 8))
    (GraphViewer.mkCy 0
       (map (fun d => GraphViewer.mkNodeEle d []) [Samples.core; Samples.util])
       [GraphViewer.mkEdgeEle (Samples.edge "lib/util.py" "lib/core.py") []]
       3 (Float64.literal (1#10)) 3) _ _ _) _).
  - vm_compute. reflexivity.
  - reflexivity.
  - reflexivity.
  - vm_compute. discriminate.
Defined.

(** X15. [getLayoutConfig]: each of the four layouts offered has its
    own configuration, and every layout name gets a configuration that
    animates for 500 ms, the force-directed one if the name is none of
    the four, unless the name is one that [configs] inherits from
    [Object.prototype] (['constructor'], ['toString'], ['__proto__'],
    ...): the lookup then finds the inherited property and the layout
    gets no option at all. *)
Theorem layout_configs :
  forall name : string,
    GraphViewer.getLayoutConfig "cose-bilkent" = GraphViewer.cose_bilkent_config
    /\ GraphViewer.getLayoutConfig "circle" = GraphViewer.circle_config
    /\ GraphViewer.getLayoutConfig "grid" = GraphViewer.grid_config
    /\ GraphViewer.getLayoutConfig "breadthfirst" = GraphViewer.breadthfirst_config
    /\ (In name GraphViewer.object_prototype_names ->
        GraphViewer.getLayoutConfig name = [])
    /\ (~ In name GraphViewer.object_prototype_names ->
        In ("animate", GraphViewer.VBool true) (GraphViewer.getLayoutConfig name)
        /\ In ("animationDuration", GraphViewer.VNum 500)
             (GraphViewer.getLayoutConfig name)
        /\ (name <> "cose-bilkent" -> name <> "circle" -> name <> "grid" ->
            name <> "breadthfirst" ->
            GraphViewer.getLayoutConfig name = GraphViewer.cose_bilkent_config)).
Proof.
  intros name.
  split; [reflexivity|]. split; [reflexivity|]. split; [reflexivity|].
  split; [reflexivity|].
  assert (Hin : existsb (String.eqb name) GraphViewer.object_prototype_names = true
                <-> In name GraphViewer.object_prototype_names).
  { rewrite existsb_exists. split.
    - intros [x [Hx E]]. apply String.eqb_eq in E. subst x. exact Hx.
    - intros H. exists name. split; [exact H|apply String.eqb_refl]. }
  split.
  - intros H. cbn in H.
    repeat (destruct H as [H|H]; [subst name; reflexivity|]). contradiction.
  - intros H. unfold GraphViewer.getLayoutConfig.
    destruct (existsb (String.eqb name) GraphViewer.object_prototype_names) eqn:E.
    { exfalso. apply H, Hin. reflexivity. }
    destruct (name =? "cose-bilkent")%string eqn:E1;
      [|destruct (name =? "circle")%string eqn:E2;
        [|destruct (name =? "grid")%string eqn:E3;
          [|destruct (name =? "breadthfirst")%string eqn:E4]]];
      (split; [simpl; auto|]); (split; [simpl; auto|]);
      intros H1 H2 H3 H4; try reflexivity;
      first [ apply String.eqb_eq in E1; contradiction
            | apply String.eqb_eq in E2; contradiction
            | apply String.eqb_eq in E3; contradiction
            | apply String.eqb_eq in E4; contradiction ].
Qed.

Lemma layout_configs_witness :
  GraphViewer.getLayoutConfig "toString" = []
  /\ GraphViewer.getLayoutConfig "concentric" = GraphViewer.cose_bilkent_config.
Proof.
  split.
  - apply (proj1 (proj2 (proj2 (proj2 (proj2 (layout_configs "toString")))))).
    cbn. tauto.
  - refine (proj2 (proj2
      (proj2 (proj2 (proj2 (proj2 (proj2 (layout_configs "concentric"))))) _)) _ _ _ _).
    + cbn. intros H.
      repeat (destruct H as [H|H]; [discriminate H|]). exact H.
    + discriminate.
    + discriminate.
    + discriminate.
    + discriminate.
Defined.

Section OverlayMore.
Import Graph GraphViewer.

Lemma filter_absorb {A : Type} (f g : A -> bool) (l : list A) :
  (forall x, f x = true -> g x = true) ->
  filter f (filter g l) = filter f l.
Proof.
  intros Hfg. induction l as [|x l IH]; [reflexivity|].
  simpl. destruct (g x) eqn:Hg; simpl.
  - rewrite IH. reflexivity.
  - destruct (f x) eqn:Hf; [|exact IH].
    apply Hfg in Hf. rewrite Hf in Hg. discriminate Hg.
Qed.

Lemma removeClass_addClass (names : list string) (x : string) (classes : list string) :
  includes names x = true ->
  removeClass names (addClass x classes) = removeClass names classes.
Proof.
  intros Hx. unfold addClass. destruct (includes classes x); [reflexivity|].
  unfold removeClass. rewrite filter_app. simpl. rewrite Hx. simpl.
  apply List.app_nil_r.
Qed.

Lemma cleared_twice (classes : list string) : cleared (cleared classes) = cleared classes.
Proof. apply filter_absorb. auto. Qed.

Lemma cleared_node_overlay (b : bool) (classes : list string) :
  cleared (node_overlay b classes) = cleared classes.
Proof.
  unfold node_overlay, cleared. destruct b; cbn [negb];
    rewrite removeClass_addClass by reflexivity; apply cleared_twice.
Qed.

Lemma cleared_edge_overlay (b : bool) (classes : list string) :
  cleared (edge_overlay b classes) = cleared classes.
Proof.
  unfold edge_overlay, cleared. destruct b.
  - rewrite removeClass_addClass by reflexivity.
    unfold removeClass at 1 2. rewrite filter_absorb.
    + fold (removeClass ["highlighted"; "dimmed"]
              (addClass "dimmed" (removeClass ["highlighted"; "dimmed"] classes))).
      rewrite removeClass_addClass by reflexivity. apply cleared_twice.
    + intros x. unfold includes. cbn [existsb].
      destruct ("highlighted" =? x)%string, ("dimmed" =? x)%string;
        cbn [orb negb]; intros H; try discriminate H; reflexivity.
  - rewrite removeClass_addClass by reflexivity. apply cleared_twice.
Qed.

(** The overlay is a function of the classes with the two overlay
    classes taken out. *)
Lemma node_overlay_cleared (b : bool) (classes classes' : list string) :
  cleared classes = cleared classes' -> node_overlay b classes = node_overlay b classes'.
Proof. unfold node_overlay, cleared. intros ->. reflexivity. Qed.

Lemma edge_overlay_cleared (b : bool) (classes classes' : list string) :
  cleared classes = cleared classes' -> edge_overlay b classes = edge_overlay b classes'.
Proof. unfold edge_overlay, cleared. intros ->. reflexivity. Qed.

(** What the overlay does to the node and edge lists, for any set. *)
Lemma apply_highlight_elements (hs : list string) (cy : Cy) :
  cy_nodes (apply_highlight hs cy)
  = map (fun n => mkNodeEle (node_data n)
                    (match hs with
                     | [] => cleared (node_classes n)
                     | _ :: _ => node_overlay (includes hs (id (node_data n)))
                                              (node_classes n)
                     end))
        (cy_nodes cy)
  /\ cy_edges (apply_highlight hs cy)
     = map (fun e => mkEdgeEle (edge_data e)
                       (match hs with
                        | [] => cleared (edge_classes e)
                        | _ :: _ => edge_overlay (connected hs cy e) (edge_classes e)
                        end))
           (cy_edges cy).
Proof.
  destruct hs as [|h hs].
  - apply apply_highlight_empty.
  - split; [apply apply_highlight_nodes|apply apply_highlight_edges]; discriminate.
Qed.

Lemma apply_highlight_node_data (hs : list string) (cy : Cy) :
  map node_data (cy_nodes (apply_highlight hs cy)) = map node_data (cy_nodes cy).
Proof.
  rewrite (proj1 (apply_highlight_elements hs cy)), map_map. reflexivity.
Qed.

End OverlayMore.

(** X16. The overlay depends on the last highlight set only: applying
    the overlay for one set and then for another leaves the instance
    exactly as applying the second alone; in particular applying the
    same overlay twice changes nothing more. *)
Theorem highlight_overlay_supersedes :
  forall (hs1 hs2 : list string) (cy : GraphViewer.Cy),
    GraphViewer.apply_highlight hs2 (GraphViewer.apply_highlight hs1 cy)
    = GraphViewer.apply_highlight hs2 cy.
Proof.
  intros hs1 hs2 cy.
  rewrite (apply_highlight_shape hs2 (GraphViewer.apply_highlight hs1 cy)).
  rewrite (apply_highlight_shape hs2 cy).
  rewrite (apply_highlight_shape hs1 cy) at 1 4 5 6.
  cbn [GraphViewer.instance GraphViewer.zoom GraphViewer.minZoom GraphViewer.maxZoom].
  f_equal.
  - rewrite (proj1 (apply_highlight_elements hs2 _)).
    rewrite (proj1 (apply_highlight_elements hs1 cy)).
    rewrite (proj1 (apply_highlight_elements hs2 cy)).
    rewrite map_map. apply map_ext. intros n.
    cbn [GraphViewer.node_data GraphViewer.node_classes]. f_equal.
    destruct hs2 as [|h2 t2]; destruct hs1 as [|h1 t1];
      first [ apply cleared_twice
            | apply cleared_node_overlay
            | apply node_overlay_cleared; first [apply cleared_twice
                                               |apply cleared_node_overlay] ].
  - rewrite (proj2 (apply_highlight_elements hs2 _)).
    rewrite (proj2 (apply_highlight_elements hs1 cy)).
    rewrite (proj2 (apply_highlight_elements hs2 cy)).
    rewrite map_map. apply map_ext. intros e.
    cbn [GraphViewer.edge_data GraphViewer.edge_classes]. f_equal.
    destruct hs2 as [|h2 t2].
    + destruct hs1; [apply cleared_twice|apply cleared_edge_overlay].
    + match goal with
      | |- GraphViewer.edge_overlay (GraphViewer.connected ?l ?c ?x) _ = _ =>
          replace (GraphViewer.connected l c x)
            with (GraphViewer.connected (h2 :: t2) cy e)
      end.
      * apply edge_overlay_cleared.
        destruct hs1; [apply cleared_twice|apply cleared_edge_overlay].
      * apply connected_data; [|reflexivity].
        symmetry. apply apply_highlight_node_data.
Qed.

(** X17. The overlay touches the two overlay classes only: any other
    class is on a node, and on an edge, after the overlay exactly when it
    was there before. *)
Theorem highlight_overlay_keeps_other_classes :
  forall (hs : list string) (cy : GraphViewer.Cy) (c : string),
    c <> "highlighted" -> c <> "dimmed" ->
    map (fun n => GraphViewer.hasClass c (GraphViewer.node_classes n))
        (GraphViewer.cy_nodes (GraphViewer.apply_highlight hs cy))
    = map (fun n => GraphViewer.hasClass c (GraphViewer.node_classes n))
          (GraphViewer.cy_nodes cy)
    /\ map (fun e => GraphViewer.hasClass c (GraphViewer.edge_classes e))
           (GraphViewer.cy_edges (GraphViewer.apply_highlight hs cy))
       = map (fun e => GraphViewer.hasClass c (GraphViewer.edge_classes e))
             (GraphViewer.cy_edges cy).
Proof.
  intros hs cy c Hh Hd.
  assert (Eh : ("highlighted" =? c)%string = false)
    by (apply String.eqb_neq; intros H; apply Hh; symmetry; exact H).
  assert (Ed : ("dimmed" =? c)%string = false)
    by (apply String.eqb_neq; intros H; apply Hd; symmetry; exact H).
  assert (Hcl : forall cl, GraphViewer.hasClass c (GraphViewer.cleared cl) = GraphViewer.hasClass c cl).
  { intros cl. unfold GraphViewer.cleared. rewrite hasClass_removeClass.
    unfold GraphViewer.includes at 1. cbn [existsb]. rewrite Eh, Ed.
    apply andb_true_r. }
  destruct (apply_highlight_elements hs cy) as [-> ->].
  rewrite !map_map. split; apply map_ext; intros x;
    cbn [GraphViewer.node_classes GraphViewer.edge_classes];
    destruct hs as [|h t]; try apply Hcl.
  - unfold GraphViewer.node_overlay.
    destruct (GraphViewer.includes (h :: t) (Graph.id (GraphViewer.node_data x)));
      cbn [negb]; rewrite hasClass_addClass, ?Eh, ?Ed; apply Hcl.
  - unfold GraphViewer.edge_overlay.
    destruct (GraphViewer.connected (h :: t) cy x).
    + rewrite hasClass_addClass, hasClass_removeClass, hasClass_addClass, Eh, Ed.
      unfold GraphViewer.includes at 1. cbn [existsb orb]. rewrite Ed.
      cbn [orb negb]. rewrite andb_true_r. apply Hcl.
    + rewrite hasClass_addClass, Ed. apply Hcl.
Qed.

Lemma highlight_overlay_keeps_other_classes_witness :
  map (fun n => GraphViewer.hasClass "selected" (GraphViewer.node_classes n))
      (GraphViewer.cy_nodes
         (GraphViewer.apply_highlight ["lib/util.py"]
            (GraphViewer.mkCy 0 [GraphViewer.mkNodeEle Samples.util ["selected"; "dimmed"]]
                              [] 1 (1#10) 3)))
  = map (fun n => GraphViewer.hasClass "selected" (GraphViewer.node_classes n))
        (GraphViewer.cy_nodes
           (GraphViewer.mkCy 0 [GraphViewer.mkNodeEle Samples.util ["selected"; "dimmed"]]
                             [] 1 (1#10) 3)).
Proof.
  refine (proj1 (highlight_overlay_keeps_other_classes ["lib/util.py"]
    (GraphViewer.mkCy 0 [GraphViewer.mkNodeEle Samples.util ["selected"; "dimmed"]]
                      [] 1 (1#10) 3) "selected" _ _)); discriminate.
Defined.

(** X18. What a re-render does to a rendered graph, the highlight array
    being the same object. With the same graph object and the same
    [onNodeClick] function nothing happens to the engine. With another
    [onNodeClick] function (a handler re-created by the parent's render)
    the instance is destroyed and a new one is constructed with the
    current layout; the highlight effect does not run, so no node of the
    new instance carries an overlay class, whatever the highlight set
    holds. *)
Theorem rerender_rebuilds_on_new_callback :
  forall (v : GraphViewer.Viewer) (cy : GraphViewer.Cy) (els : Graph.Elements)
         (p : GraphViewer.Props),
    GraphViewer.rendered v cy els ->
    Graph.addr (GraphViewer.highlightedNodes p)
    = Graph.addr (GraphViewer.highlightedNodes (GraphViewer.props v)) ->
    let v' := GraphViewer.step v (GraphViewer.Render p) in
    (GraphViewer.same_graph (GraphViewer.graphData p)
                            (GraphViewer.graphData (GraphViewer.props v)) = true ->
     GraphViewer.onNodeClick p = GraphViewer.onNodeClick (GraphViewer.props v) ->
     GraphViewer.calls v' = GraphViewer.calls v /\ GraphViewer.cyRef v' = Some cy)
    /\ (GraphViewer.onNodeClick p <> GraphViewer.onNodeClick (GraphViewer.props v) ->
        forall els',
          GraphViewer.renderable (GraphViewer.graphData p) = Some els' ->
          let fresh := GraphViewer.count_constructs (GraphViewer.calls v) in
          GraphViewer.calls v'
          = GraphViewer.calls v
              ++ [ GraphViewer.Destroy (GraphViewer.instance cy);
                   GraphViewer.Construct fresh (GraphViewer.layout v)
                     (GraphViewer.getLayoutConfig (GraphViewer.layout v)) ]
          /\ GraphViewer.cyRef v' = Some (GraphViewer.cytoscape fresh els')
          /\ Forall (fun n => GraphViewer.node_classes n = [])
                    (GraphViewer.cy_nodes (GraphViewer.cytoscape fresh els'))).
Proof.
  intros v cy els p [Hc [Hcy [Hcl Hr]]] Hhl v'. subst v'.
  cbn [GraphViewer.step]. rewrite Hc. unfold GraphViewer.commit.
  apply Nat.eqb_eq in Hhl. rewrite Hhl, String.eqb_refl. cbn [negb].
  split.
  - intros Hg Hf. apply Nat.eqb_eq in Hf. rewrite Hg, Hf. cbn. auto.
  - intros Hf els' Hr'. apply Nat.eqb_neq in Hf. rewrite Hf, !andb_false_r.
    cbn [negb]. unfold GraphViewer.run_cleanup. rewrite Hcl, Hcy.
    unfold GraphViewer.rebuild_effect.
    cbn -[GraphViewer.cytoscape GraphViewer.getLayoutConfig GraphViewer.count_constructs].
    rewrite Hc, Hr'.
    cbn -[GraphViewer.cytoscape GraphViewer.getLayoutConfig GraphViewer.count_constructs].
    assert (Hfresh : GraphViewer.count_constructs
                       (GraphViewer.calls v ++ [GraphViewer.Destroy (GraphViewer.instance cy)])
                     = GraphViewer.count_constructs (GraphViewer.calls v)).
    { rewrite count_constructs_app. unfold GraphViewer.count_constructs at 2.
      simpl. lia. }
    rewrite Hfresh, <- app_assoc. cbn [app].
    split; [reflexivity|]. split; [reflexivity|].
    unfold GraphViewer.cytoscape. cbn [GraphViewer.cy_nodes].
    apply Forall_forall. intros n Hin. apply in_map_iff in Hin.
    destruct Hin as [d [<- _]]. reflexivity.
Qed.

Lemma rerender_rebuilds_on_new_callback_witness :
  GraphViewer.calls
    (GraphViewer.step (GraphViewer.mount Samples.util_highlighted)
       (GraphViewer.Render
          (GraphViewer.mkProps (Some (Graph.mkObj 1 Samples.small_graph)) 2
                               (Graph.mkObj 2 ["lib/util.py"]))))
  = GraphViewer.calls (GraphViewer.mount Samples.util_highlighted)
      ++ [ GraphViewer.Destroy 0;
           GraphViewer.Construct 1 "cose-bilkent" GraphViewer.cose_bilkent_config ].
Proof.
  refine (proj1 (proj2 (rerender_rebuilds_on_new_callback
    (GraphViewer.mount Samples.util_highlighted)
    (GraphViewer.apply_highlight ["lib/util.py"]
       (GraphViewer.cytoscape 0
          (Graph.mkElements (Some [Samples.core; Samples.util])
             (Some [Samples.edge "lib/util.py" "lib/core.py"]))))
    (Graph.mkElements (Some [Samples.core; Samples.util])
       (Some [Samples.edge "lib/util.py" "lib/core.py"]))
    (GraphViewer.mkProps (Some (Graph.mkObj 1 Samples.small_graph)) 2
                         (Graph.mkObj 2 ["lib/util.py"]))
    _ _) _ _ _)).
  - repeat split.
  - reflexivity.
  - discriminate.
  - reflexivity.
Defined.

(** The cached risk file of [lib/core.py], its fetch failing. *)
Lemma risk_click_failure_degrades_witness :
  App.blastRadius
    (App.ui (App.settle (List.length (App.inflight Samples.loaded))
               (Rejected Samples.blip)
               (App.select (App.OnRiskFile Samples.core_risk) Samples.loaded)))
  = Some (App.degraded Samples.core_risk).
Proof.
  refine (proj1 (risk_click_failure_degrades Samples.core_risk Samples.blip
                   Samples.loaded _)).
  reflexivity.
Defined.
